(* Shallow embedding of the detection and scoring engine of the
   On-chain-Anomaly-Tracker repository:
     src/frontend/backend/transaction_anomaly.py   (wash trading, price
        manipulation, pump and dump)
     src/frontend/backend/liquidity_pool.py        (rug pull, coordinated
        dump, concentrated attacks, pool domination)
     src/backend/sandwich_attack.py                (sandwich attacks)
     src/backend/wallet_behavior.py                (insider trading, sniping)
     src/backend/threat_risk_detector.py           (risk modules, engine)

   Modelling conventions.
   - Python floats are modelled by rationals [Q]; thresholds and rounding
     are exact in this model.  Values that live in pandas/numpy columns
     may become non-finite, so they are modelled by [NpF] (a rational, an
     infinity or NaN) with the numpy division that never raises.
   - Python exceptions are the [Raise] branch of the [Result] monad; a
     Python division [x / y] on plain floats raises ZeroDivisionError when
     [y] is zero.
   - Raw provider JSON is [JVal]; dictionaries are association lists and
     [d[k]] raises KeyError when [k] is absent.
   - Timestamps handled by pandas ([pd.to_datetime]) are seconds as [Z]. *)

From Stdlib Require Import List String Ascii Bool ZArith QArith Qround Qabs Lqa Lia Sorted.
Import ListNotations.
Set Warnings "-register-all".

Open Scope string_scope.
Open Scope list_scope.
Open Scope Q_scope.

(* ------------------------------------------------------------------ *)
(** * Python runtime: exceptions, numbers, JSON values *)

Inductive PyExc :=
| KeyError (k : string)
| ValueError
| TypeError
| ZeroDivisionError
| AttributeError
(** [UntypedField k] is not a Python exception: the provider sent, under
    key [k], a value whose JSON type differs from the dataclass annotation
    of the field it is copied into unchecked.  Python would store it as is;
    what happens to such a value later is outside this model. *)
| UntypedField (k : string).

Inductive Result (A : Type) :=
| Ok (a : A)
| Raise (e : PyExc).
Arguments Ok {A} a.
Arguments Raise {A} e.

Definition bind {A B} (m : Result A) (k : A -> Result B) : Result B :=
  match m with Ok a => k a | Raise e => Raise e end.

Notation "'let*' x ':=' m 'in' k" := (bind m (fun x => k))
  (at level 200, x name, m at level 100, k at level 200).

(** A list comprehension [[f x for x in l]] whose body may raise. *)
Fixpoint mapM {A B} (f : A -> Result B) (l : list A) : Result (list B) :=
  match l with
  | [] => Ok []
  | x :: l' => let* y := f x in let* ys := mapM f l' in Ok (y :: ys)
  end.

(** A filtering loop whose test may raise. *)
Fixpoint filterM {A} (p : A -> Result bool) (l : list A) : Result (list A) :=
  match l with
  | [] => Ok []
  | x :: l' => let* b := p x in let* ys := filterM p l' in Ok (if b then x :: ys else ys)
  end.

(** A loop that appends the (possibly raising) results of each step. *)
Fixpoint flat_mapM {A B} (f : A -> Result (list B)) (l : list A) : Result (list B) :=
  match l with
  | [] => Ok []
  | x :: l' => let* a := f x in let* b := flat_mapM f l' in Ok (a ++ b)
  end.

Definition Qltb (x y : Q) : bool := negb (Qle_bool y x).

(** Python's [min(a, b)] and [max(a, b)]: the first argument wins ties. *)
Definition py_min (a b : Q) : Q := if Qltb b a then b else a.
Definition py_max (a b : Q) : Q := if Qltb a b then b else a.

(** Python's [x / y] on floats. *)
Definition py_div (x y : Q) : Result Q :=
  if Qeq_bool y 0 then Raise ZeroDivisionError else Ok (x / y).

Definition nat_q (n : nat) : Q := inject_Z (Z.of_nat n).

Definition qsum {A} (f : A -> Q) (l : list A) : Q :=
  fold_right (fun x acc => f x + acc) 0 l.

(** Python's built-in [round(x, 2)]: round half to even at two decimals. *)
Definition round_half_even (x : Q) : Z :=
  let f := Qfloor x in
  let r := x - inject_Z f in
  if Qltb r (1#2) then f
  else if Qltb (1#2) r then (f + 1)%Z
  else if Z.even f then f else (f + 1)%Z.

Definition round2 (x : Q) : Q := inject_Z (round_half_even (x * 100)) / 100.

(* ------------------------------------------------------------------ *)
(** * threat_risk_detector.py: risk modules and the risk engine *)

Module Risk.

(** The six subclasses of [BaseRisk], with their constructor arguments. *)
Inductive RiskModule :=
| GovernanceRisk (is_proxy access_control upgradeable_contract : bool)
| LiquidityRisk (unlocked_liquidity : bool) (lockedLiquidityPercent creator_percent : Q)
| HolderRisk (percentageHeldByTop10 : Q)
| TokenSecurityRisk (buy_tax_percentage : Q) (transfer_pausable is_blacklisted is_trusted : bool)
| MarketRisk (volatility ath_change atl_change : Q) (marketCapRank : Z)
| FraudRisk (hacker drainer mixers tornado : bool).

Definition int_of_bool (b : bool) : Q := if b then 1 else 0.

(** [max(0.0, min(100.0, x))] *)
Definition clamp100 (x : Q) : Q := py_max 0 (py_min 100 x).

(** [BaseRisk.label] *)
Definition label (score : Q) : string :=
  if Qle_bool 0 score && Qle_bool score 23 then "Low Risk"
  else if Qltb 23 score && Qle_bool score 50 then "Medium Risk"
  else if Qltb 50 score && Qle_bool score 100 then "High Risk"
  else "Unknown".

(** The [score] method of every module.  [x or 0.0] on a float is [x]
    itself, so only the [marketCapRank or 1000] default is visible. *)
Definition score (m : RiskModule) : Q :=
  match m with
  | GovernanceRisk ip ac uc =>
      let s := (1#2) * int_of_bool ac + (2#5) * int_of_bool ip + (3#10) * int_of_bool uc in
      round2 (s / ((1#2) + (2#5) + (3#10)) * 100)
  | LiquidityRisk ul locked creator =>
      let unlocked_score := if ul then 100 else 0 in
      let locked_score := clamp100 (100 - locked) in
      let creator_score := clamp100 creator in
      let s := (1#2) * unlocked_score + (3#10) * locked_score + (1#5) * creator_score in
      round2 (s / ((1#2) + (3#10) + (1#5)))
  | HolderRisk top10 => round2 (clamp100 top10)
  | TokenSecurityRisk tax pausable blacklisted trusted =>
      let tax_score := clamp100 tax in
      let pausable_score := if pausable then 100 else 0 in
      let blacklist_score := if blacklisted then 100 else 0 in
      let trusted_score := if trusted then 0 else 100 in
      let s := (2#5) * tax_score + (1#5) * pausable_score
               + (3#10) * blacklist_score + (1#10) * trusted_score in
      round2 (s / ((2#5) + (1#5) + (3#10) + (1#10)))
  | MarketRisk vol ath atl rank =>
      let rank' := if Z.eqb rank 0 then 1000%Z else rank in
      let vol_score := clamp100 (Qabs vol) in
      let ath_score := clamp100 (Qabs ath) in
      let atl_score := clamp100 (Qabs atl) in
      let rank_score := clamp100 (inject_Z (rank' - 1) / 999 * 100) in
      let s := (2#5) * vol_score + (1#5) * ath_score + (1#5) * atl_score
               + (1#5) * rank_score in
      round2 (s / ((2#5) + (1#5) + (1#5) + (1#5)))
  | FraudRisk h d m t =>
      let s := 100 * int_of_bool h + 100 * int_of_bool d
               + 100 * int_of_bool m + 100 * int_of_bool t in
      round2 (s / 4)
  end.

(** [RiskEngine(modules)]: the module dictionary, in insertion order. *)
Definition modules := list (string * RiskModule).

(** [RiskEngine.overall_score] *)
Definition overall_score (ms : modules) : Q :=
  let scores := map (fun nm => score (snd nm)) ms in
  match scores with
  | [] => 0
  | _ => round2 (qsum id scores / inject_Z (Z.of_nat (List.length scores)))
  end.

(** [RiskEngine.overall_risk] *)
Definition overall_risk (ms : modules) : Q * string :=
  let s := overall_score ms in (s, label s).

End Risk.

(** Raw provider JSON, as returned by [response.json()]. *)
Inductive JVal :=
| JNull
| JBool (b : bool)
| JNum (q : Q)
| JStr (s : string)
| JArr (l : list JVal)
| JObj (kvs : list (string * JVal)).

(** Lookup in a JSON object ([json.loads] keeps the last duplicate). *)
Definition assoc_last (kvs : list (string * JVal)) (k : string) : option JVal :=
  fold_left (fun acc kv => if String.eqb (fst kv) k then Some (snd kv) else acc) kvs None.

(** [d[k]] *)
Definition getitem (d : JVal) (k : string) : Result JVal :=
  match d with
  | JObj kvs => match assoc_last kvs k with Some v => Ok v | None => Raise (KeyError k) end
  | _ => Raise TypeError
  end.

(** [d.get(k, default)] *)
Definition get_default (d : JVal) (k : string) (dflt : JVal) : Result JVal :=
  match d with
  | JObj kvs => match assoc_last kvs k with Some v => Ok v | None => Ok dflt end
  | _ => Raise AttributeError
  end.

(** [str.lower()] on ASCII text (wallet addresses are hexadecimal). *)
Definition lower_ascii (c : ascii) : ascii :=
  let n := nat_of_ascii c in
  if (65 <=? n)%nat && (n <=? 90)%nat then ascii_of_nat (n + 32) else c.

Fixpoint lower (s : string) : string :=
  match s with
  | EmptyString => EmptyString
  | String c s' => String (lower_ascii c) (lower s')
  end.

Definition py_lower (v : JVal) : Result string :=
  match v with JStr s => Ok (lower s) | _ => Raise AttributeError end.

(** Decimal literals accepted by Python's [float(str)]: surrounding
    whitespace, an optional sign, digits with an optional point, an optional
    exponent.  (The spellings [inf], [nan] and digit separators [_] are not
    covered: the model rejects them.) *)
Definition is_space (c : ascii) : bool :=
  let n := nat_of_ascii c in (n =? 32)%nat || ((9 <=? n)%nat && (n <=? 13)%nat).

Fixpoint drop_spaces (l : list ascii) : list ascii :=
  match l with c :: l' => if is_space c then drop_spaces l' else l | [] => [] end.

Definition strip (l : list ascii) : list ascii := rev (drop_spaces (rev (drop_spaces l))).

Definition digit_val (c : ascii) : option Z :=
  let n := nat_of_ascii c in
  if (48 <=? n)%nat && (n <=? 57)%nat then Some (Z.of_nat (n - 48)) else None.

(** Leading digits: their value, their number, the rest. *)
Fixpoint take_digits (acc : Z) (cnt : nat) (l : list ascii) : Z * nat * list ascii :=
  match l with
  | c :: l' => match digit_val c with
               | Some d => take_digits (acc * 10 + d)%Z (S cnt) l'
               | None => (acc, cnt, l)
               end
  | [] => (acc, cnt, [])
  end.

Definition take_sign (l : list ascii) : Z * list ascii :=
  match l with
  | "-"%char :: l' => ((-1)%Z, l')
  | "+"%char :: l' => (1%Z, l')
  | _ => (1%Z, l)
  end.

Definition pow10 (n : Z) : Q := inject_Z (10 ^ n).

Definition parse_float_str (s : string) : option Q :=
  let l := strip (list_ascii_of_string s) in
  let '(sg, l1) := take_sign l in
  let '(ip, ni, l2) := take_digits 0 0 l1 in
  let '(fp, nf, l3) := match l2 with
                       | "."%char :: l' => take_digits 0 0 l'
                       | _ => (0%Z, 0%nat, l2)
                       end in
  if (ni + nf =? 0)%nat then None else
  let mant := inject_Z (sg * (ip * 10 ^ Z.of_nat nf + fp)) / pow10 (Z.of_nat nf) in
  match l3 with
  | [] => Some mant
  | e :: l4 =>
      if (e =? "e")%char || (e =? "E")%char then
        let '(esg, l5) := take_sign l4 in
        let '(ev, ne, l6) := take_digits 0 0 l5 in
        match ne, l6 with
        | S _, [] => Some (if (esg <? 0)%Z then mant / pow10 ev else mant * pow10 ev)
        | _, _ => None
        end
      else None
  end.

(** [float(v)] *)
Definition py_float (v : JVal) : Result Q :=
  match v with
  | JNum q => Ok q
  | JBool b => Ok (if b then 1 else 0)
  | JStr s => match parse_float_str s with Some q => Ok q | None => Raise ValueError end
  | JNull | JArr _ | JObj _ => Raise TypeError
  end.

(** Fields copied without conversion, at the type of their annotation. *)
Definition as_str (k : string) (v : JVal) : Result string :=
  match v with JStr s => Ok s | _ => Raise (UntypedField k) end.

Definition as_int (k : string) (v : JVal) : Result Z :=
  match v with
  | JNum q => let q' := Qred q in
              if Z.eqb (Zpos (Qden q')) 1 then Ok (Qnum q') else Raise (UntypedField k)
  | _ => Raise (UntypedField k)
  end.

Definition as_num (k : string) (v : JVal) : Result Q :=
  match v with JNum q => Ok q | _ => Raise (UntypedField k) end.

(** Grouping into a [defaultdict(list)]: keys in order of first
    appearance, each group in input order. *)
Definition keys_in_order {K A} (eqb : K -> K -> bool) (key : A -> K) (l : list A) : list K :=
  fold_left (fun acc x => if existsb (eqb (key x)) acc then acc else (acc ++ [key x])%list) l [].

Definition group_by {K A} (eqb : K -> K -> bool) (key : A -> K) (l : list A) : list (K * list A) :=
  map (fun k => (k, filter (fun x => eqb (key x) k) l)) (keys_in_order eqb key l).

(** [list.sort(key=...)] (stable, ascending) on an integer key. *)
Fixpoint insert_asc {A} (key : A -> Z) (x : A) (l : list A) : list A :=
  match l with
  | [] => [x]
  | y :: l' => if (key x <? key y)%Z then x :: y :: l' else y :: insert_asc key x l'
  end.

Definition sort_asc {A} (key : A -> Z) (l : list A) : list A :=
  fold_left (fun acc x => insert_asc key x acc) l [].

(** [list.sort(key=..., reverse=True)] (stable, descending) on a float key. *)
Fixpoint insert_desc {A} (key : A -> Q) (x : A) (l : list A) : list A :=
  match l with
  | [] => [x]
  | y :: l' => if Qltb (key y) (key x) then x :: y :: l' else y :: insert_desc key x l'
  end.

Definition sort_desc {A} (key : A -> Q) (l : list A) : list A :=
  fold_left (fun acc x => insert_desc key x acc) l [].

(** Consecutive pairs [(l[i], l[i+1])]. *)
Fixpoint adjacent_pairs {A} (l : list A) : list (A * A) :=
  match l with
  | x :: ((y :: _) as t) => (x, y) :: adjacent_pairs t
  | _ => []
  end.

(* ------------------------------------------------------------------ *)
(** * sandwich_attack.py *)

Module Sandwich.

Record SwapTransaction := {
  transaction_hash : string;
  transaction_index : Z;
  transaction_type : string;
  block_number : Z;
  block_timestamp : string;
  wallet_address : string;
  pair_address : string;
  pair_label : string;
  base_token : string;
  quote_token : string;
  bought_amount : Q;
  bought_symbol : string;
  sold_amount : Q;
  sold_symbol : string;
  total_value_usd : Q;
  base_quote_price : Q
}.

Record SandwichAttack := {
  attacker_address : string;
  victim_address : string;
  sw_block_number : Z;
  front_run_tx : SwapTransaction;
  victim_tx : SwapTransaction;
  back_run_tx : SwapTransaction;
  profit_usd : Q;
  attack_timestamp : string
}.

(** [SandwichAttackAnalyzer._parse_swap]; keyword arguments are evaluated
    left to right, so the first failing field decides the exception. *)
Definition _parse_swap (d : JVal) : Result SwapTransaction :=
  let* h := getitem d "transactionHash" in let* h := as_str "transactionHash" h in
  let* ix := getitem d "transactionIndex" in let* ix := as_int "transactionIndex" ix in
  let* ty := getitem d "transactionType" in let* ty := as_str "transactionType" ty in
  let* bn := getitem d "blockNumber" in let* bn := as_int "blockNumber" bn in
  let* ts := getitem d "blockTimestamp" in let* ts := as_str "blockTimestamp" ts in
  let* w := getitem d "walletAddress" in let* w := py_lower w in
  let* pa := getitem d "pairAddress" in let* pa := as_str "pairAddress" pa in
  let* pl := get_default d "pairLabel" (JStr "") in let* pl := as_str "pairLabel" pl in
  let* bt := getitem d "baseToken" in let* bt := as_str "baseToken" bt in
  let* qt := getitem d "quoteToken" in let* qt := as_str "quoteToken" qt in
  let* bo := getitem d "bought" in let* ba := getitem bo "amount" in let* ba := py_float ba in
  let* bo' := getitem d "bought" in let* bs := getitem bo' "symbol" in let* bs := as_str "bought.symbol" bs in
  let* so := getitem d "sold" in let* sa := getitem so "amount" in let* sa := py_float sa in
  let* so' := getitem d "sold" in let* ss := getitem so' "symbol" in let* ss := as_str "sold.symbol" ss in
  let* tv := getitem d "totalValueUsd" in let* tv := as_num "totalValueUsd" tv in
  let* bq := getitem d "baseQuotePrice" in let* bq := py_float bq in
  Ok {| transaction_hash := h; transaction_index := ix; transaction_type := ty;
        block_number := bn; block_timestamp := ts; wallet_address := w;
        pair_address := pa; pair_label := pl; base_token := bt; quote_token := qt;
        bought_amount := ba; bought_symbol := bs; sold_amount := Qabs sa;
        sold_symbol := ss; total_value_usd := tv; base_quote_price := bq |}.

(** [_group_by_block]: a [defaultdict] keyed by block number, each block
    sorted by transaction index. *)
Definition _group_by_block (swaps : list SwapTransaction) : list (Z * list SwapTransaction) :=
  map (fun kv => (fst kv, sort_asc transaction_index (snd kv)))
      (group_by Z.eqb block_number swaps).

(** [_calculate_profit] *)
Definition _calculate_profit (front_run back_run : SwapTransaction) : Q :=
  total_value_usd back_run - total_value_usd front_run.

Definition is_victim (attacker_wallet : string) (front_run back_run tx : SwapTransaction) : bool :=
  negb (String.eqb (wallet_address tx) attacker_wallet)
  && String.eqb (pair_address tx) (pair_address front_run)
  && (transaction_index front_run <? transaction_index tx)%Z
  && (transaction_index tx <? transaction_index back_run)%Z.

Definition is_buy_sell_pair (front_run back_run : SwapTransaction) : bool :=
  String.eqb (transaction_type front_run) "buy"
  && String.eqb (transaction_type back_run) "sell"
  && String.eqb (pair_address front_run) (pair_address back_run).

(** The findings of one candidate pair [(front_run, back_run)]. *)
Definition attacks_of_pair (transactions : list SwapTransaction) (attacker_wallet : string)
    (fb : SwapTransaction * SwapTransaction) : list SandwichAttack :=
  let '(front_run, back_run) := fb in
  if is_buy_sell_pair front_run back_run then
    map (fun v => {| attacker_address := attacker_wallet;
                     victim_address := wallet_address v;
                     sw_block_number := block_number front_run;
                     front_run_tx := front_run; victim_tx := v; back_run_tx := back_run;
                     profit_usd := _calculate_profit front_run back_run;
                     attack_timestamp := block_timestamp front_run |})
        (filter (is_victim attacker_wallet front_run back_run) transactions)
  else [].

(** [_detect_sandwich_in_block] *)
Definition _detect_sandwich_in_block (transactions : list SwapTransaction) : list SandwichAttack :=
  let wallet_txs := group_by String.eqb wallet_address transactions in
  let potential_attackers := filter (fun kv => (2 <=? List.length (snd kv))%nat) wallet_txs in
  flat_map (fun kv => flat_map (attacks_of_pair transactions (fst kv)) (adjacent_pairs (snd kv)))
           potential_attackers.

(** The detection part of [analyze]: group by block, visit the blocks in
    descending block order and skip blocks with fewer than three
    transactions. *)
Definition detect_all (swaps : list SwapTransaction) : list SandwichAttack :=
  let blocks := _group_by_block swaps in
  let ordered := sort_desc (fun kv => inject_Z (fst kv)) blocks in
  flat_map (fun kv => if (3 <=? List.length (snd kv))%nat
                      then _detect_sandwich_in_block (snd kv) else [])
           ordered.

(** [analyze], from [data['result']] on. *)
Definition analyze (result : list JVal) : Result (list SandwichAttack) :=
  let* swaps := mapM _parse_swap result in
  Ok (detect_all swaps).

End Sandwich.

(** Python's [min(xs, key=k)] / [max(xs, key=k)] on a non-empty list
    [x :: xs]: the first minimal / maximal element. *)
Definition min_by {A} (key : A -> Z) (x : A) (xs : list A) : A :=
  fold_left (fun cur y => if (key y <? key cur)%Z then y else cur) xs x.

Definition max_by {A} (key : A -> Z) (x : A) (xs : list A) : A :=
  fold_left (fun cur y => if (key cur <? key y)%Z then y else cur) xs x.

(* ------------------------------------------------------------------ *)
(** * wallet_behavior.py *)

Module WalletBehavior.

Record SwapTransaction := {
  transaction_hash : string;
  transaction_index : Z;
  transaction_type : string;
  block_number : Z;
  block_timestamp : string;
  wallet_address : string;
  pair_address : string;
  pair_label : string;
  base_token : string;
  quote_token : string;
  bought_amount : Q;
  bought_symbol : string;
  sold_amount : Q;
  sold_symbol : string;
  total_value_usd : Q;
  base_quote_price : Q;
  sub_category : string
}.

(** [_parse_swap] (the same in both detectors of the file). *)
Definition _parse_swap (d : JVal) : Result SwapTransaction :=
  let* h := getitem d "transactionHash" in let* h := as_str "transactionHash" h in
  let* ix := getitem d "transactionIndex" in let* ix := as_int "transactionIndex" ix in
  let* ty := getitem d "transactionType" in let* ty := as_str "transactionType" ty in
  let* bn := getitem d "blockNumber" in let* bn := as_int "blockNumber" bn in
  let* ts := getitem d "blockTimestamp" in let* ts := as_str "blockTimestamp" ts in
  let* w := getitem d "walletAddress" in let* w := py_lower w in
  let* pa := getitem d "pairAddress" in let* pa := as_str "pairAddress" pa in
  let* pl := get_default d "pairLabel" (JStr "") in let* pl := as_str "pairLabel" pl in
  let* bt := getitem d "baseToken" in let* bt := as_str "baseToken" bt in
  let* qt := getitem d "quoteToken" in let* qt := as_str "quoteToken" qt in
  let* bo := getitem d "bought" in let* ba := getitem bo "amount" in let* ba := py_float ba in
  let* bo' := getitem d "bought" in let* bs := getitem bo' "symbol" in let* bs := as_str "bought.symbol" bs in
  let* so := getitem d "sold" in let* sa := getitem so "amount" in let* sa := py_float sa in
  let* so' := getitem d "sold" in let* ss := getitem so' "symbol" in let* ss := as_str "sold.symbol" ss in
  let* tv := getitem d "totalValueUsd" in let* tv := as_num "totalValueUsd" tv in
  let* bq := getitem d "baseQuotePrice" in let* bq := py_float bq in
  let* sc := get_default d "subCategory" (JStr "") in let* sc := as_str "subCategory" sc in
  Ok {| transaction_hash := h; transaction_index := ix; transaction_type := ty;
        block_number := bn; block_timestamp := ts; wallet_address := w;
        pair_address := pa; pair_label := pl; base_token := bt; quote_token := qt;
        bought_amount := ba; bought_symbol := bs; sold_amount := Qabs sa;
        sold_symbol := ss; total_value_usd := tv; base_quote_price := bq;
        sub_category := sc |}.

(** The time string of [analyze_wallet]: ["N days"], ["N hours"] or
    ["N minutes"]. *)
Inductive TimeStr := Days (n : Z) | Hours (n : Z) | Minutes (n : Z).

(** ['hours' in s or 'minutes' in s] *)
Definition is_quick (t : TimeStr) : bool :=
  match t with Days _ => false | _ => true end.

(** The red flags of [_get_flags], in order. *)
Inductive Flag :=
| MassiveGains | LargeGains | NewPositionEntry | LargePosition | SignificantPosition | QuickProfit.

Record InsiderTrade := {
  it_wallet_address : string;
  token_address : string;
  token_symbol : string;
  entry_transaction : SwapTransaction;
  current_position_value : Q;
  entry_price : Q;
  current_price : Q;
  price_change_percent : Q;
  time_since_entry : TimeStr;
  suspicion_score : Q;
  flags : list Flag
}.

(** [InsiderTradingDetector._calculate_suspicion_score] *)
Definition _calculate_suspicion_score (t : InsiderTrade) : Q :=
  let s1 := if Qltb 50 (price_change_percent t) then 30
            else if Qltb 30 (price_change_percent t) then 20
            else if Qltb 15 (price_change_percent t) then 10 else 0 in
  let s2 := if String.eqb (sub_category (entry_transaction t)) "newPosition" then 15 else 0 in
  let v := total_value_usd (entry_transaction t) in
  let s3 := if Qltb 50000 v then 20 else if Qltb 10000 v then 10 else 0 in
  let s4 := if is_quick (time_since_entry t) then 15 else 0 in
  py_min (0 + s1 + s2 + s3 + s4) 100.

(** [InsiderTradingDetector._get_flags] *)
Definition _get_flags (t : InsiderTrade) : list Flag :=
  (if Qltb 50 (price_change_percent t) then [MassiveGains]
   else if Qltb 30 (price_change_percent t) then [LargeGains] else [])
  ++ (if String.eqb (sub_category (entry_transaction t)) "newPosition" then [NewPositionEntry] else [])
  ++ (let v := total_value_usd (entry_transaction t) in
      if Qltb 50000 v then [LargePosition] else if Qltb 10000 v then [SignificantPosition] else [])
  ++ (if is_quick (time_since_entry t) then [QuickProfit] else []).

Section Insider.

(** The clock and the ISO-8601 parser are outside the program:
    [fromisoformat] maps [entry.block_timestamp] to seconds (or raises),
    [now] is [datetime.now()] in seconds. *)
Variable fromisoformat : string -> Result Z.
Variable now : Z.

(** [timedelta] normalisation: [days], then [seconds] in [0, 86400). *)
Definition time_str (entry_time : Z) : TimeStr :=
  let diff := (now - entry_time)%Z in
  let days := (diff / 86400)%Z in
  let seconds := (diff mod 86400)%Z in
  if (0 <? days)%Z then Days days
  else if (0 <? seconds / 3600)%Z then Hours (seconds / 3600)
  else Minutes (seconds / 60).

Definition token_key_eqb (a b : string * string) : bool :=
  String.eqb (fst a) (fst b) && String.eqb (snd a) (snd b).

(** The body of the loop over [positions.items()]. *)
Definition analyze_position (wallet : string) (kv : (string * string) * list SwapTransaction)
    : Result InsiderTrade :=
  let '((token_address, token_symbol), buys) := kv in
  match buys with
  | [] => Raise ValueError
  | b :: bs =>
      let entry := min_by block_number b bs in
      let latest := max_by block_number b bs in
      let ep := base_quote_price entry in
      let cp := base_quote_price latest in
      let* r := py_div (cp - ep) ep in
      let price_change := r * 100 in
      let* entry_time := fromisoformat (block_timestamp entry) in
      let trade := {| it_wallet_address := wallet; token_address := token_address;
                      token_symbol := token_symbol; entry_transaction := entry;
                      current_position_value := total_value_usd latest;
                      entry_price := ep; current_price := cp;
                      price_change_percent := price_change;
                      time_since_entry := time_str entry_time;
                      suspicion_score := 0; flags := [] |} in
      Ok {| it_wallet_address := wallet; token_address := token_address;
            token_symbol := token_symbol; entry_transaction := entry;
            current_position_value := total_value_usd latest;
            entry_price := ep; current_price := cp;
            price_change_percent := price_change;
            time_since_entry := time_str entry_time;
            suspicion_score := _calculate_suspicion_score trade;
            flags := _get_flags trade |}
  end.

(** [InsiderTradingDetector.analyze_wallet], from the parsed swaps on. *)
Definition insider_analyze (wallet : string) (swaps : list SwapTransaction)
    (min_suspicion_score : Q) : Result (list InsiderTrade) :=
  let positions := group_by token_key_eqb (fun s => (base_token s, bought_symbol s))
                            (filter (fun s => String.eqb (transaction_type s) "buy") swaps) in
  let* trades := mapM (analyze_position wallet) positions in
  Ok (sort_desc suspicion_score
        (filter (fun t => Qle_bool min_suspicion_score (suspicion_score t)) trades)).

(** [InsiderTradingDetector.analyze_wallet] from [data['result']] on. *)
Definition insider_analyze_wallet (wallet : string) (result : list JVal)
    (min_suspicion_score : Q) : Result (list InsiderTrade) :=
  let* swaps := mapM _parse_swap result in
  insider_analyze wallet swaps min_suspicion_score.

End Insider.

Record SnipingBot := {
  sb_wallet_address : string;
  total_snipes : nat;
  successful_snipes : nat;
  success_rate : Q;
  total_volume_usd : Q;
  avg_entry_speed_blocks : Q;
  tokens_sniped : list string;
  recent_snipes : list SwapTransaction;
  bot_confidence_score : Q
}.

Record SnipeMetrics := {
  m_total_snipes : nat;
  m_unique_tokens : nat;
  m_new_position_ratio : Q;
  m_avg_entry_speed : Q
}.

(** [SnipingBotDetector._calculate_bot_confidence] *)
Definition _calculate_bot_confidence (m : SnipeMetrics) : Q :=
  let s1 := if Qltb (7#10) (m_new_position_ratio m) then 30
            else if Qltb (1#2) (m_new_position_ratio m) then 20 else 0 in
  let s2 := if (10 <? m_unique_tokens m)%nat then 25
            else if (5 <? m_unique_tokens m)%nat then 15 else 0 in
  let s3 := if (20 <? m_total_snipes m)%nat then 20
            else if (10 <? m_total_snipes m)%nat then 10 else 0 in
  let s4 := if Qltb (m_avg_entry_speed m) 50 then 25
            else if Qltb (m_avg_entry_speed m) 100 then 15 else 0 in
  py_min (0 + s1 + s2 + s3 + s4) 100.

(** The sells of the snipe's token, over all the wallet's swaps. *)
Definition sells_of (swaps : list SwapTransaction) (snipe : SwapTransaction) : list SwapTransaction :=
  filter (fun s => String.eqb (transaction_type s) "sell"
                   && String.eqb (base_token s) (base_token snipe)) swaps.

(** The body of the [for snipe in new_positions[:10]] loop: does it
    increment [successful_snipes]? *)
Definition snipe_counted (swaps : list SwapTransaction) (snipe : SwapTransaction) : bool :=
  match sells_of swaps snipe with
  | s :: ss => let latest_sell := max_by block_number s ss in
               Qltb (base_quote_price snipe) (base_quote_price latest_sell)
  | [] => true
  end.

(** [SnipingBotDetector.analyze_wallet], from the parsed swaps on. *)
Definition sniping_analyze (wallet : string) (swaps : list SwapTransaction) : option SnipingBot :=
  let buys := filter (fun s => String.eqb (transaction_type s) "buy") swaps in
  if (List.length buys <? 5)%nat then None else
  let new_positions := filter (fun s => String.eqb (sub_category s) "newPosition") buys in
  let unique_tokens := List.length (keys_in_order String.eqb base_token new_positions) in
  let total_volume := qsum total_value_usd buys in
  let avg_entry_speed :=
    match new_positions with
    | [] => 0
    | _ => qsum (fun s => inject_Z (transaction_index s)) new_positions / nat_q (List.length new_positions)
    end in
  let new_position_ratio := nat_q (List.length new_positions) / nat_q (List.length buys) in
  let successful := List.length (filter (snipe_counted swaps) (firstn 10 new_positions)) in
  let success_rate :=
    match new_positions with
    | [] => 0
    | _ => nat_q successful / nat_q (Nat.min (List.length new_positions) 10) * 100
    end in
  let metrics := {| m_total_snipes := List.length new_positions;
                    m_unique_tokens := unique_tokens;
                    m_new_position_ratio := new_position_ratio;
                    m_avg_entry_speed := avg_entry_speed |} in
  Some {| sb_wallet_address := wallet;
          total_snipes := List.length new_positions;
          successful_snipes := successful;
          success_rate := success_rate;
          total_volume_usd := total_volume;
          avg_entry_speed_blocks := avg_entry_speed;
          tokens_sniped := map bought_symbol (firstn 20 new_positions);
          recent_snipes := firstn 5 new_positions;
          bot_confidence_score := _calculate_bot_confidence metrics |}.

(** [SnipingBotDetector.analyze_wallet] from [data['result']] on. *)
Definition sniping_analyze_wallet (wallet : string) (result : list JVal) : Result (option SnipingBot) :=
  let* swaps := mapM _parse_swap result in
  Ok (sniping_analyze wallet swaps).

End WalletBehavior.

(** [v == "..."] on a raw JSON value (never raises). *)
Definition jv_is (v : JVal) (s : string) : bool :=
  match v with JStr s' => String.eqb s' s | _ => false end.

(** [for x in v] over a JSON array. *)
Definition as_list (v : JVal) : Result (list JVal) :=
  match v with
  | JArr l => Ok l
  | JStr _ | JObj _ => Raise (UntypedField "result")
  | _ => Raise TypeError
  end.

(* ------------------------------------------------------------------ *)
(** * liquidity_pool.py *)

Module Pool.

(** [PoolSwap]; the fields no detector reads arithmetically are kept as
    the raw JSON values the code copies. *)
Record PoolSwap := {
  transaction_hash : JVal;
  transaction_index : JVal;
  transaction_type : JVal;
  block_number : Z;
  block_timestamp : JVal;
  wallet_address : string;
  sub_category : JVal;
  base_token_amount : Q;
  quote_token_amount : Q;
  base_token_price_usd : Q;
  quote_token_price_usd : Q;
  base_quote_price : Q;
  total_value_usd : Q
}.

Record PoolInfo := {
  pi_pair_address : JVal;
  pi_pair_label : JVal;
  exchange_name : JVal;
  exchange_address : JVal;
  pi_base_token : JVal;
  pi_quote_token : JVal
}.

(** One iteration of the swap loop of [_parse_pool_data] (identical in
    the three detector classes of the file). *)
Definition parse_pool_swap (d : JVal) : Result PoolSwap :=
  let* h := getitem d "transactionHash" in
  let* ix := getitem d "transactionIndex" in
  let* ty := getitem d "transactionType" in
  let* bn := getitem d "blockNumber" in let* bn := as_int "blockNumber" bn in
  let* ts := getitem d "blockTimestamp" in
  let* w := getitem d "walletAddress" in let* w := py_lower w in
  let* sc := getitem d "subCategory" in
  let* bta := getitem d "baseTokenAmount" in let* bta := py_float bta in
  let* qta := getitem d "quoteTokenAmount" in let* qta := py_float qta in
  let* btp := getitem d "baseTokenPriceUsd" in let* btp := py_float btp in
  let* qtp := getitem d "quoteTokenPriceUsd" in let* qtp := py_float qtp in
  let* bq := getitem d "baseQuotePrice" in let* bq := py_float bq in
  let* tv := getitem d "totalValueUsd" in let* tv := py_float tv in
  Ok {| transaction_hash := h; transaction_index := ix; transaction_type := ty;
        block_number := bn; block_timestamp := ts; wallet_address := w;
        sub_category := sc; base_token_amount := bta; quote_token_amount := Qabs qta;
        base_token_price_usd := btp; quote_token_price_usd := qtp;
        base_quote_price := bq; total_value_usd := tv |}.

(** [_parse_pool_data] *)
Definition _parse_pool_data (data : JVal) : Result (PoolInfo * list PoolSwap) :=
  let* pa := getitem data "pairAddress" in
  let* pl := getitem data "pairLabel" in
  let* en := getitem data "exchangeName" in
  let* ea := getitem data "exchangeAddress" in
  let* bt := getitem data "baseToken" in
  let* qt := getitem data "quoteToken" in
  let* res := getitem data "result" in
  let* res := as_list res in
  let* swaps := mapM parse_pool_swap res in
  Ok ({| pi_pair_address := pa; pi_pair_label := pl; exchange_name := en;
         exchange_address := ea; pi_base_token := bt; pi_quote_token := qt |}, swaps).

Definition is_sell (s : PoolSwap) : bool := jv_is (transaction_type s) "sell".
Definition is_buy (s : PoolSwap) : bool := jv_is (transaction_type s) "buy".

(** [LiquidityManipulation] (the formatted [description] is left out). *)
Record LiquidityManipulation := {
  manipulation_type : string;
  severity : string;
  lm_timestamp : JVal;
  lm_block_number : Z;
  involved_wallets : list string;
  lm_total_value_usd : Q;
  evidence_transactions : list PoolSwap;
  risk_score : Q
}.

(** One wallet of [_detect_rug_pull_pattern]. *)
Definition rug_pull_of_wallet (kv : string * list PoolSwap) : list LiquidityManipulation :=
  let '(wallet, txs) := kv in
  let sells := filter is_sell txs in
  match sells with
  | first_sell :: _ =>
      if (3 <=? List.length sells)%nat then
        let total_sell_value := qsum total_value_usd sells in
        if Qltb 10000 total_sell_value then
          let recent_txs := firstn 5 (sort_desc (fun t => inject_Z (block_number t)) txs) in
          let sell_ratio := nat_q (List.length (filter is_sell recent_txs))
                            / nat_q (List.length recent_txs) in
          if Qltb (7#10) sell_ratio then
            [{| manipulation_type := "Potential Rug Pull";
                severity := if Qltb 50000 total_sell_value then "HIGH" else "MEDIUM";
                lm_timestamp := block_timestamp first_sell;
                lm_block_number := block_number first_sell;
                involved_wallets := [wallet];
                lm_total_value_usd := total_sell_value;
                evidence_transactions := firstn 5 sells;
                risk_score := py_min 100 (total_sell_value / 1000 + sell_ratio * 50) |}]
          else []
        else []
      else []
  | [] => []
  end.

Definition _detect_rug_pull_pattern (swaps : list PoolSwap) : list LiquidityManipulation :=
  flat_map rug_pull_of_wallet (group_by String.eqb wallet_address swaps).

(** One block of [_detect_coordinated_dump]; [list(set(...))] is taken in
    first-appearance order. *)
Definition coordinated_dump_of_block (kv : Z * list PoolSwap) : list LiquidityManipulation :=
  let '(block_num, block_swaps) := kv in
  let sells := filter is_sell block_swaps in
  match sells with
  | first_sell :: _ =>
      if (3 <=? List.length sells)%nat then
        let wallets := keys_in_order String.eqb wallet_address sells in
        let unique_wallets := List.length wallets in
        let total_value := qsum total_value_usd sells in
        if (3 <=? unique_wallets)%nat && Qltb 5000 total_value then
          [{| manipulation_type := "Coordinated Dump";
              severity := if Qltb 20000 total_value then "HIGH" else "MEDIUM";
              lm_timestamp := block_timestamp first_sell;
              lm_block_number := block_num;
              involved_wallets := wallets;
              lm_total_value_usd := total_value;
              evidence_transactions := sells;
              risk_score := py_min 100 (nat_q unique_wallets * 15 + total_value / 500) |}]
        else []
      else []
  | [] => []
  end.

Definition _detect_coordinated_dump (swaps : list PoolSwap) : list LiquidityManipulation :=
  flat_map coordinated_dump_of_block (group_by Z.eqb block_number swaps).

(** [LiquidityPoolManipulationDetector.analyze], from the parsed swaps on. *)
Definition lp_analyze (swaps : list PoolSwap) : list LiquidityManipulation :=
  sort_desc risk_score (_detect_rug_pull_pattern swaps ++ _detect_coordinated_dump swaps).

Record ConcentratedAttack := {
  ca_attacker_address : string;
  attack_type : string;
  ca_block_number : Z;
  ca_timestamp : JVal;
  transactions_involved : list PoolSwap;
  price_impact : Q;
  profit_estimate : Q;
  attack_confidence : Q
}.

(** One step [i] of [_detect_price_manipulation]: [current = swaps[i]],
    [next_tx = swaps[i + 1]]. *)
Definition price_manipulation_step (p : PoolSwap * PoolSwap) : Result (list ConcentratedAttack) :=
  let '(current, next_tx) := p in
  let* r := py_div (base_quote_price current - base_quote_price next_tx) (base_quote_price next_tx) in
  let price_change := Qabs r * 100 in
  if Qltb 5000 (total_value_usd current) && Qltb 5 price_change then
    Ok [{| ca_attacker_address := wallet_address current;
           attack_type := "Price Manipulation";
           ca_block_number := block_number current;
           ca_timestamp := block_timestamp current;
           transactions_involved := [current];
           price_impact := price_change;
           profit_estimate := 0;
           attack_confidence := py_min 100 (price_change * 10 + total_value_usd current / 1000) |}]
  else Ok [].

(** [_detect_price_manipulation] *)
Fixpoint concat_steps {A B} (f : A -> Result (list B)) (l : list A) : Result (list B) :=
  match l with
  | [] => Ok []
  | x :: l' => let* a := f x in let* b := concat_steps f l' in Ok (a ++ b)
  end.

Definition _detect_price_manipulation (swaps : list PoolSwap) : Result (list ConcentratedAttack) :=
  concat_steps price_manipulation_step (adjacent_pairs swaps).

(** One wallet of [_detect_liquidity_sniping]. *)
Definition sniping_of_wallet (kv : string * list PoolSwap) : list ConcentratedAttack :=
  let '(wallet, txs) := kv in
  let buys := filter is_buy txs in
  match buys with
  | first_buy :: _ =>
      if (3 <=? List.length buys)%nat then
        let prices := map base_quote_price buys in
        let n := nat_q (List.length prices) in
        let avg_price := qsum id prices / n in
        let price_variance := qsum (fun p => (p - avg_price) * (p - avg_price)) prices / n in
        if Qltb price_variance ((avg_price * (1#10)) * (avg_price * (1#10))) then
          let total_value := qsum total_value_usd buys in
          if Qltb 3000 total_value then
            [{| ca_attacker_address := wallet;
                attack_type := "Liquidity Sniping";
                ca_block_number := block_number first_buy;
                ca_timestamp := block_timestamp first_buy;
                transactions_involved := buys;
                price_impact := 0;
                profit_estimate := 0;
                attack_confidence := py_min 100 (50 + nat_q (List.length buys) * 10) |}]
          else []
        else []
      else []
  | [] => []
  end.

Definition _detect_liquidity_sniping (swaps : list PoolSwap) : list ConcentratedAttack :=
  flat_map sniping_of_wallet (group_by String.eqb wallet_address swaps).

(** [ConcentratedLiquidityAttackDetector.analyze], from the parsed swaps on. *)
Definition concentrated_analyze (swaps : list PoolSwap) : Result (list ConcentratedAttack) :=
  let* a := _detect_price_manipulation swaps in
  Ok (sort_desc attack_confidence (a ++ _detect_liquidity_sniping swaps)).

Record PoolDomination := {
  dominant_wallet : string;
  domination_percentage : Q;
  total_transactions : nat;
  wallet_transactions : nat;
  total_volume_usd : Q;
  wallet_volume_usd : Q;
  transaction_pattern : string;
  risk_level : string;
  manipulation_likelihood : Q
}.

(** [wallet_stats[w]]: transactions, volume, buys, sells. *)
Record WalletStats := { st_txs : nat; st_volume : Q; st_buys : nat; st_sells : nat }.

Definition wallet_stats (txs : list PoolSwap) : WalletStats :=
  {| st_txs := List.length txs;
     st_volume := qsum total_value_usd txs;
     st_buys := List.length (filter is_buy txs);
     st_sells := List.length (filter (fun s => negb (is_buy s)) txs) |}.

(** [tx_percentage] and [volume_percentage] of a wallet; [len(swaps)] is at
    least one inside the loop, since the wallet has a transaction. *)
Definition tx_percentage (swaps : list PoolSwap) (st : WalletStats) : Q :=
  nat_q (st_txs st) / nat_q (List.length swaps) * 100.

Definition volume_percentage (total_volume : Q) (st : WalletStats) : Q :=
  if Qltb 0 total_volume then st_volume st / total_volume * 100 else 0.

(** The domination test [tx_percentage > 20 or volume_percentage > 30]. *)
Definition dominates (swaps : list PoolSwap) (total_volume : Q) (st : WalletStats) : bool :=
  Qltb 20 (tx_percentage swaps st) || Qltb 30 (volume_percentage total_volume st).

(** One wallet of the loop of [PoolDominationDetector.analyze]. *)
Definition domination_of_wallet (swaps : list PoolSwap) (total_volume : Q)
    (kv : string * list PoolSwap) : list PoolDomination :=
  let '(wallet, txs) := kv in
  let st := wallet_stats txs in
  if dominates swaps total_volume st then
    let buy_ratio := if (0 <? st_txs st)%nat then nat_q (st_buys st) / nat_q (st_txs st) else 0 in
    let pattern := if Qltb (4#5) buy_ratio then "Accumulation (Heavy Buying)"
                   else if Qltb buy_ratio (1#5) then "Distribution (Heavy Selling)"
                   else "Mixed Trading" in
    let domination_score := py_max (tx_percentage swaps st) (volume_percentage total_volume st) in
    let '(risk, likelihood) :=
      if Qltb 50 domination_score then ("CRITICAL", 80)
      else if Qltb 35 domination_score then ("HIGH", 60)
      else ("MEDIUM", 40) in
    [{| dominant_wallet := wallet;
        domination_percentage := domination_score;
        total_transactions := List.length swaps;
        wallet_transactions := st_txs st;
        total_volume_usd := total_volume;
        wallet_volume_usd := st_volume st;
        transaction_pattern := pattern;
        risk_level := risk;
        manipulation_likelihood := likelihood |}]
  else [].

(** [PoolDominationDetector.analyze], from the parsed swaps on. *)
Definition domination_analyze (swaps : list PoolSwap) : list PoolDomination :=
  let total_volume := qsum total_value_usd swaps in
  sort_desc domination_percentage
    (flat_map (domination_of_wallet swaps total_volume) (group_by String.eqb wallet_address swaps)).

End Pool.

(* ------------------------------------------------------------------ *)
(** * numpy floats: a finite value, an infinity or NaN *)

Inductive NpF := Fin (q : Q) | PInf | NInf | NaN.

Definition notna (x : NpF) : bool := match x with NaN => false | _ => true end.

Definition np_neg (x : NpF) : NpF :=
  match x with Fin a => Fin (- a) | PInf => NInf | NInf => PInf | NaN => NaN end.

Definition np_abs (x : NpF) : NpF :=
  match x with Fin a => Fin (Qabs a) | PInf | NInf => PInf | NaN => NaN end.

Definition np_add (x y : NpF) : NpF :=
  match x, y with
  | Fin a, Fin b => Fin (a + b)
  | NaN, _ | _, NaN => NaN
  | PInf, NInf | NInf, PInf => NaN
  | PInf, _ | _, PInf => PInf
  | NInf, _ | _, NInf => NInf
  end.

Definition np_sub (x y : NpF) : NpF := np_add x (np_neg y).

(** numpy true division: no exception, [x / 0] is [inf], [-inf] or [nan]
    (a zero divisor is [+0.0]). *)
Definition sign_inf (a : Q) : NpF := if Qltb 0 a then PInf else NInf.

Definition np_div (x y : NpF) : NpF :=
  match x, y with
  | NaN, _ | _, NaN => NaN
  | Fin a, Fin b =>
      if Qeq_bool b 0 then (if Qeq_bool a 0 then NaN else sign_inf a) else Fin (a / b)
  | Fin _, (PInf | NInf) => Fin 0
  | (PInf | NInf), (PInf | NInf) => NaN
  | PInf, Fin b => if Qltb b 0 then NInf else PInf
  | NInf, Fin b => if Qltb b 0 then PInf else NInf
  end.

(** Comparisons; every comparison with NaN is false. *)
Definition np_rank (x : NpF) : Z := match x with NInf => (-1)%Z | PInf => 1%Z | _ => 0%Z end.

Definition np_lt (x y : NpF) : bool :=
  match x, y with
  | NaN, _ | _, NaN => false
  | Fin a, Fin b => Qltb a b
  | _, _ => (np_rank x <? np_rank y)%Z
  end.

Definition np_le (x y : NpF) : bool :=
  match x, y with
  | NaN, _ | _, NaN => false
  | Fin a, Fin b => Qle_bool a b
  | _, _ => (np_rank x <=? np_rank y)%Z
  end.

Definition np_gt (x y : NpF) : bool := np_lt y x.
Definition np_ge (x y : NpF) : bool := np_le y x.

(* ------------------------------------------------------------------ *)
(** * transaction_anomaly.py *)

Module TxAnomaly.

(** A row of the DataFrame built from the transaction dicts, after the
    conversions every [detect] makes: [blockTimestamp] through
    [pd.to_datetime] (seconds), [baseQuotePrice] through
    [pd.to_numeric(errors='coerce')] (NaN when unparsable); [subCategory]
    is the record's value under that key, [None] when it has none (a cell
    of the column holds NaN then, and the frame has no such column when
    no record has the key). *)
Record Row := {
  transactionHash : string;
  transactionType : string;
  blockNumber : Z;
  blockTimestamp : Z;
  walletAddress : string;
  pairAddress : string;
  pairLabel : string;
  subCategory : option JVal;
  totalValueUsd : Q;
  baseQuotePrice : NpF
}.

(** [df.sort_values(col)]; rows with equal keys keep their input order. *)
Definition sort_rows (key : Row -> Z) (rows : list Row) : list Row := sort_asc key rows.

(** Ascending insertion sort of distinct group keys ([groupby(sort=True)]). *)
Fixpoint insert_key {K} (ltb : K -> K -> bool) (k : K) (ks : list K) : list K :=
  match ks with
  | [] => [k]
  | k' :: ks' => if ltb k k' then k :: k' :: ks' else k' :: insert_key ltb k ks'
  end.

Definition pd_groupby {K} (ltb eqb : K -> K -> bool) (key : Row -> K) (rows : list Row)
    : list (K * list Row) :=
  map (fun k => (k, filter (fun r => eqb (key r) k) rows))
      (fold_left (fun acc k => insert_key ltb k acc) (keys_in_order eqb key rows) []).

Definition str_ltb (a b : string) : bool :=
  match String.compare a b with Lt => true | _ => false end.

(** ** WashTradingDetector *)

Record WashConfig := {
  time_window : Z;                 (* seconds *)
  min_round_trips : nat;
  price_threshold : Q;
  min_same_block : nat;
  min_volume : Q
}.

(** [WashTradingDetector()] and the presets of [CryptoAnomalyDetectionSystem]. *)
Definition wash_medium : WashConfig :=
  {| time_window := 3600; min_round_trips := 3; price_threshold := 2#100;
     min_same_block := 5; min_volume := 1000 |}.
Definition wash_low : WashConfig :=
  {| time_window := 3600; min_round_trips := 5; price_threshold := 2#100;
     min_same_block := 10; min_volume := 5000 |}.
Definition wash_high : WashConfig :=
  {| time_window := 3600; min_round_trips := 2; price_threshold := 2#100;
     min_same_block := 3; min_volume := 500 |}.

Definition is_type (t : string) (r : Row) : bool := String.eqb (transactionType r) t.

(** Python's [x / y] on two Python floats: raises on a zero divisor
    (also for [0.0 / 0.0]); otherwise the IEEE quotient. *)
Definition py_float_div (x y : NpF) : Result NpF :=
  match y with
  | Fin q => if Qeq_bool q 0 then Raise ZeroDivisionError else Ok (np_div x y)
  | _ => Ok (np_div x y)
  end.

(** [abs(buy['baseQuotePrice'] - sell['baseQuotePrice']) / buy['baseQuotePrice']]:
    [iterrows] on the mixed-dtype frame yields Python floats. *)
Definition price_diff (buy sell : Row) : Result NpF :=
  py_float_div (np_abs (np_sub (baseQuotePrice buy) (baseQuotePrice sell))) (baseQuotePrice buy).

(** The body of the inner loop over [matching_sells]: whether [sell] is
    a round trip of [buy]. *)
Definition is_round_trip (cfg : WashConfig) (buy sell : Row) : Result bool :=
  if (blockTimestamp buy <=? blockTimestamp sell)%Z
     && (blockTimestamp sell <=? blockTimestamp buy + time_window cfg)%Z
     && notna (baseQuotePrice buy) && notna (baseQuotePrice sell)
  then let* d := price_diff buy sell in Ok (np_le d (Fin (price_threshold cfg)))
  else Ok false.

Record WalletPattern := {
  is_suspicious : bool;
  is_likely_mev : bool;
  round_trips : nat;
  same_block_trades : nat;
  total_volume : Q;
  avg_trade_size : Q;
  num_trades : nat;
  patterns : list (Row * Row)
}.

(** [len(wallet_txs[wallet_txs.duplicated(subset=['blockNumber'], keep=False)])] *)
Definition count_same_block (txs : list Row) : nat :=
  List.length (filter (fun r => (2 <=? List.length (filter (fun r' => Z.eqb (blockNumber r') (blockNumber r)) txs))%nat) txs).

(** The [round_trips] list built by the two nested loops. *)
Definition round_trips_of (cfg : WashConfig) (wallet_txs : list Row) : Result (list (Row * Row)) :=
  let buys := filter (is_type "buy") wallet_txs in
  let sells := filter (is_type "sell") wallet_txs in
  let* per_buy := mapM (fun b => let* ms := filterM (is_round_trip cfg b) sells in
                                 Ok (map (fun s => (b, s)) ms)) buys in
  Ok (List.concat per_buy).

(** The dict [_analyze_wallet_pattern] returns, once the round trips are
    known (a wallet group is never empty, so the mean is a sum over a
    positive count). *)
Definition wallet_pattern (cfg : WashConfig) (wallet_txs : list Row) (trips : list (Row * Row))
    : WalletPattern :=
  let sb := count_same_block wallet_txs in
  let tv := qsum totalValueUsd wallet_txs in
  let avg := tv / nat_q (List.length wallet_txs) in
  let mev := (2 <=? sb)%nat && Qltb avg 100 && Qltb tv 500 in
  let susp := ((min_round_trips cfg <=? List.length trips)%nat && Qle_bool (min_volume cfg) tv)
              || ((min_same_block cfg <=? sb)%nat && Qle_bool (min_volume cfg) tv) in
  {| is_suspicious := susp; is_likely_mev := mev; round_trips := List.length trips;
     same_block_trades := sb; total_volume := tv; avg_trade_size := avg;
     num_trades := List.length wallet_txs; patterns := firstn 5 trips |}.

(** [_analyze_wallet_pattern] *)
Definition _analyze_wallet_pattern (cfg : WashConfig) (wallet_txs : list Row) : Result WalletPattern :=
  let* trips := round_trips_of cfg wallet_txs in
  Ok (wallet_pattern cfg wallet_txs trips).

(** The two shapes of the dict [detect] returns: the early return on an
    empty batch, and the report (whose [note] string is determined by
    [mev_bots_filtered]). *)
Inductive WashResult :=
| WashNoInput
| WashReport (detected_count : nat) (suspicious_wallets : list (string * WalletPattern))
             (total_suspicious_volume : Q) (mev_bots_filtered : nat).

Definition wash_detected_count (r : WashResult) : nat :=
  match r with WashNoInput => 0 | WashReport n _ _ _ => n end.
Definition wash_suspicious_wallets (r : WashResult) : list (string * WalletPattern) :=
  match r with WashNoInput => [] | WashReport _ w _ _ => w end.

(** [WashTradingDetector.detect] *)
Definition wash_detect (cfg : WashConfig) (transactions : list Row) : Result WashResult :=
  match transactions with
  | [] => Ok WashNoInput
  | _ =>
      let df := sort_rows blockTimestamp transactions in
      let* analysed := mapM (fun kv => let* p := _analyze_wallet_pattern cfg (snd kv) in Ok (fst kv, p))
                            (pd_groupby str_ltb String.eqb walletAddress df) in
      let flagged := filter (fun kv => is_suspicious (snd kv)) analysed in
      let potential_mev_bots := filter (fun kv => is_likely_mev (snd kv)) flagged in
      let suspicious_wallets := filter (fun kv => negb (is_likely_mev (snd kv))) flagged in
      Ok (WashReport (List.length suspicious_wallets) suspicious_wallets
                     (qsum (fun kv => total_volume (snd kv)) suspicious_wallets)
                     (List.length potential_mev_bots))
  end.

(** ** PriceManipulationDetector *)

Record PriceConfig := { pm_price_threshold : Q; volume_multiplier : Q; min_value : Q }.

Definition price_medium : PriceConfig :=
  {| pm_price_threshold := 15#100; volume_multiplier := 10; min_value := 5000 |}.

(** The value of a pandas [ffill]: the last non-NaN value, or NaN. *)
Definition ffill_last (xs : list NpF) : NpF :=
  fold_left (fun acc x => if notna x then x else acc) xs NaN.

(** [x.pct_change(periods=k)] at a position, with the default forward
    fill: [before] holds the earlier values of the series, oldest first. *)
Definition pct_change_at (k : nat) (before : list NpF) (x : NpF) : NpF :=
  if (List.length before <? k)%nat then NaN else
  let filled := before ++ [x] in
  let cur := ffill_last filled in
  let prev := ffill_last (firstn (List.length filled - k) filled) in
  np_sub (np_div cur prev) (Fin 1).

(** [x.rolling(window=20, min_periods=1).mean()] at a position. *)
Definition rolling20_mean (before : list Q) (x : Q) : Q :=
  let vals := before ++ [x] in
  let win := skipn (List.length vals - 20) vals in
  qsum id win / nat_q (List.length win).

(** The rows of the same pair before position [i] of the sorted frame. *)
Definition same_pair_before (df : list Row) (i : nat) (r : Row) : list Row :=
  filter (fun r' => String.eqb (pairAddress r') (pairAddress r)) (firstn i df).

Record ManipulationEvent := {
  me_timestamp : Z;
  me_block : Z;
  me_price_change : NpF;
  me_volume_spike : NpF;
  me_wallet : string;
  me_pair : string;
  me_value_usd : Q
}.

Record CoordinatedEvent := {
  ce_block : Z;
  ce_timestamp : Z;
  num_wallets : nat;
  ce_total_value : Q;
  ce_wallets : list string
}.

Inductive PriceResult :=
| PriceNoInput
| PriceReport (manipulation_events : list ManipulationEvent)
              (coordinated_trading : list CoordinatedEvent)
              (total_events : nat) (highest_spike : NpF).

(** The derived columns [price_change] and [volume_spike] of a row. *)
Definition price_change_of (df : list Row) (i : nat) (r : Row) : NpF :=
  pct_change_at 1 (map baseQuotePrice (same_pair_before df i r)) (baseQuotePrice r).

Definition volume_spike_of (df : list Row) (i : nat) (r : Row) : NpF :=
  np_div (Fin (totalValueUsd r))
         (Fin (rolling20_mean (map totalValueUsd (same_pair_before df i r)) (totalValueUsd r))).

Fixpoint indexed {A} (n : nat) (l : list A) : list (nat * A) :=
  match l with [] => [] | x :: l' => (n, x) :: indexed (S n) l' end.

(** [_detect_coordinated_trading] *)
Definition _detect_coordinated_trading (df : list Row) : list CoordinatedEvent :=
  flat_map (fun kv =>
      let '(block, group) := kv in
      let unique_wallets := List.length (keys_in_order String.eqb walletAddress group) in
      let total_value := qsum totalValueUsd group in
      match group with
      | first :: _ =>
          if (5 <=? unique_wallets)%nat && Qltb 10000 total_value then
            [{| ce_block := block; ce_timestamp := blockTimestamp first;
                num_wallets := unique_wallets; ce_total_value := total_value;
                ce_wallets := firstn 10 (map walletAddress group) |}]
          else []
      | [] => []
      end)
    (pd_groupby Z.ltb Z.eqb blockNumber df).

(** [max(xs, default=0)]: the first maximal element. *)
Definition np_max_default (xs : list NpF) : NpF :=
  match xs with
  | [] => Fin 0
  | x :: xs' => fold_left (fun cur y => if np_gt y cur then y else cur) xs' x
  end.

(** [PriceManipulationDetector.detect] *)
Definition price_detect (cfg : PriceConfig) (transactions : list Row) : PriceResult :=
  match transactions with
  | [] => PriceNoInput
  | _ =>
      let df := sort_rows blockNumber transactions in
      let manipulations :=
        flat_map (fun ir =>
            let '(i, r) := ir in
            let pc := price_change_of df i r in
            let vs := volume_spike_of df i r in
            if np_gt (np_abs pc) (Fin (pm_price_threshold cfg))
               && np_gt vs (Fin (volume_multiplier cfg))
               && Qltb (min_value cfg) (totalValueUsd r)
            then [{| me_timestamp := blockTimestamp r; me_block := blockNumber r;
                     me_price_change := pc; me_volume_spike := vs;
                     me_wallet := walletAddress r; me_pair := pairLabel r;
                     me_value_usd := totalValueUsd r |}]
            else [])
          (indexed 0 df) in
      let coordinated := _detect_coordinated_trading df in
      PriceReport manipulations coordinated
                  (List.length manipulations + List.length coordinated)
                  (np_max_default (map (fun m => np_abs (me_price_change m)) manipulations))
  end.

(** ** PumpAndDumpDetector *)

Record PumpConfig := {
  pump_threshold : Q;
  dump_threshold : Q;
  min_wallets : nat;
  pd_time_window : Z                (* seconds *)
}.

Definition pump_medium : PumpConfig :=
  {| pump_threshold := 1#2; dump_threshold := 3#10; min_wallets := 10; pd_time_window := 4 * 3600 |}.

(** [_calculate_confidence] *)
Definition _calculate_confidence (cfg : PumpConfig) (num_dumpers : nat) (pump_size dump_size : NpF)
    (volume : Q) : Q :=
  let s1 := if (20 <=? num_dumpers)%nat then 1#4
            else if (min_wallets cfg <=? num_dumpers)%nat then 15#100 else 0 in
  let s2 := if np_ge pump_size (Fin 1) then 1#4
            else if np_ge pump_size (Fin (pump_threshold cfg)) then 15#100 else 0 in
  let s3 := if np_ge dump_size (Fin (1#2)) then 1#4
            else if np_ge dump_size (Fin (dump_threshold cfg)) then 15#100 else 0 in
  let s4 := if Qle_bool 100000 volume then 1#4
            else if Qle_bool 50000 volume then 15#100 else 0 in
  py_min (0 + s1 + s2 + s3 + s4) 1.

Record PumpScheme := {
  pump_time : Z;
  pump_price_increase : NpF;
  dump_price_decrease : NpF;
  dump_wallets : nat;
  dump_volume : Q;
  confidence : Q
}.

Record PumpResult := {
  detected_schemes : list PumpScheme;
  num_schemes : nat;
  high_confidence : list PumpScheme
}.

(** [price_1h_change] of a row: [x.pct_change(periods=min(len(x)-1, 10))]
    over the row's pair group. *)
Definition price_1h_change_of (df : list Row) (i : nat) (r : Row) : NpF :=
  let group_len := List.length (filter (fun r' => String.eqb (pairAddress r') (pairAddress r)) df) in
  pct_change_at (Nat.min (group_len - 1) 10)
                (map baseQuotePrice (same_pair_before df i r)) (baseQuotePrice r).

(** [df['subCategory']] exists when some record has the key. *)
Definition has_subCategory (df : list Row) : bool :=
  existsb (fun r => match subCategory r with Some _ => true | None => false end) df.

(** The body of the loop over [pumps]: the scheme found at one pump row,
    if any. *)
Definition scheme_at (cfg : PumpConfig) (df : list Row) (pump_row : Row) (change : NpF)
    : Result (list PumpScheme) :=
  let dump_window := filter (fun r => (blockTimestamp pump_row <? blockTimestamp r)%Z
                             && (blockTimestamp r <=? blockTimestamp pump_row + pd_time_window cfg)%Z) df in
  if negb (has_subCategory df) then Raise (KeyError "subCategory") else
  let sell_all := filter (fun r => match subCategory r with
                                   | Some (JStr c) => String.eqb c "sellAll" | _ => false end) dump_window in
  let unique_dumpers := List.length (keys_in_order String.eqb walletAddress sell_all) in
  let dump_volume := qsum totalValueUsd sell_all in
  if (min_wallets cfg <=? unique_dumpers)%nat && Qltb 50000 dump_volume then
    match rev dump_window with
    | last_row :: _ =>
        let price_after := baseQuotePrice last_row in
        let price_drop := np_div (np_sub (baseQuotePrice pump_row) price_after) (baseQuotePrice pump_row) in
        if np_ge price_drop (Fin (dump_threshold cfg)) then
          Ok [{| pump_time := blockTimestamp pump_row; pump_price_increase := change;
                 dump_price_decrease := price_drop; dump_wallets := unique_dumpers;
                 dump_volume := dump_volume;
                 confidence := _calculate_confidence cfg unique_dumpers change price_drop dump_volume |}]
        else Ok []
    | [] => Ok []
    end
  else Ok [].

(** [PumpAndDumpDetector.detect] *)
Definition pump_detect (cfg : PumpConfig) (transactions : list Row) : Result PumpResult :=
  if (List.length transactions <? 50)%nat then
    Ok {| detected_schemes := []; num_schemes := 0; high_confidence := [] |}
  else
    let df := sort_rows blockTimestamp transactions in
    let* schemes :=
      flat_mapM (fun ir =>
          let '(i, r) := ir in
          let change := price_1h_change_of df i r in
          if np_gt change (Fin (pump_threshold cfg)) then scheme_at cfg df r change else Ok [])
        (indexed 0 df) in
    Ok {| detected_schemes := schemes; num_schemes := List.length schemes;
          high_confidence := filter (fun s => Qltb (3#4) (confidence s)) schemes |}.

End TxAnomaly.

(** ** CryptoAnomalyDetectionSystem *)

Module AnomalySystem.

Import TxAnomaly.

(** The detector parameters chosen by the [sensitivity] argument of the
    constructor ([WashTradingDetector] presets are [wash_low], [wash_high]
    and [wash_medium]; the other time windows keep their defaults). *)
Definition price_low : PriceConfig :=
  {| pm_price_threshold := 20#100; volume_multiplier := 15; min_value := 10000 |}.
Definition price_high : PriceConfig :=
  {| pm_price_threshold := 10#100; volume_multiplier := 5; min_value := 1000 |}.
Definition pump_low : PumpConfig :=
  {| pump_threshold := 70#100; dump_threshold := 40#100; min_wallets := 15; pd_time_window := 4 * 3600 |}.
Definition pump_high : PumpConfig :=
  {| pump_threshold := 25#100; dump_threshold := 15#100; min_wallets := 5; pd_time_window := 4 * 3600 |}.

Record Detectors := {
  wash_detector : WashConfig;
  price_detector : PriceConfig;
  pump_detector : PumpConfig
}.

(** [CryptoAnomalyDetectionSystem.__init__] *)
Definition detectors_of (sensitivity : string) : Detectors :=
  if String.eqb sensitivity "low" then
    {| wash_detector := wash_low; price_detector := price_low; pump_detector := pump_low |}
  else if String.eqb sensitivity "high" then
    {| wash_detector := wash_high; price_detector := price_high; pump_detector := pump_high |}
  else {| wash_detector := wash_medium; price_detector := price_medium; pump_detector := pump_medium |}.

(** [wash.get('total_suspicious_volume', 0)] *)
Definition wash_total_suspicious_volume (wash : WashResult) : Q :=
  match wash with WashNoInput => 0 | WashReport _ _ v _ => v end.

(** [price.get('manipulation_events', [])] and
    [price.get('coordinated_trading', [])] *)
Definition price_manipulation_events (price : PriceResult) : list ManipulationEvent :=
  match price with PriceNoInput => [] | PriceReport m _ _ _ => m end.
Definition price_coordinated_trading (price : PriceResult) : list CoordinatedEvent :=
  match price with PriceNoInput => [] | PriceReport _ c _ _ => c end.

(** [_calculate_risk_score] *)
Definition _calculate_risk_score (wash : WashResult) (price : PriceResult) (pump : PumpResult) : Q :=
  let score := 0 in
  let score :=
    if (0 <? wash_detected_count wash)%nat then
      let volume_factor := py_min (wash_total_suspicious_volume wash / 100000) 1 in
      score + (py_min (nat_q (wash_detected_count wash * 3)) 25 + volume_factor * 10)
    else score in
  let manipulation_count := List.length (price_manipulation_events price) in
  let coordinated_count := List.length (price_coordinated_trading price) in
  let score := if (0 <? manipulation_count)%nat
               then score + py_min (nat_q (manipulation_count * 10)) 25 else score in
  let score := if (0 <? coordinated_count)%nat
               then score + py_min (nat_q (coordinated_count * 2)) 10 else score in
  let high_conf := List.length (high_confidence pump) in
  let total_schemes := num_schemes pump in
  let score := if (0 <? high_conf)%nat then score + py_min (nat_q (high_conf * 15)) 25
               else if (0 <? total_schemes)%nat then score + py_min (nat_q (total_schemes * 5)) 10
               else score in
  py_min score 100.

(** [_get_risk_level] *)
Definition _get_risk_level (wash : WashResult) (price : PriceResult) (pump : PumpResult) : string :=
  let score := _calculate_risk_score wash price pump in
  if Qle_bool 75 score then "CRITICAL"
  else if Qle_bool 50 score then "HIGH"
  else if Qle_bool 25 score then "MEDIUM"
  else if Qltb 0 score then "LOW"
  else "MINIMAL".

(** The result dict of [analyze_token] (token address, chain and the
    wall-clock timestamp are copied through and left out). *)
Record Analysis := {
  total_transactions : nat;
  wash_trading : WashResult;
  price_manipulation : PriceResult;
  pump_and_dump : PumpResult;
  risk_score : Q;
  risk_level : string
}.

(** [analyze_token], from the fetched transactions on: [None] when there
    are none; the detectors run in the order wash trading, price
    manipulation, pump and dump, and an exception of one propagates. *)
Definition analyze_token (sensitivity : string) (transactions : list Row) : Result (option Analysis) :=
  match transactions with
  | [] => Ok None
  | _ =>
      let d := detectors_of sensitivity in
      let* wash_results := wash_detect (wash_detector d) transactions in
      let price_results := price_detect (price_detector d) transactions in
      let* pump_results := pump_detect (pump_detector d) transactions in
      Ok (Some {| total_transactions := List.length transactions;
                  wash_trading := wash_results;
                  price_manipulation := price_results;
                  pump_and_dump := pump_results;
                  risk_score := _calculate_risk_score wash_results price_results pump_results;
                  risk_level := _get_risk_level wash_results price_results pump_results |})
  end.

End AnomalySystem.

(* ================================================================== *)
(** * Properties *)

(** ** Comparison lemmas *)

Lemma Qle_bool_true (x y : Q) : x <= y -> Qle_bool x y = true.
Proof. intro H. apply Qle_bool_iff. exact H. Qed.

Lemma Qle_bool_false (x y : Q) : y < x -> Qle_bool x y = false.
Proof.
  intro H. destruct (Qle_bool x y) eqn:E; [|reflexivity].
  apply Qle_bool_iff in E. lra.
Qed.

Lemma Qltb_true (x y : Q) : x < y -> Qltb x y = true.
Proof. intro H. unfold Qltb. rewrite Qle_bool_false by exact H. reflexivity. Qed.

Lemma Qltb_false (x y : Q) : y <= x -> Qltb x y = false.
Proof. intro H. unfold Qltb. rewrite Qle_bool_true by exact H. reflexivity. Qed.

Lemma Qltb_spec (x y : Q) : Qltb x y = true <-> x < y.
Proof.
  split; intro H.
  - unfold Qltb in H. destruct (Qle_bool y x) eqn:E; [discriminate|].
    destruct (Qlt_le_dec x y) as [Hl|Hl]; [exact Hl|].
    apply Qle_bool_true in Hl. congruence.
  - apply Qltb_true. exact H.
Qed.

Lemma Qle_bool_spec (x y : Q) : Qle_bool x y = true <-> x <= y.
Proof. apply Qle_bool_iff. Qed.

(** ** Risk engine *)

Lemma label_low (s : Q) : 0 <= s <= 23 -> Risk.label s = "Low Risk".
Proof.
  intros [H1 H2]. unfold Risk.label.
  rewrite (Qle_bool_true _ _ H1), (Qle_bool_true _ _ H2). reflexivity.
Qed.

Lemma label_medium (s : Q) : 23 < s <= 50 -> Risk.label s = "Medium Risk".
Proof.
  intros [H1 H2]. unfold Risk.label.
  rewrite (Qle_bool_false s 23 H1), andb_false_r.
  rewrite (Qltb_true _ _ H1), (Qle_bool_true _ _ H2). reflexivity.
Qed.

Lemma label_high (s : Q) : 50 < s <= 100 -> Risk.label s = "High Risk".
Proof.
  intros [H1 H2]. unfold Risk.label.
  rewrite (Qle_bool_false s 23 ltac:(lra)), andb_false_r.
  rewrite (Qle_bool_false s 50 H1), andb_false_r.
  rewrite (Qltb_true _ _ H1), (Qle_bool_true _ _ H2). reflexivity.
Qed.

Definition module_scores (ms : Risk.modules) : list Q := map (fun nm => Risk.score (snd nm)) ms.

(** C4 (as the code does it): [overall_risk] pairs the overall score with
    its label; the overall score is the arithmetic mean of the module
    scores rounded to two decimals ([round(., 2)]), and 0.0 for an empty
    module dictionary; the label is "Low Risk" on [0,23], "Medium Risk" on
    (23,50] and "High Risk" on (50,100], so 23.0 is Low, 23.01 Medium, 50.0
    Medium and 50.01 High. *)
Theorem overall_risk_rounded_mean_and_label :
  forall ms : Risk.modules,
    Risk.overall_risk ms = (Risk.overall_score ms, Risk.label (Risk.overall_score ms))
    /\ (ms = [] -> Risk.overall_score ms = 0)
    /\ (ms <> [] -> Risk.overall_score ms
                    = round2 (qsum id (module_scores ms) / nat_q (List.length ms)))
    /\ (forall s, 0 <= s <= 23 -> Risk.label s = "Low Risk")
    /\ (forall s, 23 < s <= 50 -> Risk.label s = "Medium Risk")
    /\ (forall s, 50 < s <= 100 -> Risk.label s = "High Risk")
    /\ Risk.label 23 = "Low Risk" /\ Risk.label (2301#100) = "Medium Risk"
    /\ Risk.label 50 = "Medium Risk" /\ Risk.label (5001#100) = "High Risk".
Proof.
  intro ms. repeat split.
  - intros ->. reflexivity.
  - intro Hne. unfold Risk.overall_score, module_scores, nat_q.
    destruct ms as [|m ms']; [contradiction|].
    unfold Risk.overall_score. cbv zeta. simpl map.
    change (List.length (Risk.score (snd m) :: map (fun nm => Risk.score (snd nm)) ms'))
      with (S (List.length (map (fun nm => Risk.score (snd nm)) ms'))).
    rewrite length_map. reflexivity.
  - exact label_low.
  - exact label_medium.
  - exact label_high.
Qed.

(** The module dictionary of the C4 counterexample: a fraud module with one
    flag set (score 25.0) and two holder modules with no concentration. *)
Definition c4_modules : Risk.modules :=
  [("fraud", Risk.FraudRisk true false false false);
   ("holder", Risk.HolderRisk 0); ("holder2", Risk.HolderRisk 0)].

(** C4 refuted: the overall score of three modules scoring 25.0, 0.0 and
    0.0 is 8.33, not their arithmetic mean 25/3. *)
Lemma overall_score_not_exact_mean :
  fst (Risk.overall_risk c4_modules) == 833#100
  /\ ~ (fst (Risk.overall_risk c4_modules) == qsum id (module_scores c4_modules) / 3).
Proof.
  split.
  - vm_compute. reflexivity.
  - vm_compute. discriminate.
Qed.

(** Witness of C4 on the modules of [c4_modules]. *)
Lemma overall_risk_rounded_mean_and_label_witness :
  c4_modules <> []
  /\ Risk.overall_score c4_modules
     = round2 (qsum id (module_scores c4_modules) / nat_q (List.length c4_modules)).
Proof.
  assert (H : c4_modules <> []) by discriminate.
  split; [exact H|].
  exact (proj1 (proj2 (proj2 (overall_risk_rounded_mean_and_label c4_modules))) H).
Defined.

(** ** Pump-and-dump confidence *)

(** A two-tier sub-score: [0.25] at the higher tier, [0.15] at the lower. *)
Definition tier (hi lo : bool) : Q := if hi then 1#4 else if lo then 15#100 else 0.

Lemma tier_mono (a1 b1 a2 b2 : bool) :
  (a1 = true -> a2 = true) -> (b1 = true -> a2 = true \/ b2 = true) -> tier a1 b1 <= tier a2 b2.
Proof.
  intros Ha Hb. unfold tier.
  destruct a1, b1, a2, b2; try lra;
    try (specialize (Ha eq_refl); discriminate);
    try (destruct (Hb eq_refl); discriminate).
Qed.

Lemma tier_range (a b : bool) : 0 <= tier a b <= 1#4.
Proof. unfold tier. destruct a, b; lra. Qed.

Lemma tier_values (a b : bool) : tier a b = 0 \/ tier a b = 15#100 \/ tier a b = 1#4.
Proof. unfold tier. destruct a, b; auto. Qed.

Lemma confidence_tiers (cfg : TxAnomaly.PumpConfig) n p d v :
  TxAnomaly._calculate_confidence cfg n p d v
  = py_min (0 + tier (20 <=? n)%nat (TxAnomaly.min_wallets cfg <=? n)%nat
              + tier (np_ge p (Fin 1)) (np_ge p (Fin (TxAnomaly.pump_threshold cfg)))
              + tier (np_ge d (Fin (1#2))) (np_ge d (Fin (TxAnomaly.dump_threshold cfg)))
              + tier (Qle_bool 100000 v) (Qle_bool 50000 v)) 1.
Proof. reflexivity. Qed.

Lemma py_min_mono (x y c : Q) : x <= y -> py_min x c <= py_min y c.
Proof.
  intro H. unfold py_min.
  destruct (Qltb c x) eqn:E1, (Qltb c y) eqn:E2.
  - apply Qle_refl.
  - apply Qltb_spec in E1.
    destruct (Qlt_le_dec c y) as [Hc|Hc]; [apply Qltb_true in Hc; congruence|lra].
  - apply Qltb_spec in E2.
    destruct (Qlt_le_dec c x) as [Hc|Hc]; [apply Qltb_true in Hc; congruence|lra].
  - exact H.
Qed.

Lemma py_min_le_r (x c : Q) : py_min x c <= c.
Proof.
  unfold py_min. destruct (Qltb c x) eqn:E; [apply Qle_refl|].
  destruct (Qlt_le_dec c x) as [H|H]; [apply Qltb_true in H; congruence | exact H].
Qed.

Lemma py_min_ge (x c m : Q) : m <= x -> m <= c -> m <= py_min x c.
Proof. intros H1 H2. unfold py_min. destruct (Qltb c x); assumption. Qed.

Lemma np_le_trans (x y z : NpF) : np_le x y = true -> np_le y z = true -> np_le x z = true.
Proof.
  destruct x as [a| | |], y as [b| | |], z as [c| | |]; simpl; try discriminate; auto.
  rewrite !Qle_bool_spec. intros; lra.
Qed.

(** C7: the pump-and-dump confidence is a sum of four two-tier sub-scores
    (each 0, 0.15 or 0.25) clamped by [min(., 1.0)]; it is non-decreasing
    in the number of dumping wallets, the pump magnitude, the dump
    magnitude and the dump volume (each with the other three fixed, for
    every configuration), and it always lies in [0,1]. *)
Theorem pump_confidence_monotone_bounded (cfg : TxAnomaly.PumpConfig) :
  (forall n1 n2 p d v, (n1 <= n2)%nat ->
     TxAnomaly._calculate_confidence cfg n1 p d v <= TxAnomaly._calculate_confidence cfg n2 p d v)
  /\ (forall n p1 p2 d v, np_le p1 p2 = true ->
     TxAnomaly._calculate_confidence cfg n p1 d v <= TxAnomaly._calculate_confidence cfg n p2 d v)
  /\ (forall n p d1 d2 v, np_le d1 d2 = true ->
     TxAnomaly._calculate_confidence cfg n p d1 v <= TxAnomaly._calculate_confidence cfg n p d2 v)
  /\ (forall n p d v1 v2, v1 <= v2 ->
     TxAnomaly._calculate_confidence cfg n p d v1 <= TxAnomaly._calculate_confidence cfg n p d v2)
  /\ (forall n p d v,
     0 <= TxAnomaly._calculate_confidence cfg n p d v <= 1
     /\ exists s1 s2 s3 s4 : Q,
          (forall s, In s [s1; s2; s3; s4] -> s = 0 \/ s = 15#100 \/ s = 1#4)
          /\ TxAnomaly._calculate_confidence cfg n p d v = py_min (0 + s1 + s2 + s3 + s4) 1).
Proof.
  refine (conj _ (conj _ (conj _ (conj _ _)))).
  - intros n1 n2 p d v Hn. rewrite !confidence_tiers. apply py_min_mono.
    assert (tier (20 <=? n1)%nat (TxAnomaly.min_wallets cfg <=? n1)%nat
            <= tier (20 <=? n2)%nat (TxAnomaly.min_wallets cfg <=? n2)%nat).
    { apply tier_mono; intro H; apply Nat.leb_le in H.
      - apply Nat.leb_le. lia.
      - right. apply Nat.leb_le. lia. }
    lra.
  - intros n p1 p2 d v Hp. rewrite !confidence_tiers. apply py_min_mono.
    assert (tier (np_ge p1 (Fin 1)) (np_ge p1 (Fin (TxAnomaly.pump_threshold cfg)))
            <= tier (np_ge p2 (Fin 1)) (np_ge p2 (Fin (TxAnomaly.pump_threshold cfg)))).
    { apply tier_mono; unfold np_ge; intro H.
      - exact (np_le_trans _ _ _ H Hp).
      - right. exact (np_le_trans _ _ _ H Hp). }
    lra.
  - intros n p d1 d2 v Hd. rewrite !confidence_tiers. apply py_min_mono.
    assert (tier (np_ge d1 (Fin (1#2))) (np_ge d1 (Fin (TxAnomaly.dump_threshold cfg)))
            <= tier (np_ge d2 (Fin (1#2))) (np_ge d2 (Fin (TxAnomaly.dump_threshold cfg)))).
    { apply tier_mono; unfold np_ge; intro H.
      - exact (np_le_trans _ _ _ H Hd).
      - right. exact (np_le_trans _ _ _ H Hd). }
    lra.
  - intros n p d v1 v2 Hv. rewrite !confidence_tiers. apply py_min_mono.
    assert (tier (Qle_bool 100000 v1) (Qle_bool 50000 v1)
            <= tier (Qle_bool 100000 v2) (Qle_bool 50000 v2)).
    { apply tier_mono; rewrite !Qle_bool_spec; intro H.
      - lra.
      - right. lra. }
    lra.
  - intros n p d v. split; [split|].
    + rewrite confidence_tiers. apply py_min_ge; [|lra].
      repeat match goal with |- context [tier ?a ?b] =>
        let H := fresh "Ht" in pose proof (tier_range a b) as H; revert H;
        generalize (tier a b); intros ? ? end.
      lra.
    + rewrite confidence_tiers. apply py_min_le_r.
    + eexists _, _, _, _. split; [|apply confidence_tiers].
      simpl. intros s [<-|[<-|[<-|[<-|[]]]]]; apply tier_values.
Qed.


(** Witness of C7: 1 to 20 dumping wallets under the default configuration. *)
Lemma pump_confidence_monotone_bounded_witness :
  (1 <= 20)%nat
  /\ TxAnomaly._calculate_confidence TxAnomaly.pump_medium 1 (Fin 0) (Fin 0) 0
     <= TxAnomaly._calculate_confidence TxAnomaly.pump_medium 20 (Fin 0) (Fin 0) 0.
Proof.
  assert (H : (1 <= 20)%nat) by lia.
  split; [exact H|].
  exact (proj1 (pump_confidence_monotone_bounded TxAnomaly.pump_medium) 1%nat 20%nat (Fin 0) (Fin 0) 0 H).
Defined.

(** ** Lists, grouping and sorting *)

Section Grouping.

Context {K A : Type}.
Variable eqb : K -> K -> bool.
Hypothesis eqb_spec : forall a b, eqb a b = true <-> a = b.
Variable key : A -> K.

Lemma in_keys_in_order_acc (l : list A) : forall (acc : list K) k,
  In k (fold_left (fun acc x => if existsb (eqb (key x)) acc then acc else (acc ++ [key x])%list) l acc)
  <-> In k acc \/ exists x, In x l /\ key x = k.
Proof.
  induction l as [|x l IH]; intros acc k; simpl.
  - split; [auto|]. intros [H|[x [[] _]]]. exact H.
  - rewrite IH. destruct (existsb (eqb (key x)) acc) eqn:E.
    + apply existsb_exists in E. destruct E as [y [Hy Hxy]].
      apply eqb_spec in Hxy. split.
      * intros [H|[z [Hz Hk]]]; [auto|eauto].
      * intros [H|[z [[<-|Hz] Hk]]]; [auto| |eauto]. left. congruence.
    + rewrite in_app_iff. simpl. split.
      * intros [[H|[H|[]]]|[z [Hz Hk]]]; [auto| |eauto]. right. eauto.
      * intros [H|[z [[<-|Hz] Hk]]]; [auto|auto|eauto].
Qed.

Lemma in_keys_in_order (l : list A) k :
  In k (keys_in_order eqb key l) <-> exists x, In x l /\ key x = k.
Proof.
  unfold keys_in_order. rewrite in_keys_in_order_acc. simpl.
  split; [intros [[]|H]; exact H | auto].
Qed.

Lemma in_group_by (l : list A) k g :
  In (k, g) (group_by eqb key l)
  <-> (exists x, In x l /\ key x = k) /\ g = filter (fun x => eqb (key x) k) l.
Proof.
  unfold group_by. rewrite in_map_iff. split.
  - intros [k' [Heq Hk]]. injection Heq as <- <-.
    split; [apply in_keys_in_order; exact Hk | reflexivity].
  - intros [Hk ->]. exists k. split; [reflexivity|]. apply in_keys_in_order. exact Hk.
Qed.

End Grouping.

Lemma in_insert_desc {A} (key : A -> Q) x y l : In y (insert_desc key x l) <-> x = y \/ In y l.
Proof.
  induction l as [|z l IH]; simpl; [tauto|].
  destruct (Qltb (key z) (key x)); simpl; [tauto|]. rewrite IH. tauto.
Qed.

Lemma in_sort_desc {A} (key : A -> Q) l y : In y (sort_desc key l) <-> In y l.
Proof.
  unfold sort_desc.
  assert (G : forall acc, In y (fold_left (fun acc x => insert_desc key x acc) l acc)
                          <-> In y acc \/ In y l).
  { induction l as [|x l IH]; intro acc; simpl; [tauto|].
    rewrite IH, in_insert_desc. tauto. }
  rewrite G. simpl. tauto.
Qed.

Lemma in_insert_asc {A} (key : A -> Z) x y l : In y (insert_asc key x l) <-> x = y \/ In y l.
Proof.
  induction l as [|z l IH]; simpl; [tauto|].
  destruct (key x <? key z)%Z; simpl; [tauto|]. rewrite IH. tauto.
Qed.

Lemma in_sort_asc {A} (key : A -> Z) l y : In y (sort_asc key l) <-> In y l.
Proof.
  unfold sort_asc.
  assert (G : forall acc, In y (fold_left (fun acc x => insert_asc key x acc) l acc)
                          <-> In y acc \/ In y l).
  { induction l as [|x l IH]; intro acc; simpl; [tauto|].
    rewrite IH, in_insert_asc. tauto. }
  rewrite G. simpl. tauto.
Qed.

Lemma in_adjacent_pairs {A} (l : list A) a b : In (a, b) (adjacent_pairs l) -> In a l /\ In b l.
Proof.
  induction l as [|x l IH]; simpl; [intros []|].
  destruct l as [|y l']; [intros []|].
  intros [H|H].
  - injection H as <- <-. simpl. auto.
  - destruct (IH H) as [H1 H2]. simpl in *. tauto.
Qed.

Lemma adjacent_pairs_length {A} (l : list A) p : In p (adjacent_pairs l) -> (2 <= List.length l)%nat.
Proof.
  destruct l as [|x [|y l]]; simpl; [intros []|intros []|lia].
Qed.


Lemma filter_length_le {A} (f : A -> bool) l : (List.length (filter f l) <= List.length l)%nat.
Proof. induction l as [|x l IH]; simpl; [lia|]. destruct (f x); simpl; lia. Qed.

Lemma mapM_raise {A B} (f : A -> Result B) l d e :
  In d l -> f d = Raise e -> exists e', mapM f l = Raise e'.
Proof.
  induction l as [|x l IH]; simpl; [intros []|].
  intros [<-|Hin] Hd.
  - rewrite Hd. simpl. eauto.
  - destruct (f x); simpl; [|eauto].
    destruct (IH Hin Hd) as [e' ->]. simpl. eauto.
Qed.

Lemma mapM_in {A B} (f : A -> Result B) l ys y :
  mapM f l = Ok ys -> In y ys -> exists x, In x l /\ f x = Ok y.
Proof.
  revert ys. induction l as [|x l IH]; intros ys H Hy; simpl in H.
  - injection H as <-. destruct Hy.
  - destruct (f x) as [b|e] eqn:Ef; simpl in H; [|discriminate].
    destruct (mapM f l) as [bs|e] eqn:Er; simpl in H; [|discriminate].
    injection H as <-. destruct Hy as [<-|Hy].
    + exists x. split; [left; reflexivity | exact Ef].
    + destruct (IH bs eq_refl Hy) as [x' [Hx' Hf]]. exists x'. split; [right; exact Hx' | exact Hf].
Qed.

Lemma mapM_ok_total {A B} (f : A -> Result B) l ys x :
  mapM f l = Ok ys -> In x l -> exists y, f x = Ok y /\ In y ys.
Proof.
  revert ys. induction l as [|x' l IH]; intros ys H Hx; simpl in H; [destruct Hx|].
  destruct (f x') as [b|e] eqn:Ef; simpl in H; [|discriminate].
  destruct (mapM f l) as [bs|e] eqn:Er; simpl in H; [|discriminate].
  injection H as <-. destruct Hx as [<-|Hx].
  - exists b. split; [exact Ef | left; reflexivity].
  - destruct (IH bs eq_refl Hx) as [y [Hy Hin]]. exists y. split; [exact Hy | right; exact Hin].
Qed.

Lemma mapM_raise_in {A B} (f : A -> Result B) l e :
  mapM f l = Raise e -> exists x, In x l /\ f x = Raise e.
Proof.
  induction l as [|x l IH]; simpl; [discriminate|]. intro H.
  destruct (f x) as [b|e'] eqn:Ef; simpl in H.
  - destruct (mapM f l) as [bs|e'] eqn:Er; simpl in H; [discriminate|].
    injection H as ->. destruct (IH eq_refl) as [y [Hy He]]. exists y. split; [right|]; assumption.
  - injection H as ->. exists x. split; [left; reflexivity | exact Ef].
Qed.

Lemma filterM_raise_in {A} (p : A -> Result bool) l e :
  filterM p l = Raise e -> exists x, In x l /\ p x = Raise e.
Proof.
  induction l as [|x l IH]; simpl; [discriminate|]. intro H.
  destruct (p x) as [b|e'] eqn:Ep; simpl in H.
  - destruct (filterM p l) as [bs|e'] eqn:Er; simpl in H; [discriminate|].
    injection H as ->. destruct (IH eq_refl) as [y [Hy He]]. exists y. split; [right|]; assumption.
  - injection H as ->. exists x. split; [left; reflexivity | exact Ep].
Qed.

Lemma filterM_raise {A} (p : A -> Result bool) l x e :
  In x l -> p x = Raise e -> exists e', filterM p l = Raise e'.
Proof.
  induction l as [|y l IH]; simpl; [intros []|].
  intros [<-|Hin] Hx.
  - rewrite Hx. simpl. eauto.
  - destruct (p y); simpl; [|eauto].
    destruct (IH Hin Hx) as [e' ->]. simpl. eauto.
Qed.

Lemma flat_mapM_in {A B} (f : A -> Result (list B)) l ys y :
  flat_mapM f l = Ok ys -> In y ys -> exists x zs, In x l /\ f x = Ok zs /\ In y zs.
Proof.
  revert ys. induction l as [|x l IH]; intros ys H Hy; simpl in H.
  - injection H as <-. destruct Hy.
  - destruct (f x) as [a|e] eqn:Ef; simpl in H; [|discriminate].
    destruct (flat_mapM f l) as [b|e] eqn:Er; simpl in H; [|discriminate].
    injection H as <-. apply in_app_or in Hy. destruct Hy as [Hy|Hy].
    + exists x, a. split; [left; reflexivity|]. split; assumption.
    + destruct (IH b eq_refl Hy) as [x' [zs [Hx [Hf Hz]]]].
      exists x', zs. split; [right; exact Hx|]. split; assumption.
Qed.

Lemma flat_mapM_raise_in {A B} (f : A -> Result (list B)) l e :
  flat_mapM f l = Raise e -> exists x, In x l /\ f x = Raise e.
Proof.
  induction l as [|x l IH]; simpl; [discriminate|]. intro H.
  destruct (f x) as [b|e'] eqn:Ef; simpl in H.
  - destruct (flat_mapM f l) as [bs|e'] eqn:Er; simpl in H; [discriminate|].
    injection H as ->. destruct (IH eq_refl) as [y [Hy He]]. exists y. split; [right|]; assumption.
  - injection H as ->. exists x. split; [left; reflexivity | exact Ef].
Qed.

(** ** Empty batches *)

(** C1: on an empty batch every detector returns its zero result without
    raising: the wash-trading early return (count 0, no wallets), the
    price-manipulation early return, the empty pump-and-dump result, no
    sandwich attacks, no liquidity manipulations, no concentrated attacks,
    no dominating wallets, no insider trades, and no sniping profile (the
    [None] of "fewer than five buys"). *)
Theorem detectors_empty_batch_zero_result :
  (forall cfg, TxAnomaly.wash_detect cfg [] = Ok TxAnomaly.WashNoInput
               /\ TxAnomaly.wash_detected_count TxAnomaly.WashNoInput = 0%nat
               /\ TxAnomaly.wash_suspicious_wallets TxAnomaly.WashNoInput = [])
  /\ (forall cfg, TxAnomaly.price_detect cfg [] = TxAnomaly.PriceNoInput)
  /\ (forall cfg, TxAnomaly.pump_detect cfg []
                  = Ok {| TxAnomaly.detected_schemes := []; TxAnomaly.num_schemes := 0;
                          TxAnomaly.high_confidence := [] |})
  /\ Sandwich.analyze [] = Ok []
  /\ Pool.lp_analyze [] = []
  /\ Pool.concentrated_analyze [] = Ok []
  /\ Pool.domination_analyze [] = []
  /\ (forall fromisoformat now wallet min_score,
        WalletBehavior.insider_analyze_wallet fromisoformat now wallet [] min_score = Ok [])
  /\ (forall wallet, WalletBehavior.sniping_analyze_wallet wallet [] = Ok None).
Proof. repeat split. Qed.

(** ** Sniping bots *)

Section MaxBy.

Context {A : Type}.
Variable key : A -> Z.

Lemma max_by_cons x y ys :
  max_by key x (y :: ys) = max_by key (if (key x <? key y)%Z then y else x) ys.
Proof. reflexivity. Qed.

Lemma max_by_stays s q : Forall (fun z => (key z <= key s)%Z) q -> max_by key s q = s.
Proof.
  induction q as [|y q IH]; intro H; [reflexivity|].
  inversion H as [|? ? Hy Hq]; subst. rewrite max_by_cons.
  replace (key s <? key y)%Z with false by (symmetry; apply Z.ltb_ge; exact Hy).
  apply IH. exact Hq.
Qed.

Lemma max_by_reaches p : forall x s q,
  (key x < key s)%Z -> Forall (fun z => (key z < key s)%Z) p ->
  Forall (fun z => (key z <= key s)%Z) q -> max_by key x (p ++ s :: q) = s.
Proof.
  induction p as [|y p IH]; intros x s q Hx Hp Hq; cbn [app].
  - rewrite max_by_cons. replace (key x <? key s)%Z with true by (symmetry; apply Z.ltb_lt; exact Hx).
    apply max_by_stays. exact Hq.
  - inversion Hp as [|? ? Hy Hp']; subst. rewrite max_by_cons.
    apply IH; [|exact Hp'|exact Hq].
    destruct (key x <? key y)%Z; assumption.
Qed.

(** The element [max(...)] returns is the first one of greatest key. *)
Lemma max_by_unique x xs p s q :
  x :: xs = p ++ s :: q -> Forall (fun z => (key z < key s)%Z) p ->
  Forall (fun z => (key z <= key s)%Z) q -> max_by key x xs = s.
Proof.
  intros E Hp Hq. destruct p as [|y p]; simpl in E; injection E as -> ->.
  - apply max_by_stays. exact Hq.
  - inversion Hp; subst. apply max_by_reaches; assumption.
Qed.

Lemma max_by_in x xs : In (max_by key x xs) (x :: xs).
Proof.
  revert x. induction xs as [|y ys IH]; intro x; [left; reflexivity|].
  rewrite max_by_cons. destruct (key x <? key y)%Z.
  - right. apply IH.
  - destruct (IH x) as [H|H]; [left; exact H|right; right; exact H].
Qed.

Lemma max_by_ge x xs z : In z (x :: xs) -> (key z <= key (max_by key x xs))%Z.
Proof.
  revert x z. induction xs as [|y ys IH]; intros x z Hz.
  - destruct Hz as [<-|[]]. simpl. lia.
  - rewrite max_by_cons. destruct (key x <? key y)%Z eqn:E.
    + apply Z.ltb_lt in E. destruct Hz as [<-|Hz].
      * pose proof (IH y y (or_introl eq_refl)). lia.
      * apply IH. exact Hz.
    + apply Z.ltb_ge in E. destruct Hz as [<-|[<-|Hz]].
      * apply IH. left. reflexivity.
      * pose proof (IH x x (or_introl eq_refl)). lia.
      * apply IH. right. exact Hz.
Qed.

Lemma max_by_first x xs : exists p q, x :: xs = p ++ max_by key x xs :: q
  /\ Forall (fun z => (key z < key (max_by key x xs))%Z) p.
Proof.
  revert x. induction xs as [|y ys IH]; intro x.
  - exists [], []. split; [reflexivity|constructor].
  - rewrite max_by_cons. destruct (key x <? key y)%Z eqn:E.
    + apply Z.ltb_lt in E. destruct (IH y) as [p [q [Hpq Hp]]].
      exists (x :: p), q. split; [simpl; rewrite Hpq; reflexivity|].
      constructor; [|exact Hp].
      pose proof (max_by_ge y ys y (or_introl eq_refl)). lia.
    + apply Z.ltb_ge in E. destruct (IH x) as [p [q [Hpq Hp]]].
      destruct p as [|z p]; simpl in Hpq; injection Hpq as Hx Hys.
      * exists [], (y :: q). rewrite <- Hx. simpl. rewrite Hys. split; [reflexivity|constructor].
      * subst z. exists (x :: y :: p), q. split; [simpl; do 2 f_equal; exact Hys|].
        inversion Hp as [|? ? Hxm Hp']; subst.
        constructor; [exact Hxm|]. constructor; [lia|exact Hp'].
Qed.

End MaxBy.

Lemma rate_bounds (a b : nat) : (a <= b)%nat -> (0 < b)%nat -> 0 <= nat_q a / nat_q b * 100 <= 100.
Proof.
  intros Hab Hb. unfold nat_q.
  assert (Hb' : inject_Z 0 < inject_Z (Z.of_nat b)) by (rewrite <- Zlt_Qlt; lia).
  assert (Ha' : inject_Z 0 <= inject_Z (Z.of_nat a)) by (rewrite <- Zle_Qle; lia).
  change (inject_Z 0) with 0 in Hb', Ha'.
  assert (Hle : inject_Z (Z.of_nat a) <= inject_Z (Z.of_nat b)) by (rewrite <- Zle_Qle; lia).
  assert (H0 : 0 <= inject_Z (Z.of_nat a) / inject_Z (Z.of_nat b)).
  { apply Qle_shift_div_l; [exact Hb'|]. lra. }
  assert (H1 : inject_Z (Z.of_nat a) / inject_Z (Z.of_nat b) <= 1).
  { apply Qle_shift_div_r; [exact Hb'|]. lra. }
  split.
  - apply Qmult_le_0_compat; [exact H0|discriminate].
  - setoid_replace 100 with (1 * 100) at 2 by reflexivity.
    apply Qmult_le_compat_r; [exact H1|discriminate].
Qed.

(** A wallet-behaviour swap with the fields the sniping detector reads. *)
Definition wb_swap (ty sub token : string) (block : Z) (price : Q) : WalletBehavior.SwapTransaction :=
  {| WalletBehavior.transaction_hash := "0x"; WalletBehavior.transaction_index := 1;
     WalletBehavior.transaction_type := ty; WalletBehavior.block_number := block;
     WalletBehavior.block_timestamp := "2024-01-01T00:00:00"; WalletBehavior.wallet_address := "w";
     WalletBehavior.pair_address := "p"; WalletBehavior.pair_label := "";
     WalletBehavior.base_token := token; WalletBehavior.quote_token := "q";
     WalletBehavior.bought_amount := 1; WalletBehavior.bought_symbol := token;
     WalletBehavior.sold_amount := 1; WalletBehavior.sold_symbol := "q";
     WalletBehavior.total_value_usd := 100; WalletBehavior.base_quote_price := price;
     WalletBehavior.sub_category := sub |}.

(** The new-position buy of token T at block 100 (price 1). *)
Definition c9_snipe : WalletBehavior.SwapTransaction := wb_swap "buy" "newPosition" "T" 100 1.

(** Five buys, one of them the new position [c9_snipe], and one sell of
    T at block 50, before the buy, at price 2. *)
Definition c9_swaps : list WalletBehavior.SwapTransaction :=
  [c9_snipe; wb_swap "buy" "" "U" 101 1; wb_swap "buy" "" "U" 102 1;
   wb_swap "buy" "" "U" 103 1; wb_swap "buy" "" "U" 104 1;
   wb_swap "sell" "" "T" 50 2].

(** C10: in every profile the sniping detector returns, the successful
    snipes are counted over the first ten new positions only, so there are
    at most [min(total_snipes, 10)] of them, and the success rate lies in
    [0,100]. *)
Theorem sniping_success_bounded (wallet : string) (swaps : list WalletBehavior.SwapTransaction)
    (bot : WalletBehavior.SnipingBot) :
  WalletBehavior.sniping_analyze wallet swaps = Some bot ->
  WalletBehavior.successful_snipes bot
    = List.length (filter (WalletBehavior.snipe_counted swaps)
        (firstn 10 (filter (fun s => String.eqb (WalletBehavior.sub_category s) "newPosition")
                     (filter (fun s => String.eqb (WalletBehavior.transaction_type s) "buy") swaps))))
  /\ (WalletBehavior.successful_snipes bot <= Nat.min (WalletBehavior.total_snipes bot) 10)%nat
  /\ 0 <= WalletBehavior.success_rate bot <= 100.
Proof.
  intro H. unfold WalletBehavior.sniping_analyze in H.
  destruct (_ <? 5)%nat; [discriminate|].
  injection H as <-. simpl.
  set (np := filter _ (filter _ swaps)).
  assert (Hs : (List.length (filter (WalletBehavior.snipe_counted swaps) (firstn 10 np))
                <= Nat.min (List.length np) 10)%nat).
  { eapply Nat.le_trans; [apply filter_length_le|]. rewrite length_firstn. lia. }
  split; [reflexivity|]. split; [exact Hs|].
  destruct np as [|x np'] eqn:E.
  - lra.
  - apply rate_bounds; [exact Hs|]. simpl. lia.
Qed.

(** Witness of C10 on the five buys of [c9_swaps]. *)
Lemma sniping_success_bounded_witness :
  exists bot, WalletBehavior.sniping_analyze "w" c9_swaps = Some bot
    /\ (WalletBehavior.successful_snipes bot <= Nat.min (WalletBehavior.total_snipes bot) 10)%nat
    /\ 0 <= WalletBehavior.success_rate bot <= 100.
Proof.
  eexists. split; [reflexivity|].
  apply (sniping_success_bounded "w" c9_swaps). reflexivity.
Defined.

(** C9 (as the code does it): a new position is counted as a successful
    snipe exactly when no sell of its token exists among the wallet's
    swaps, or the sell with the greatest block number (the first such in
    input order), whatever its block relative to the buy, has a strictly
    higher price than the buy. *)
Theorem snipe_counted_latest_sell_any_time (swaps : list WalletBehavior.SwapTransaction)
    (snipe : WalletBehavior.SwapTransaction) :
  WalletBehavior.snipe_counted swaps snipe = true
  <-> WalletBehavior.sells_of swaps snipe = []
      \/ exists p s q,
           WalletBehavior.sells_of swaps snipe = p ++ s :: q
           /\ Forall (fun z => (WalletBehavior.block_number z < WalletBehavior.block_number s)%Z) p
           /\ Forall (fun z => (WalletBehavior.block_number z <= WalletBehavior.block_number s)%Z) q
           /\ WalletBehavior.base_quote_price snipe < WalletBehavior.base_quote_price s.
Proof.
  unfold WalletBehavior.snipe_counted.
  destruct (WalletBehavior.sells_of swaps snipe) as [|x xs] eqn:E.
  - split; [auto|reflexivity].
  - rewrite Qltb_spec. split.
    + intro H. right.
      destruct (max_by_first WalletBehavior.block_number x xs) as [p [q [Hpq Hp]]].
      exists p, (max_by WalletBehavior.block_number x xs), q.
      split; [exact Hpq|]. split; [exact Hp|]. split; [|exact H].
      apply Forall_forall. intros z Hz. apply max_by_ge. rewrite Hpq.
      apply in_or_app. right. right. exact Hz.
    + intros [H|[p [s [q [Hpq [Hp [Hq Hlt]]]]]]]; [discriminate|].
      rewrite (max_by_unique WalletBehavior.block_number x xs p s q Hpq Hp Hq). exact Hlt.
Qed.

(** C9 refuted: the only sell of token T happened at block 50, before the
    new-position buy at block 100, yet the buy counts as a successful
    snipe (the sell price 2 exceeds the buy price 1). *)
Lemma snipe_sold_before_buy_counted :
  Forall (fun s => (WalletBehavior.block_number s < WalletBehavior.block_number c9_snipe)%Z)
         (WalletBehavior.sells_of c9_swaps c9_snipe)
  /\ WalletBehavior.sells_of c9_swaps c9_snipe <> []
  /\ exists bot, WalletBehavior.sniping_analyze "w" c9_swaps = Some bot
                 /\ WalletBehavior.successful_snipes bot = 1%nat.
Proof.
  split; [|split].
  - vm_compute. repeat constructor.
  - vm_compute. discriminate.
  - eexists. split; reflexivity.
Qed.

(** ** Wash trading *)

Lemma in_insert_key {K} (ltb : K -> K -> bool) k y ks : In y (TxAnomaly.insert_key ltb k ks) <-> k = y \/ In y ks.
Proof.
  induction ks as [|k' ks IH]; simpl; [tauto|].
  destruct (ltb k k'); simpl; [tauto|]. rewrite IH. tauto.
Qed.

Lemma in_pd_groupby {K} (ltb eqb : K -> K -> bool) (eqb_spec : forall a b, eqb a b = true <-> a = b)
    (key : TxAnomaly.Row -> K) rows k g :
  In (k, g) (TxAnomaly.pd_groupby ltb eqb key rows)
  <-> (exists r, In r rows /\ key r = k) /\ g = filter (fun r => eqb (key r) k) rows.
Proof.
  unfold TxAnomaly.pd_groupby. rewrite in_map_iff.
  assert (G : forall ks acc y, In y (fold_left (fun acc k => TxAnomaly.insert_key ltb k acc) ks acc)
                               <-> In y acc \/ In y ks).
  { induction ks as [|k0 ks IH]; intros acc y; simpl; [tauto|].
    rewrite IH, in_insert_key. tauto. }
  split.
  - intros [k' [Heq Hk]]. injection Heq as <- <-.
    rewrite G in Hk. destruct Hk as [[]|Hk].
    split; [apply (in_keys_in_order eqb eqb_spec key); exact Hk | reflexivity].
  - intros [Hk ->]. exists k. split; [reflexivity|].
    rewrite G. right. apply (in_keys_in_order eqb eqb_spec key). exact Hk.
Qed.

Lemma wash_suspicious_iff cfg g p :
  TxAnomaly._analyze_wallet_pattern cfg g = Ok p ->
  TxAnomaly.is_suspicious p = true
  <-> ((TxAnomaly.min_round_trips cfg <= TxAnomaly.round_trips p)%nat
       /\ TxAnomaly.min_volume cfg <= TxAnomaly.total_volume p)
      \/ ((TxAnomaly.min_same_block cfg <= TxAnomaly.same_block_trades p)%nat
          /\ TxAnomaly.min_volume cfg <= TxAnomaly.total_volume p).
Proof.
  unfold TxAnomaly._analyze_wallet_pattern.
  destruct (TxAnomaly.round_trips_of cfg g) as [trips|e]; cbn [bind]; [|discriminate].
  intro H. injection H as <-. unfold TxAnomaly.wallet_pattern.
  cbn [TxAnomaly.is_suspicious TxAnomaly.round_trips TxAnomaly.total_volume TxAnomaly.same_block_trades].
  rewrite orb_true_iff, !andb_true_iff, !Nat.leb_le, !Qle_bool_spec. tauto.
Qed.


(** The analysed wallets of a report: each comes from a wallet group of
    the sorted batch. *)
Lemma wash_analysed_in cfg (groups : list (string * list TxAnomaly.Row)) analysed w p :
  mapM (fun kv => let* p := TxAnomaly._analyze_wallet_pattern cfg (snd kv) in Ok (fst kv, p)) groups
    = Ok analysed ->
  In (w, p) analysed <-> exists g, In (w, g) groups /\ TxAnomaly._analyze_wallet_pattern cfg g = Ok p.
Proof.
  intro Ha. split.
  - intro Hin. destruct (mapM_in _ _ _ _ Ha Hin) as [[k g] [Hk Hf]].
    cbn [fst snd] in Hf. destruct (TxAnomaly._analyze_wallet_pattern cfg g) eqn:Ep;
      cbn [bind] in Hf; [|discriminate].
    injection Hf as <- <-. exists g. split; assumption.
  - intros [g [Hg Hp]]. destruct (mapM_ok_total _ _ _ _ Ha Hg) as [y [Hy Hin]].
    cbn [fst snd] in Hy. rewrite Hp in Hy. cbn [bind] in Hy. injection Hy as <-. exact Hin.
Qed.

(** A transaction row with the fields the wash-trading detector reads. *)
Definition mk_row (ty wallet : string) (block ts : Z) (value : Q) (price : NpF) : TxAnomaly.Row :=
  {| TxAnomaly.transactionHash := "0x"; TxAnomaly.transactionType := ty;
     TxAnomaly.blockNumber := block; TxAnomaly.blockTimestamp := ts;
     TxAnomaly.walletAddress := wallet; TxAnomaly.pairAddress := "p";
     TxAnomaly.pairLabel := "P"; TxAnomaly.subCategory := None;
     TxAnomaly.totalValueUsd := value; TxAnomaly.baseQuotePrice := price |}.










(** ** Pool domination *)

Lemma domination_of_wallet_names swaps tv k g :
  map Pool.dominant_wallet (Pool.domination_of_wallet swaps tv (k, g))
  = if Pool.dominates swaps tv (Pool.wallet_stats g) then [k] else [].
Proof.
  unfold Pool.domination_of_wallet.
  destruct (Pool.dominates swaps tv (Pool.wallet_stats g)); [|reflexivity].
  repeat match goal with |- context [if ?b then _ else _] => destruct b end; reflexivity.
Qed.

Lemma in_domination_flat_map swaps tv G w :
  In w (map Pool.dominant_wallet (flat_map (Pool.domination_of_wallet swaps tv) G))
  <-> exists g, In (w, g) G /\ Pool.dominates swaps tv (Pool.wallet_stats g) = true.
Proof.
  induction G as [|[k g] G IH]; cbn [flat_map].
  - split; [intros []|intros [g [[] _]]].
  - rewrite map_app, in_app_iff, IH, domination_of_wallet_names.
    destruct (Pool.dominates swaps tv (Pool.wallet_stats g)) eqn:D; simpl.
    + split.
      * intros [[<-|[]]|[g' [H1 H2]]]; [exists g; auto|exists g'; auto].
      * intros [g' [[Heq|Hin] Hd]]; [injection Heq as -> _; auto|right; exists g'; auto].
    + split.
      * intros [[]|[g' [H1 H2]]]. exists g'; auto.
      * intros [g' [[Heq|Hin] Hd]]; [injection Heq as <- <-; congruence|right; exists g'; auto].
Qed.

(** A buy of the pool by [wallet] for [value] dollars at price [price]. *)
Definition mk_pool (wallet : string) (value price : Q) : Pool.PoolSwap :=
  {| Pool.transaction_hash := JStr "0x"; Pool.transaction_index := JNum 0;
     Pool.transaction_type := JStr "buy"; Pool.block_number := 1;
     Pool.block_timestamp := JStr "2024-01-01T00:00:00"; Pool.wallet_address := wallet;
     Pool.sub_category := JStr "newPosition"; Pool.base_token_amount := 1;
     Pool.quote_token_amount := 1; Pool.base_token_price_usd := 1;
     Pool.quote_token_price_usd := 1; Pool.base_quote_price := price;
     Pool.total_value_usd := value |}.

(** [n] one-dollar swaps of [a] and [100 - n] of [b]. *)
Definition c8_swaps (n : nat) : list Pool.PoolSwap :=
  repeat (mk_pool "a" 1 1) n ++ repeat (mk_pool "b" 1 1) (100 - n).

Definition wallet_swaps (swaps : list Pool.PoolSwap) (w : string) : list Pool.PoolSwap :=
  filter (fun s => String.eqb (Pool.wallet_address s) w) swaps.

(** C8: a wallet of the pool is reported as dominating exactly when its
    transaction share is strictly above 20% or its volume share strictly
    above 30%; with 25 of 100 transactions a wallet is reported, with
    exactly 20 of 100 (and a volume share of 20%) it is not. *)
Theorem pool_domination_threshold :
  (forall swaps w,
     In w (map Pool.wallet_address swaps) ->
     (In w (map Pool.dominant_wallet (Pool.domination_analyze swaps))
      <-> 20 < Pool.tx_percentage swaps (Pool.wallet_stats (wallet_swaps swaps w))
          \/ 30 < Pool.volume_percentage (qsum Pool.total_value_usd swaps)
                                         (Pool.wallet_stats (wallet_swaps swaps w))))
  /\ Pool.tx_percentage (c8_swaps 25) (Pool.wallet_stats (wallet_swaps (c8_swaps 25) "a")) == 25
  /\ In "a" (map Pool.dominant_wallet (Pool.domination_analyze (c8_swaps 25)))
  /\ Pool.tx_percentage (c8_swaps 20) (Pool.wallet_stats (wallet_swaps (c8_swaps 20) "a")) == 20
  /\ Pool.volume_percentage (qsum Pool.total_value_usd (c8_swaps 20))
                            (Pool.wallet_stats (wallet_swaps (c8_swaps 20) "a")) <= 30
  /\ ~ In "a" (map Pool.dominant_wallet (Pool.domination_analyze (c8_swaps 20))).
Proof.
  split; [|split; [|split; [|split; [|split]]]].
  - intros swaps w Hw. unfold Pool.domination_analyze.
    assert (Hs : forall L, In w (map Pool.dominant_wallet (sort_desc Pool.domination_percentage L))
                           <-> In w (map Pool.dominant_wallet L)).
    { intro L. rewrite !in_map_iff. split; intros [x [Hx Hin]]; exists x;
        (split; [exact Hx|]); [apply (in_sort_desc Pool.domination_percentage L x)
         | apply (in_sort_desc Pool.domination_percentage L x)]; exact Hin. }
    rewrite Hs, in_domination_flat_map. split.
    + intros [g [Hg Hd]]. apply (in_group_by String.eqb String.eqb_eq) in Hg.
      destruct Hg as [_ ->]. unfold Pool.dominates in Hd.
      rewrite orb_true_iff, !Qltb_spec in Hd. exact Hd.
    + intro Hd. exists (wallet_swaps swaps w). split.
      * apply (in_group_by String.eqb String.eqb_eq). split; [|reflexivity].
        apply in_map_iff in Hw. destruct Hw as [x [Hx Hin]]. eauto.
      * unfold Pool.dominates. rewrite orb_true_iff, !Qltb_spec. exact Hd.
  - vm_compute. reflexivity.
  - vm_compute. auto.
  - vm_compute. reflexivity.
  - vm_compute. discriminate.
  - vm_compute. intuition discriminate.
Qed.

(** Witness of C8 on 25 of 100 transactions. *)
Lemma pool_domination_threshold_witness :
  In "a" (map Pool.wallet_address (c8_swaps 25))
  /\ (In "a" (map Pool.dominant_wallet (Pool.domination_analyze (c8_swaps 25)))
      <-> 20 < Pool.tx_percentage (c8_swaps 25) (Pool.wallet_stats (wallet_swaps (c8_swaps 25) "a"))
          \/ 30 < Pool.volume_percentage (qsum Pool.total_value_usd (c8_swaps 25))
                                         (Pool.wallet_stats (wallet_swaps (c8_swaps 25) "a"))).
Proof.
  assert (Hw : In "a" (map Pool.wallet_address (c8_swaps 25))) by (vm_compute; auto).
  split; [exact Hw|].
  exact (proj1 pool_domination_threshold (c8_swaps 25) "a" Hw).
Defined.

(** ** Sandwich attacks *)

(** A swap of the block 1 with the fields the sandwich detector reads. *)
Definition mk_sw (ty wallet pair : string) (idx : Z) : Sandwich.SwapTransaction :=
  {| Sandwich.transaction_hash := "0x"; Sandwich.transaction_index := idx;
     Sandwich.transaction_type := ty; Sandwich.block_number := 1;
     Sandwich.block_timestamp := "2024-01-01T00:00:00"; Sandwich.wallet_address := wallet;
     Sandwich.pair_address := pair; Sandwich.pair_label := "";
     Sandwich.base_token := "t"; Sandwich.quote_token := "q";
     Sandwich.bought_amount := 1; Sandwich.bought_symbol := "T";
     Sandwich.sold_amount := 1; Sandwich.sold_symbol := "Q";
     Sandwich.total_value_usd := 100; Sandwich.base_quote_price := 1 |}.

(** A buy of A at index 0 and a sell of A at index 2 on pair P, around a
    trade of B at index 1 on pair [pair_b]. *)
Definition c5_block (pair_b : string) : list Sandwich.SwapTransaction :=
  [mk_sw "buy" "A" "P" 0; mk_sw "buy" "B" pair_b 1; mk_sw "sell" "A" "P" 2].

(** The finding for the front-run [f], victim [v] and back-run [b]. *)
Definition sandwich_of (f v b : Sandwich.SwapTransaction) : Sandwich.SandwichAttack :=
  {| Sandwich.attacker_address := Sandwich.wallet_address f;
     Sandwich.victim_address := Sandwich.wallet_address v;
     Sandwich.sw_block_number := Sandwich.block_number f;
     Sandwich.front_run_tx := f; Sandwich.victim_tx := v; Sandwich.back_run_tx := b;
     Sandwich.profit_usd := Sandwich._calculate_profit f b;
     Sandwich.attack_timestamp := Sandwich.block_timestamp f |}.

(** C5: in the block (A buy at 0, B at 1, A sell at 2, all on P) the
    detector reports exactly one attack, attacker A and victim B, and none
    when B trades another pair; in general, a block's findings are exactly
    one per (adjacent buy/sell pair of one wallet on one pair, victim
    transaction of another wallet on that pair with an index strictly
    between them), and each adjacent pair yields one finding per such
    victim transaction. *)
Theorem sandwich_one_finding_per_victim :
  map (fun a => (Sandwich.attacker_address a, Sandwich.victim_address a))
      (Sandwich.detect_all (c5_block "P")) = [("A", "B")]
  /\ Sandwich.detect_all (c5_block "Q") = []
  /\ (forall txs atk,
        In atk (Sandwich._detect_sandwich_in_block txs)
        <-> exists f b v,
              In (f, b) (adjacent_pairs
                           (filter (fun x => String.eqb (Sandwich.wallet_address x)
                                                        (Sandwich.wallet_address f)) txs))
              /\ Sandwich.is_buy_sell_pair f b = true
              /\ In v txs
              /\ Sandwich.is_victim (Sandwich.wallet_address f) f b v = true
              /\ atk = sandwich_of f v b)
  /\ (forall txs attacker f b,
        Sandwich.is_buy_sell_pair f b = true ->
        List.length (Sandwich.attacks_of_pair txs attacker (f, b))
        = List.length (filter (Sandwich.is_victim attacker f b) txs)).
Proof.
  split; [vm_compute; reflexivity|]. split; [vm_compute; reflexivity|]. split.
  - intros txs atk. unfold Sandwich._detect_sandwich_in_block. rewrite in_flat_map. split.
    + intros [[k g] [Hkv Hin]]. apply filter_In in Hkv. destruct Hkv as [Hkv Hlen].
      apply (in_group_by String.eqb String.eqb_eq) in Hkv. destruct Hkv as [_ ->].
      cbn [fst snd] in Hin. rewrite in_flat_map in Hin. destruct Hin as [[f b] [Hfb Hatk]].
      unfold Sandwich.attacks_of_pair in Hatk.
      destruct (Sandwich.is_buy_sell_pair f b) eqn:Hp; [|destruct Hatk].
      apply in_map_iff in Hatk. destruct Hatk as [v [<- Hv]].
      apply filter_In in Hv. destruct Hv as [Hv Hvict].
      destruct (in_adjacent_pairs _ _ _ Hfb) as [Hf _].
      apply filter_In in Hf. destruct Hf as [_ Hk]. apply String.eqb_eq in Hk. subst k.
      exists f, b, v. auto.
    + intros [f [b [v [Hfb [Hp [Hv [Hvict ->]]]]]]].
      exists (Sandwich.wallet_address f,
              filter (fun x => String.eqb (Sandwich.wallet_address x) (Sandwich.wallet_address f)) txs).
      split.
      * apply filter_In. split.
        -- apply (in_group_by String.eqb String.eqb_eq). split; [|reflexivity].
           destruct (in_adjacent_pairs _ _ _ Hfb) as [Hf _]. apply filter_In in Hf.
           exists f. split; [exact (proj1 Hf)|reflexivity].
        -- apply Nat.leb_le. exact (adjacent_pairs_length _ _ Hfb).
      * cbn [fst snd]. apply in_flat_map. exists (f, b). split; [exact Hfb|].
        unfold Sandwich.attacks_of_pair. rewrite Hp. apply in_map_iff.
        exists v. split; [reflexivity|]. apply filter_In. auto.
  - intros txs attacker f b Hp. unfold Sandwich.attacks_of_pair. rewrite Hp. apply length_map.
Qed.

(** Witness of C5 on the adjacent pair of A in [c5_block "P"]. *)
Lemma sandwich_one_finding_per_victim_witness :
  Sandwich.is_buy_sell_pair (mk_sw "buy" "A" "P" 0) (mk_sw "sell" "A" "P" 2) = true
  /\ List.length (Sandwich.attacks_of_pair (c5_block "P") "A"
                    (mk_sw "buy" "A" "P" 0, mk_sw "sell" "A" "P" 2))
     = List.length (filter (Sandwich.is_victim "A" (mk_sw "buy" "A" "P" 0) (mk_sw "sell" "A" "P" 2))
                           (c5_block "P")).
Proof.
  assert (Hp : Sandwich.is_buy_sell_pair (mk_sw "buy" "A" "P" 0) (mk_sw "sell" "A" "P" 2) = true)
    by reflexivity.
  split; [exact Hp|].
  exact (proj2 (proj2 (proj2 sandwich_one_finding_per_victim)) (c5_block "P") "A" _ _ Hp).
Defined.

(** ** Normalisation of raw swaps *)











(** ** Divisions by a zero price *)

(** Two consecutive pool swaps, the second at price 0. *)
Definition c2_pool_swaps : list Pool.PoolSwap := [mk_pool "x" 6000 1; mk_pool "y" 10 0].

(** A single buy of token T at price 0. *)
Definition c2_insider_swaps : list WalletBehavior.SwapTransaction := [wb_swap "buy" "" "T" 1 0].

(** A buy and a sell of one wallet, both at price 0. *)
Definition c2_buy : TxAnomaly.Row := mk_row "buy" "m" 1 0 600 (Fin 0).
Definition c2_sell : TxAnomaly.Row := mk_row "sell" "m" 2 60 600 (Fin 0).

(** C2: the price-change divisions are not guarded: the concentrated-attack
    analysis raises ZeroDivisionError when the next swap's price is 0, the
    insider analysis raises ZeroDivisionError when the entry price is 0
    (whatever the clock), and the wash-trading deviation of a buy at
    price 0 (a Python float division) raises ZeroDivisionError, so the
    whole wash-trading detection raises; the volume share of pool
    domination, by contrast, is guarded and is 0 when the total volume
    is 0. *)
Theorem zero_price_divisions_unguarded :
  Pool.concentrated_analyze c2_pool_swaps = Raise ZeroDivisionError
  /\ (forall fromisoformat now min_score,
        WalletBehavior.insider_analyze fromisoformat now "w" c2_insider_swaps min_score
        = Raise ZeroDivisionError)
  /\ TxAnomaly.price_diff c2_buy c2_sell = Raise ZeroDivisionError
  /\ TxAnomaly.wash_detect TxAnomaly.wash_medium [c2_buy; c2_sell] = Raise ZeroDivisionError
  /\ (forall st, Pool.volume_percentage 0 st = 0).
Proof.
  split; [vm_compute; reflexivity|]. split; [intros; reflexivity|].
  split; [vm_compute; reflexivity|]. split; [vm_compute; reflexivity|].
  intro st. reflexivity.
Qed.

(* ================================================================== *)
(** * Further properties of the code *)

(** ** Rounding *)

Lemma Qltb_false_le (x y : Q) : Qltb x y = false -> y <= x.
Proof.
  unfold Qltb. destruct (Qle_bool y x) eqn:E; simpl; [|discriminate].
  intros _. apply Qle_bool_iff. exact E.
Qed.

Lemma Qle_bool_false_lt (x y : Q) : Qle_bool x y = false -> y < x.
Proof.
  intro E. apply Qnot_le_lt. intro H. apply Qle_bool_iff in H. congruence.
Qed.

Ltac no_if t := lazymatch t with context[if _ then _ else _] => fail | _ => idtac end.

(** Case analysis on every float comparison of the goal, innermost first. *)
Ltac qcmp_cases :=
  repeat match goal with
  | |- context[Qltb ?a ?b] =>
      no_if a; no_if b;
      let E := fresh "E" in
      destruct (Qltb a b) eqn:E; [apply Qltb_spec in E | apply Qltb_false_le in E]
  | |- context[Qle_bool ?a ?b] =>
      no_if a; no_if b;
      let E := fresh "E" in
      destruct (Qle_bool a b) eqn:E; [apply Qle_bool_iff in E | apply Qle_bool_false_lt in E]
  end.

(** Replace the inverse of a literal by its value, so that [lra] sees a
    rational constant. *)
Ltac const_inv :=
  unfold Qdiv in *;
  repeat match goal with
  | |- context[Qinv ?c] => let v := eval vm_compute in (Qinv c) in change (Qinv c) with v
  end.

Lemma Qltb_comp (a a' b b' : Q) : a == a' -> b == b' -> Qltb a b = Qltb a' b'.
Proof.
  intros Ha Hb.
  destruct (Qltb a b) eqn:E1, (Qltb a' b') eqn:E2; try reflexivity;
    [apply Qltb_spec in E1; apply Qltb_false_le in E2
    |apply Qltb_false_le in E1; apply Qltb_spec in E2]; lra.
Qed.

Lemma round_half_even_comp (x y : Q) : x == y -> round_half_even x = round_half_even y.
Proof.
  intro H. unfold round_half_even. rewrite (Qfloor_comp x y H).
  assert (Hr : x - inject_Z (Qfloor y) == y - inject_Z (Qfloor y)) by (rewrite H; reflexivity).
  rewrite (Qltb_comp _ _ (1#2) (1#2) Hr (Qeq_refl _)).
  rewrite (Qltb_comp (1#2) (1#2) _ _ (Qeq_refl _) Hr).
  reflexivity.
Qed.

Lemma round_half_even_bounds (x : Q) :
  inject_Z (round_half_even x) - (1#2) <= x /\ x <= inject_Z (round_half_even x) + (1#2).
Proof.
  pose proof (Qfloor_le x) as H1. pose proof (Qlt_floor x) as H2.
  rewrite inject_Z_plus in H2. change (inject_Z 1) with 1 in H2. unfold round_half_even.
  destruct (Qltb (x - inject_Z (Qfloor x)) (1#2)) eqn:E1;
    [apply Qltb_spec in E1 | apply Qltb_false_le in E1].
  - lra.
  - destruct (Qltb (1#2) (x - inject_Z (Qfloor x))) eqn:E2;
      [apply Qltb_spec in E2 | apply Qltb_false_le in E2].
    + rewrite inject_Z_plus. change (inject_Z 1) with 1. lra.
    + destruct (Z.even (Qfloor x)); [|rewrite inject_Z_plus; change (inject_Z 1) with 1]; lra.
Qed.

Lemma round_half_even_mono (x y : Q) : x <= y -> (round_half_even x <= round_half_even y)%Z.
Proof.
  intro Hxy. destruct (Z_le_gt_dec (round_half_even x) (round_half_even y)) as [H|H]; [exact H|].
  exfalso.
  assert (Hz : (round_half_even y + 1 <= round_half_even x)%Z) by lia.
  rewrite Zle_Qle in Hz. rewrite inject_Z_plus in Hz. change (inject_Z 1) with 1 in Hz.
  destruct (round_half_even_bounds x) as [Hx _].
  destruct (round_half_even_bounds y) as [_ Hy].
  assert (Heq : x == y) by (apply Qle_antisym; lra).
  rewrite (round_half_even_comp x y Heq) in H. lia.
Qed.

Lemma round2_mono (x y : Q) : x <= y -> round2 x <= round2 y.
Proof.
  intro H. unfold round2.
  assert (Hr : (round_half_even (x * 100) <= round_half_even (y * 100))%Z)
    by (apply round_half_even_mono; lra).
  rewrite Zle_Qle in Hr. const_inv. lra.
Qed.

Lemma round2_error (x : Q) : Qabs (round2 x - x) <= 1#200.
Proof.
  unfold round2. destruct (round_half_even_bounds (x * 100)) as [H1 H2].
  apply Qabs_Qle_condition. const_inv. lra.
Qed.

Lemma round2_range (x : Q) : 0 <= x <= 100 -> 0 <= round2 x <= 100.
Proof.
  intros [H0 H1].
  assert (A : round2 0 == 0) by (vm_compute; reflexivity).
  assert (B : round2 100 == 100) by (vm_compute; reflexivity).
  pose proof (round2_mono 0 x H0). pose proof (round2_mono x 100 H1).
  split; lra.
Qed.

(** ** Risk modules *)

Lemma clamp100_range (x : Q) : 0 <= Risk.clamp100 x <= 100.
Proof. unfold Risk.clamp100, py_max, py_min. qcmp_cases; lra. Qed.

Lemma clamp100_mono (x y : Q) : x <= y -> Risk.clamp100 x <= Risk.clamp100 y.
Proof. intro H. unfold Risk.clamp100, py_max, py_min. qcmp_cases; lra. Qed.

Lemma int_of_bool_range (b : bool) : 0 <= Risk.int_of_bool b <= 1.
Proof. destruct b; simpl; lra. Qed.

Lemma label_known (s : Q) : 0 <= s <= 100 ->
  Risk.label s = "Low Risk" \/ Risk.label s = "Medium Risk" \/ Risk.label s = "High Risk".
Proof.
  intros [H0 H1].
  destruct (Qlt_le_dec 23 s) as [A|A]; [destruct (Qlt_le_dec 50 s) as [B|B]|].
  - right; right. apply label_high. lra.
  - right; left. apply label_medium. lra.
  - left. apply label_low. lra.
Qed.

(** Every clamped sub-score becomes an atom in [0, 100]. *)
Ltac clamp_atoms :=
  repeat match goal with
  | |- context[Risk.clamp100 ?t] =>
      let c := fresh "c" in
      pose proof (clamp100_range t); set (c := Risk.clamp100 t) in *; clearbody c
  end.

Lemma module_score_range (m : Risk.RiskModule) : 0 <= Risk.score m <= 100.
Proof.
  destruct m as [ip ac uc|ul locked creator|top|tax p b t|vol ath atl rank|h d mx tc];
    simpl; apply round2_range.
  - destruct ip, ac, uc; simpl; const_inv; lra.
  - clamp_atoms. destruct ul; const_inv; lra.
  - apply clamp100_range.
  - clamp_atoms. destruct p, b, t; const_inv; lra.
  - clamp_atoms. const_inv. lra.
  - destruct h, d, mx, tc; simpl; const_inv; lra.
Qed.

Lemma qsum_range {A} (f : A -> Q) (a b : Q) (l : list A) :
  (forall x, In x l -> a <= f x <= b) ->
  a * nat_q (List.length l) <= qsum f l <= b * nat_q (List.length l).
Proof.
  unfold nat_q. induction l as [|x l IH]; intro H.
  - change (qsum f []) with 0. change (inject_Z (Z.of_nat (List.length []))) with 0.
    rewrite !Qmult_0_r. lra.
  - change (List.length (x :: l)) with (S (List.length l)).
    rewrite Nat2Z.inj_succ, <- Z.add_1_r, inject_Z_plus. change (inject_Z 1) with 1.
    change (qsum f (x :: l)) with (f x + qsum f l).
    setoid_replace (a * (inject_Z (Z.of_nat (List.length l)) + 1))
      with (a * inject_Z (Z.of_nat (List.length l)) + a) by ring.
    setoid_replace (b * (inject_Z (Z.of_nat (List.length l)) + 1))
      with (b * inject_Z (Z.of_nat (List.length l)) + b) by ring.
    destruct (H x (or_introl eq_refl)). destruct IH as [I1 I2]; [intros y Hy; apply H; right; exact Hy|].
    lra.
Qed.

Lemma nat_q_pos (n : nat) : (0 < n)%nat -> 0 < nat_q n.
Proof.
  intro H. unfold nat_q. change 0 with (inject_Z 0). rewrite <- Zlt_Qlt. lia.
Qed.

Lemma overall_score_range (ms : Risk.modules) : 0 <= Risk.overall_score ms <= 100.
Proof.
  unfold Risk.overall_score.
  destruct (map (fun nm => Risk.score (snd nm)) ms) as [|s ss] eqn:E; [lra|].
  rewrite <- E. apply round2_range.
  assert (Hn : 0 < inject_Z (Z.of_nat (List.length (map (fun nm => Risk.score (snd nm)) ms)))).
  { rewrite E. apply nat_q_pos. simpl. lia. }
  destruct (qsum_range id 0 100 (map (fun nm => Risk.score (snd nm)) ms)) as [L U].
  { intros x Hx. apply in_map_iff in Hx. destruct Hx as [nm [<- _]]. apply module_score_range. }
  unfold nat_q in L, U. split.
  - apply Qle_shift_div_l; [exact Hn|]. lra.
  - apply Qle_shift_div_r; [exact Hn|]. lra.
Qed.

(** X1: every risk module scores within [0, 100], so its own label is
    always one of the three known levels, never "Unknown". *)
Theorem risk_module_score_bounded (m : Risk.RiskModule) :
  0 <= Risk.score m <= 100 /\
  (Risk.label (Risk.score m) = "Low Risk" \/ Risk.label (Risk.score m) = "Medium Risk"
   \/ Risk.label (Risk.score m) = "High Risk").
Proof.
  pose proof (module_score_range m) as H. split; [exact H|]. apply label_known. exact H.
Qed.

(** X2: for any module dictionary (the empty one included) the overall
    risk of [RiskEngine.overall_risk] is a score in [0, 100] with one of
    the three known labels. *)
Theorem overall_risk_in_range (ms : Risk.modules) :
  0 <= fst (Risk.overall_risk ms) <= 100 /\
  (snd (Risk.overall_risk ms) = "Low Risk" \/ snd (Risk.overall_risk ms) = "Medium Risk"
   \/ snd (Risk.overall_risk ms) = "High Risk").
Proof.
  unfold Risk.overall_risk. simpl. pose proof (overall_score_range ms) as H.
  split; [exact H|]. apply label_known. exact H.
Qed.

(** X3: for a non-empty module dictionary the overall score differs from
    the exact mean of the module scores by at most 0.005 (half a unit of
    the second decimal). *)
Theorem overall_score_near_mean (ms : Risk.modules) :
  ms <> [] ->
  Qabs (Risk.overall_score ms - qsum id (module_scores ms) / nat_q (List.length ms)) <= 1#200.
Proof.
  intro Hne. unfold Risk.overall_score, module_scores, nat_q.
  destruct ms as [|m ms']; [congruence|]. cbn [map].
  rewrite <- (length_map (fun nm => Risk.score (snd nm)) (m :: ms')).
  apply round2_error.
Qed.

(** X4: raising a risk flag never lowers a module's score: the governance
    flags, unlocked liquidity, pausable transfers and blacklisting, and
    the four fraud indicators; marking a token trusted never raises its
    token-security score. *)
Theorem module_scores_monotone_in_flags :
  (forall ip ac uc ip' ac' uc',
     implb ip ip' = true -> implb ac ac' = true -> implb uc uc' = true ->
     Risk.score (Risk.GovernanceRisk ip ac uc) <= Risk.score (Risk.GovernanceRisk ip' ac' uc')) /\
  (forall ul ul' locked creator,
     implb ul ul' = true ->
     Risk.score (Risk.LiquidityRisk ul locked creator) <= Risk.score (Risk.LiquidityRisk ul' locked creator)) /\
  (forall tax p b t p' b' t',
     implb p p' = true -> implb b b' = true -> implb t' t = true ->
     Risk.score (Risk.TokenSecurityRisk tax p b t) <= Risk.score (Risk.TokenSecurityRisk tax p' b' t')) /\
  (forall h d m t h' d' m' t',
     implb h h' = true -> implb d d' = true -> implb m m' = true -> implb t t' = true ->
     Risk.score (Risk.FraudRisk h d m t) <= Risk.score (Risk.FraudRisk h' d' m' t')).
Proof.
  split; [|split; [|split]].
  - intros ip ac uc ip' ac' uc' H1 H2 H3. simpl. apply round2_mono.
    destruct ip, ac, uc, ip', ac', uc'; try discriminate; simpl; const_inv; lra.
  - intros ul ul' locked creator H. simpl. apply round2_mono. clamp_atoms.
    destruct ul, ul'; try discriminate; const_inv; lra.
  - intros tax p b t p' b' t' H1 H2 H3. simpl. apply round2_mono. clamp_atoms.
    destruct p, b, t, p', b', t'; try discriminate; const_inv; lra.
  - intros h d m t h' d' m' t' H1 H2 H3 H4. simpl. apply round2_mono.
    destruct h, d, m, t, h', d', m', t'; try discriminate; simpl; const_inv; lra.
Qed.

(** X5: the numeric inputs push the scores the same way: less locked
    liquidity or a larger creator share, a larger top-10 holding, a
    larger buy tax, larger absolute price movements and a worse (larger)
    market-cap rank never lower the score.  A rank of 0 is replaced by
    1000, so the rank comparison assumes a non-zero original rank. *)
Theorem module_scores_monotone_in_amounts :
  (forall ul locked locked' creator creator',
     locked' <= locked -> creator <= creator' ->
     Risk.score (Risk.LiquidityRisk ul locked creator) <= Risk.score (Risk.LiquidityRisk ul locked' creator')) /\
  (forall top top', top <= top' -> Risk.score (Risk.HolderRisk top) <= Risk.score (Risk.HolderRisk top')) /\
  (forall tax tax' p b t, tax <= tax' ->
     Risk.score (Risk.TokenSecurityRisk tax p b t) <= Risk.score (Risk.TokenSecurityRisk tax' p b t)) /\
  (forall vol ath atl rank vol' ath' atl' rank',
     Qabs vol <= Qabs vol' -> Qabs ath <= Qabs ath' -> Qabs atl <= Qabs atl' ->
     rank <> 0%Z -> (rank <= rank')%Z ->
     Risk.score (Risk.MarketRisk vol ath atl rank) <= Risk.score (Risk.MarketRisk vol' ath' atl' rank')).
Proof.
  split; [|split; [|split]].
  - intros ul locked locked' creator creator' H1 H2. simpl. apply round2_mono.
    pose proof (clamp100_mono (100 - locked) (100 - locked') ltac:(lra)).
    pose proof (clamp100_mono creator creator' H2).
    clamp_atoms. destruct ul; const_inv; lra.
  - intros top top' H. simpl. apply round2_mono. apply clamp100_mono. exact H.
  - intros tax tax' p b t H. simpl. apply round2_mono.
    pose proof (clamp100_mono tax tax' H). clamp_atoms. destruct p, b, t; const_inv; lra.
  - intros vol ath atl rank vol' ath' atl' rank' H1 H2 H3 H4 H5. simpl. apply round2_mono.
    pose proof (clamp100_mono _ _ H1). pose proof (clamp100_mono _ _ H2).
    pose proof (clamp100_mono _ _ H3).
    assert (Hr : (rank <= (if (rank' =? 0)%Z then 1000%Z else rank'))%Z).
    { destruct (Z.eqb_spec rank' 0); lia. }
    replace (if (rank =? 0)%Z then 1000%Z else rank) with rank
      by (destruct (Z.eqb_spec rank 0); congruence).
    assert (Hq : inject_Z (rank - 1) <= inject_Z ((if (rank' =? 0)%Z then 1000%Z else rank') - 1))
      by (rewrite <- Zle_Qle; lia).
    pose proof (clamp100_mono (inject_Z (rank - 1) / 999 * 100)
                  (inject_Z ((if (rank' =? 0)%Z then 1000%Z else rank') - 1) / 999 * 100)
                  ltac:(const_inv; lra)).
    clamp_atoms. const_inv. lra.
Qed.

(** X6: the fraud score is 25 points per raised indicator. *)
Theorem fraud_score_per_indicator (h d m t : bool) :
  Risk.score (Risk.FraudRisk h d m t) == 25 * nat_q (List.length (filter id [h; d; m; t])).
Proof. destruct h, d, m, t; vm_compute; reflexivity. Qed.

(** ** Wash-trading report and the overall risk score *)

Lemma nat_q_le (a b : nat) : (a <= b)%nat -> nat_q a <= nat_q b.
Proof. intro H. unfold nat_q. rewrite <- Zle_Qle. lia. Qed.

Lemma nat_q_nonneg (a : nat) : 0 <= nat_q a.
Proof. change 0 with (nat_q 0). apply nat_q_le. lia. Qed.

Lemma py_min_le_l (x c : Q) : py_min x c <= x.
Proof. unfold py_min. qcmp_cases; lra. Qed.

(** [min(count * k, cap)] for a positive count: at least [k], at most [cap]. *)
Lemma count_bonus_range (a k : nat) (c : Q) :
  (0 < a)%nat -> nat_q k <= c -> nat_q k <= py_min (nat_q (a * k)) c <= c.
Proof.
  intros Ha Hk. pose proof (nat_q_le k (a * k) ltac:(nia)).
  split; [apply py_min_ge; lra | apply py_min_le_r].
Qed.

Lemma in_wash_suspicious cfg txs res kv :
  TxAnomaly.wash_detect cfg txs = Ok res ->
  In kv (TxAnomaly.wash_suspicious_wallets res) ->
  exists g, TxAnomaly._analyze_wallet_pattern cfg g = Ok (snd kv)
            /\ TxAnomaly.is_suspicious (snd kv) = true
            /\ TxAnomaly.is_likely_mev (snd kv) = false.
Proof.
  intro H. destruct txs as [|t ts]; [injection H as <-; intros []|].
  unfold TxAnomaly.wash_detect in H.
  destruct (mapM _ _) as [analysed|e] eqn:Ea; cbn [bind] in H; [|discriminate].
  injection H as <-. cbn [TxAnomaly.wash_suspicious_wallets]. intro H.
  apply filter_In in H. destruct H as [H Hmev]. apply filter_In in H. destruct H as [H Hs].
  destruct kv as [w p]. apply (wash_analysed_in _ _ _ w p Ea) in H. destruct H as [g [_ Hp]].
  exists g. split; [exact Hp|]. split; [exact Hs|].
  apply negb_true_iff in Hmev. exact Hmev.
Qed.

Lemma qsum_lower {A} (f : A -> Q) (a : Q) (l : list A) :
  (forall x, In x l -> a <= f x) -> a * nat_q (List.length l) <= qsum f l.
Proof.
  unfold nat_q. induction l as [|x l IH]; intro H.
  - change (qsum f []) with 0. change (inject_Z (Z.of_nat (List.length []))) with 0.
    rewrite Qmult_0_r. lra.
  - change (List.length (x :: l)) with (S (List.length l)).
    rewrite Nat2Z.inj_succ, <- Z.add_1_r, inject_Z_plus. change (inject_Z 1) with 1.
    change (qsum f (x :: l)) with (f x + qsum f l).
    setoid_replace (a * (inject_Z (Z.of_nat (List.length l)) + 1))
      with (a * inject_Z (Z.of_nat (List.length l)) + a) by ring.
    pose proof (H x (or_introl eq_refl)).
    assert (I : a * inject_Z (Z.of_nat (List.length l)) <= qsum f l)
      by (apply IH; intros y Hy; apply H; right; exact Hy).
    lra.
Qed.

Lemma wash_volume_lower cfg txs res :
  TxAnomaly.wash_detect cfg txs = Ok res ->
  nat_q (TxAnomaly.wash_detected_count res) * TxAnomaly.min_volume cfg
  <= AnomalySystem.wash_total_suspicious_volume res.
Proof.
  intro H. pose proof (in_wash_suspicious cfg txs res) as Hin.
  destruct txs as [|t ts].
  { injection H as <-.
    cbn [TxAnomaly.wash_detected_count AnomalySystem.wash_total_suspicious_volume].
    change (nat_q 0) with 0. lra. }
  assert (Hr : exists n ws v mev, res = TxAnomaly.WashReport n ws v mev
                 /\ n = List.length ws /\ v = qsum (fun kv => TxAnomaly.total_volume (snd kv)) ws).
  { unfold TxAnomaly.wash_detect in H.
    destruct (mapM _ _) as [analysed|e]; cbn [bind] in H; [|discriminate].
    injection H as <-. do 4 eexists. split; [reflexivity|]. split; reflexivity. }
  destruct Hr as [n [ws [v [mev [Hres [-> ->]]]]]]. subst res.
  cbn [TxAnomaly.wash_detected_count TxAnomaly.wash_suspicious_wallets
       AnomalySystem.wash_total_suspicious_volume] in *.
  rewrite Qmult_comm. apply qsum_lower.
  intros kv Hkv. destruct (Hin kv H Hkv) as [g [Hg [Hs _]]].
  apply (wash_suspicious_iff _ _ _ Hg) in Hs. tauto.
Qed.

Lemma volume_factor_range (v : Q) :
  py_min (v / 100000) 1 <= 1 /\ (0 <= v -> 0 <= py_min (v / 100000) 1).
Proof.
  split; [apply py_min_le_r|]. intro H. apply py_min_ge; [const_inv; lra | lra].
Qed.

(** Every capped count bonus [min(count * k, cap)] becomes an atom, with
    its bounds. *)
Ltac bonus_atoms :=
  repeat match goal with
  | H : (0 < ?a)%nat |- context[py_min (nat_q (?a * ?k)) ?c] =>
      let b := fresh "b" in
      pose proof (count_bonus_range a k c H ltac:(apply Qle_bool_iff; reflexivity));
      let v := eval vm_compute in (nat_q k) in change (nat_q k) with v in *;
      set (b := py_min (nat_q (a * k)) c) in *; clearbody b
  | |- context[py_min (nat_q ?x) ?c] =>
      let b := fresh "b" in
      pose proof (py_min_le_r (nat_q x) c);
      set (b := py_min (nat_q x) c) in *; clearbody b
  end.

Lemma risk_score_upper w p pu :
  AnomalySystem._calculate_risk_score w p pu <=
    (if (0 <? TxAnomaly.wash_detected_count w)%nat then 35 else 0)
  + (if (0 <? List.length (AnomalySystem.price_manipulation_events p))%nat then 25 else 0)
  + (if (0 <? List.length (AnomalySystem.price_coordinated_trading p))%nat then 10 else 0)
  + (if (0 <? List.length (TxAnomaly.high_confidence pu))%nat || (0 <? TxAnomaly.num_schemes pu)%nat
     then 25 else 0).
Proof.
  unfold AnomalySystem._calculate_risk_score. cbv zeta.
  destruct (volume_factor_range (AnomalySystem.wash_total_suspicious_volume w)) as [V _].
  set (vf := py_min _ 1) in *. clearbody vf.
  eapply Qle_trans; [apply py_min_le_l|].
  destruct (0 <? TxAnomaly.wash_detected_count w)%nat,
           (0 <? List.length (AnomalySystem.price_manipulation_events p))%nat,
           (0 <? List.length (AnomalySystem.price_coordinated_trading p))%nat,
           (0 <? List.length (TxAnomaly.high_confidence pu))%nat,
           (0 <? TxAnomaly.num_schemes pu)%nat;
    cbn [orb]; bonus_atoms; lra.
Qed.

Lemma risk_score_lower w p pu :
  0 <= AnomalySystem.wash_total_suspicious_volume w ->
    (if (0 <? TxAnomaly.wash_detected_count w)%nat then 3 else 0)
  + (if (0 <? List.length (AnomalySystem.price_manipulation_events p))%nat then 10 else 0)
  + (if (0 <? List.length (AnomalySystem.price_coordinated_trading p))%nat then 2 else 0)
  + (if (0 <? List.length (TxAnomaly.high_confidence pu))%nat then 15
     else if (0 <? TxAnomaly.num_schemes pu)%nat then 5 else 0)
  <= AnomalySystem._calculate_risk_score w p pu.
Proof.
  intro Hv. unfold AnomalySystem._calculate_risk_score. cbv zeta.
  destruct (volume_factor_range (AnomalySystem.wash_total_suspicious_volume w)) as [_ V].
  specialize (V Hv). set (vf := py_min _ 1) in *. clearbody vf.
  destruct (Nat.ltb_spec 0 (TxAnomaly.wash_detected_count w)),
           (Nat.ltb_spec 0 (List.length (AnomalySystem.price_manipulation_events p))),
           (Nat.ltb_spec 0 (List.length (AnomalySystem.price_coordinated_trading p))),
           (Nat.ltb_spec 0 (List.length (TxAnomaly.high_confidence pu))),
           (Nat.ltb_spec 0 (TxAnomaly.num_schemes pu));
    bonus_atoms; apply py_min_ge; lra.
Qed.

Lemma risk_level_minimal_iff w p pu :
  AnomalySystem._get_risk_level w p pu = "MINIMAL" <-> AnomalySystem._calculate_risk_score w p pu <= 0.
Proof.
  unfold AnomalySystem._get_risk_level. cbv zeta.
  generalize (AnomalySystem._calculate_risk_score w p pu). intro s.
  qcmp_cases; split; intro H; try discriminate; try reflexivity; lra.
Qed.

Lemma detectors_min_volume_nonneg sensitivity :
  0 <= TxAnomaly.min_volume (AnomalySystem.wash_detector (AnomalySystem.detectors_of sensitivity)).
Proof.
  unfold AnomalySystem.detectors_of.
  destruct (String.eqb sensitivity "low"); [|destruct (String.eqb sensitivity "high")];
    simpl; lra.
Qed.

Lemma analyze_token_volume_nonneg sensitivity txs res :
  TxAnomaly.wash_detect (AnomalySystem.wash_detector (AnomalySystem.detectors_of sensitivity)) txs
    = Ok res ->
  0 <= AnomalySystem.wash_total_suspicious_volume res.
Proof.
  intro H. eapply Qle_trans; [|apply (wash_volume_lower _ _ _ H)].
  apply Qmult_le_0_compat; [apply nat_q_nonneg | apply detectors_min_volume_nonneg].
Qed.

Lemma pump_detect_shape cfg txs res :
  TxAnomaly.pump_detect cfg txs = Ok res ->
  TxAnomaly.num_schemes res = List.length (TxAnomaly.detected_schemes res)
  /\ TxAnomaly.high_confidence res
    = filter (fun s => Qltb (3#4) (TxAnomaly.confidence s)) (TxAnomaly.detected_schemes res).
Proof.
  unfold TxAnomaly.pump_detect. destruct (_ <? 50)%nat.
  - intro H. injection H as <-. split; reflexivity.
  - destruct (flat_mapM _ _); cbn [bind]; [|discriminate].
    intro H. injection H as <-. split; reflexivity.
Qed.

(** The exceptions [wash_detect] can raise. *)
Lemma wash_detect_raise cfg txs e :
  TxAnomaly.wash_detect cfg txs = Raise e -> e = ZeroDivisionError.
Proof.
  destruct txs as [|t ts]; [discriminate|]. unfold TxAnomaly.wash_detect.
  destruct (mapM _ _) as [analysed|e1] eqn:Ea; cbn [bind]; [discriminate|].
  intro H. injection H as ->. apply mapM_raise_in in Ea. destruct Ea as [[k g] [_ Hf]].
  cbn [fst snd] in Hf. unfold TxAnomaly._analyze_wallet_pattern in Hf.
  destruct (TxAnomaly.round_trips_of cfg g) as [trips|e2] eqn:Er; cbn [bind] in Hf; [discriminate|].
  injection Hf as ->. unfold TxAnomaly.round_trips_of in Er.
  destruct (mapM _ _) as [per|e3] eqn:Em; cbn [bind] in Er; [discriminate|].
  injection Er as ->. apply mapM_raise_in in Em. destruct Em as [b [_ Hb]].
  destruct (filterM _ _) as [ms|e4] eqn:Ef; cbn [bind] in Hb; [discriminate|].
  injection Hb as ->. apply filterM_raise_in in Ef. destruct Ef as [s [_ Hs]].
  unfold TxAnomaly.is_round_trip in Hs. destruct (_ && _); [|discriminate].
  unfold TxAnomaly.price_diff, TxAnomaly.py_float_div in Hs.
  destruct (TxAnomaly.baseQuotePrice b); [destruct (Qeq_bool q 0)|..]; cbn [bind] in Hs;
    first [discriminate | injection Hs as ->; reflexivity].
Qed.

(** The exceptions [pump_detect] can raise: only the missing column. *)
Lemma pump_detect_raise cfg txs e :
  TxAnomaly.pump_detect cfg txs = Raise e ->
  e = KeyError "subCategory" /\ (50 <= List.length txs)%nat
  /\ Forall (fun r => TxAnomaly.subCategory r = None) txs.
Proof.
  unfold TxAnomaly.pump_detect. destruct (Nat.ltb_spec (List.length txs) 50); [discriminate|].
  destruct (flat_mapM _ _) as [sch|e'] eqn:Ef; cbn [bind]; [discriminate|].
  intro H'. injection H' as ->. apply flat_mapM_raise_in in Ef. destruct Ef as [[i r] [_ Hr]].
  destruct (np_gt _ _); [|discriminate].
  unfold TxAnomaly.scheme_at in Hr. cbv zeta in Hr.
  destruct (TxAnomaly.has_subCategory _) eqn:Hc; cbn [negb] in Hr.
  - repeat match type of Hr with
           | context [if ?b then _ else _] => destruct b
           | context [match ?l with [] => _ | _ :: _ => _ end] => destruct l
           end; discriminate.
  - injection Hr as <-. split; [reflexivity|]. split; [exact H|].
    apply Forall_forall. intros x Hx. unfold TxAnomaly.has_subCategory in Hc.
    destruct (TxAnomaly.subCategory x) eqn:Ex; [|reflexivity]. exfalso.
    assert (Hin : In x (TxAnomaly.sort_rows TxAnomaly.blockTimestamp txs))
      by (apply in_sort_asc; exact Hx).
    apply not_true_iff_false in Hc. apply Hc. apply existsb_exists.
    exists x. rewrite Ex. split; [exact Hin|reflexivity].
Qed.

(** X7: [analyze_token] returns nothing exactly for an empty batch; when
    it returns a report, at every sensitivity, the report counts all
    transactions and has a risk score in [0, 95]: the components are
    capped at 35 (wash trading), 35 (price manipulation) and 25 (pump and
    dump), so the final [min(score, 100)] never binds; and the only
    exceptions it can raise are ZeroDivisionError (wash trading) and
    KeyError 'subCategory' (pump and dump). *)
Theorem analyze_token_risk_score_range (sensitivity : string) (transactions : list TxAnomaly.Row) :
  (AnomalySystem.analyze_token sensitivity transactions = Ok None <-> transactions = [])
  /\ (forall r, AnomalySystem.analyze_token sensitivity transactions = Ok (Some r) ->
        AnomalySystem.total_transactions r = List.length transactions
        /\ 0 <= AnomalySystem.risk_score r <= 95)
  /\ (forall e, AnomalySystem.analyze_token sensitivity transactions = Raise e ->
        e = ZeroDivisionError \/ e = KeyError "subCategory").
Proof.
  destruct transactions as [|t ts].
  { split; [split; reflexivity|]. split; intros ? H; discriminate H. }
  unfold AnomalySystem.analyze_token. cbv zeta.
  set (d := AnomalySystem.detectors_of sensitivity).
  set (p := TxAnomaly.price_detect (AnomalySystem.price_detector d) (t :: ts)). clearbody p.
  destruct (TxAnomaly.wash_detect (AnomalySystem.wash_detector d) (t :: ts)) as [w|e] eqn:Hw;
    cbn [bind].
  2: { split; [split; intro H; discriminate H|]. split; [intros ? H; discriminate H|].
       intros e' H. injection H as <-. left. exact (wash_detect_raise _ _ _ Hw). }
  destruct (TxAnomaly.pump_detect (AnomalySystem.pump_detector d) (t :: ts)) as [pu|e] eqn:Hpu;
    cbn [bind].
  2: { split; [split; intro H; discriminate H|]. split; [intros ? H; discriminate H|].
       intros e' H. injection H as <-. right. exact (proj1 (pump_detect_raise _ _ _ Hpu)). }
  split; [split; intro H; discriminate H|]. split; [|intros ? H; discriminate H].
  intros r H. injection H as <-.
  cbn [AnomalySystem.risk_score AnomalySystem.total_transactions].
  split; [reflexivity|].
  pose proof (analyze_token_volume_nonneg sensitivity (t :: ts) w Hw) as Hv.
  pose proof (risk_score_upper w p pu) as U. pose proof (risk_score_lower w p pu Hv) as L.
  destruct (0 <? TxAnomaly.wash_detected_count w)%nat,
           (0 <? List.length (AnomalySystem.price_manipulation_events p))%nat,
           (0 <? List.length (AnomalySystem.price_coordinated_trading p))%nat,
           (0 <? List.length (TxAnomaly.high_confidence pu))%nat,
           (0 <? TxAnomaly.num_schemes pu)%nat; cbn [orb] in U; lra.
Qed.

(** X8: the level "CRITICAL" (a risk score of at least 75) is only
    reached when all three detectors found something: suspicious wash
    trading wallets, price-manipulation or coordinated-trading events,
    and pump-and-dump schemes.  No two detectors alone can reach it. *)
Theorem risk_level_critical_needs_all_detectors w p pu :
  AnomalySystem._get_risk_level w p pu = "CRITICAL" ->
  (0 < TxAnomaly.wash_detected_count w)%nat
  /\ (0 < List.length (AnomalySystem.price_manipulation_events p)
          + List.length (AnomalySystem.price_coordinated_trading p))%nat
  /\ (0 < List.length (TxAnomaly.high_confidence pu) + TxAnomaly.num_schemes pu)%nat.
Proof.
  intro H.
  assert (Hs : 75 <= AnomalySystem._calculate_risk_score w p pu).
  { unfold AnomalySystem._get_risk_level in H. cbv zeta in H.
    destruct (Qle_bool 75 _) eqn:E; [apply Qle_bool_iff in E; exact E|].
    exfalso. revert H. qcmp_cases; discriminate. }
  pose proof (risk_score_upper w p pu) as U.
  destruct (Nat.ltb_spec 0 (TxAnomaly.wash_detected_count w)),
           (Nat.ltb_spec 0 (List.length (AnomalySystem.price_manipulation_events p))),
           (Nat.ltb_spec 0 (List.length (AnomalySystem.price_coordinated_trading p))),
           (Nat.ltb_spec 0 (List.length (TxAnomaly.high_confidence pu))),
           (Nat.ltb_spec 0 (TxAnomaly.num_schemes pu)); cbn [orb] in U;
    first [lra | lia].
Qed.

(** X9: an analysed batch gets the level "MINIMAL" exactly when none of
    the three detectors found anything: no suspicious wash-trading
    wallet, no price-manipulation event, no coordinated-trading block and
    no pump-and-dump scheme. *)
Theorem analyze_token_minimal_iff_nothing_found sensitivity transactions r :
  AnomalySystem.analyze_token sensitivity transactions = Ok (Some r) ->
  (AnomalySystem.risk_level r = "MINIMAL"
   <-> TxAnomaly.wash_detected_count (AnomalySystem.wash_trading r) = 0%nat
       /\ AnomalySystem.price_manipulation_events (AnomalySystem.price_manipulation r) = []
       /\ AnomalySystem.price_coordinated_trading (AnomalySystem.price_manipulation r) = []
       /\ TxAnomaly.num_schemes (AnomalySystem.pump_and_dump r) = 0%nat).
Proof.
  intro H. destruct transactions as [|t ts]; [discriminate|].
  unfold AnomalySystem.analyze_token in H. cbv zeta in H.
  destruct (TxAnomaly.wash_detect _ (t :: ts)) as [w|e] eqn:Hw; cbn [bind] in H; [|discriminate].
  destruct (TxAnomaly.pump_detect _ (t :: ts)) as [pu|e] eqn:Hpu; cbn [bind] in H; [|discriminate].
  pose proof (analyze_token_volume_nonneg sensitivity (t :: ts) w Hw) as Hv.
  destruct (pump_detect_shape _ _ _ Hpu) as [P1 P2].
  set (p := TxAnomaly.price_detect _ (t :: ts)) in *. clearbody p.
  injection H as <-.
  cbn [AnomalySystem.risk_level AnomalySystem.wash_trading AnomalySystem.price_manipulation
       AnomalySystem.pump_and_dump].
  rewrite risk_level_minimal_iff.
  pose proof (risk_score_lower w p pu Hv) as L. pose proof (risk_score_upper w p pu) as U.
  assert (Hh : TxAnomaly.num_schemes pu = 0%nat -> TxAnomaly.high_confidence pu = []).
  { intro Hn. rewrite P2. rewrite P1 in Hn. destruct (TxAnomaly.detected_schemes pu); [reflexivity|discriminate]. }
  rewrite <- !length_zero_iff_nil.
  destruct (Nat.ltb_spec 0 (TxAnomaly.wash_detected_count w)),
           (Nat.ltb_spec 0 (List.length (AnomalySystem.price_manipulation_events p))),
           (Nat.ltb_spec 0 (List.length (AnomalySystem.price_coordinated_trading p))),
           (Nat.ltb_spec 0 (List.length (TxAnomaly.high_confidence pu))),
           (Nat.ltb_spec 0 (TxAnomaly.num_schemes pu)); cbn [orb] in U;
    split; intro G; try (exfalso; lra); try (split; [lia|split; [lia|split; lia]]);
    try lra; exfalso; try lia.
  all: destruct G as [G1 [G2 [G3 G4]]]; rewrite Hh in *; simpl in *; lia.
Qed.

(** ** Sorted results *)

Lemma hdrel_insert_desc {A} (key : A -> Q) y x l :
  HdRel (fun a b => key b <= key a) y l -> key x <= key y ->
  HdRel (fun a b => key b <= key a) y (insert_desc key x l).
Proof.
  destruct l as [|z l]; simpl; intros H Hx.
  - constructor. exact Hx.
  - destruct (Qltb (key z) (key x)); constructor; [exact Hx|]. inversion H. assumption.
Qed.

Lemma insert_desc_sorted {A} (key : A -> Q) x l :
  Sorted (fun a b => key b <= key a) l -> Sorted (fun a b => key b <= key a) (insert_desc key x l).
Proof.
  induction l as [|y l IH]; intro H; simpl.
  - repeat constructor.
  - destruct (Qltb (key y) (key x)) eqn:E.
    + apply Qltb_spec in E. constructor; [exact H|]. constructor. lra.
    + apply Qltb_false_le in E. inversion H as [|? ? Hl Hhd]; subst.
      constructor; [apply IH; exact Hl|]. apply hdrel_insert_desc; assumption.
Qed.

Lemma sort_desc_sorted {A} (key : A -> Q) l : Sorted (fun a b => key b <= key a) (sort_desc key l).
Proof.
  unfold sort_desc.
  assert (G : forall acc, Sorted (fun a b => key b <= key a) acc ->
              Sorted (fun a b => key b <= key a) (fold_left (fun acc x => insert_desc key x acc) l acc)).
  { induction l as [|x l IH]; intros acc H; simpl; [exact H|].
    apply IH. apply insert_desc_sorted. exact H. }
  apply G. constructor.
Qed.

Lemma concat_steps_in {A B} (f : A -> Result (list B)) l ys y :
  Pool.concat_steps f l = Ok ys -> In y ys -> exists x zs, In x l /\ f x = Ok zs /\ In y zs.
Proof.
  revert ys. induction l as [|x l IH]; intros ys H Hy; simpl in H.
  - injection H as <-. destruct Hy.
  - destruct (f x) as [a|e] eqn:Ef; simpl in H; [|discriminate].
    destruct (Pool.concat_steps f l) as [b|e] eqn:Er; simpl in H; [|discriminate].
    injection H as <-. apply in_app_or in Hy. destruct Hy as [Hy|Hy].
    + exists x, a. split; [left; reflexivity|]. split; [exact Ef | exact Hy].
    + destruct (IH b eq_refl Hy) as [x' [zs [Hx' [Hf Hz]]]].
      exists x', zs. split; [right; exact Hx'|]. split; [exact Hf | exact Hz].
Qed.

Lemma min_by_in {A} (key : A -> Z) x xs : In (min_by key x xs) (x :: xs).
Proof.
  unfold min_by.
  assert (G : forall c, In (fold_left (fun cur y => if (key y <? key cur)%Z then y else cur) xs c) (c :: xs)).
  { induction xs as [|y ys IH]; intro c; simpl; [left; reflexivity|].
    destruct (key y <? key c)%Z.
    - destruct (IH y) as [H|H]; [right; left; exact H | right; right; exact H].
    - destruct (IH c) as [H|H]; [left; exact H | right; right; exact H]. }
  apply G.
Qed.

(** ** Insider trades and sniping bots *)

Ltac nat_cmp_cases :=
  repeat match goal with
  | |- context[(?a <? ?b)%nat] => destruct (a <? b)%nat
  | |- context[(?a <=? ?b)%nat] => destruct (a <=? b)%nat
  end.

Lemma suspicion_score_range (t : WalletBehavior.InsiderTrade) :
  0 <= WalletBehavior._calculate_suspicion_score t <= 80.
Proof.
  unfold WalletBehavior._calculate_suspicion_score.
  destruct (String.eqb _ "newPosition"), (WalletBehavior.is_quick _); unfold py_min; qcmp_cases; lra.
Qed.

Lemma bot_confidence_range (m : WalletBehavior.SnipeMetrics) :
  0 <= WalletBehavior._calculate_bot_confidence m <= 100.
Proof.
  unfold WalletBehavior._calculate_bot_confidence. nat_cmp_cases; unfold py_min; qcmp_cases; lra.
Qed.

Lemma token_key_eqb_spec (a b : string * string) : WalletBehavior.token_key_eqb a b = true <-> a = b.
Proof.
  destruct a as [a1 a2], b as [b1 b2]. unfold WalletBehavior.token_key_eqb. simpl.
  rewrite andb_true_iff, !String.eqb_eq. split.
  - intros [-> ->]. reflexivity.
  - intro H. injection H as -> ->. split; reflexivity.
Qed.

Lemma analyze_position_ok fromisoformat now wallet kv t :
  WalletBehavior.analyze_position fromisoformat now wallet kv = Ok t ->
  (exists trade, WalletBehavior.suspicion_score t = WalletBehavior._calculate_suspicion_score trade)
  /\ In (WalletBehavior.entry_transaction t) (snd kv).
Proof.
  destruct kv as [[ta sym] [|b bs]]; unfold WalletBehavior.analyze_position; [discriminate|].
  intro H.
  match type of H with context[bind (py_div ?x ?y) _] => destruct (py_div x y) as [r|e] end;
    [|discriminate]. cbn [bind] in H.
  match type of H with context[bind (fromisoformat ?s) _] => destruct (fromisoformat s) as [et|e] end;
    [|discriminate]. cbn [bind] in H.
  injection H as <-. cbn [WalletBehavior.suspicion_score WalletBehavior.entry_transaction snd].
  split; [eexists; reflexivity | apply min_by_in].
Qed.

(** X10: the trades [InsiderTradingDetector.analyze_wallet] returns are
    ordered by suspicion score, highest first; each has a score between
    the requested minimum and 80 (the four criteria add up to at most 80,
    so the cap at 100 never applies), and its entry transaction is one of
    the wallet's own buys. *)
Theorem insider_trades_sorted_and_bounded fromisoformat now wallet swaps min_score ts :
  WalletBehavior.insider_analyze fromisoformat now wallet swaps min_score = Ok ts ->
  Sorted (fun a b => WalletBehavior.suspicion_score b <= WalletBehavior.suspicion_score a) ts
  /\ Forall (fun t => min_score <= WalletBehavior.suspicion_score t <= 80
                      /\ In (WalletBehavior.entry_transaction t) swaps
                      /\ WalletBehavior.transaction_type (WalletBehavior.entry_transaction t) = "buy") ts.
Proof.
  intro H. unfold WalletBehavior.insider_analyze in H.
  match type of H with context[mapM ?f ?l] => destruct (mapM f l) as [trades|e] eqn:Em end;
    cbn [bind] in H; [|discriminate].
  injection H as <-. split; [apply sort_desc_sorted|].
  apply Forall_forall. intros t Ht. apply in_sort_desc in Ht. apply filter_In in Ht.
  destruct Ht as [Ht Hmin]. apply Qle_bool_spec in Hmin.
  destruct (mapM_in _ _ _ _ Em Ht) as [kv [Hkv Hpos]].
  destruct (analyze_position_ok _ _ _ _ _ Hpos) as [[trade Hs] He].
  destruct kv as [k g]. apply (in_group_by _ token_key_eqb_spec) in Hkv.
  destruct Hkv as [_ ->]. cbn [snd] in He.
  apply filter_In in He. destruct He as [He _]. apply filter_In in He. destruct He as [He Hb].
  apply String.eqb_eq in Hb.
  pose proof (suspicion_score_range trade). rewrite Hs in Hmin |- *.
  split; [split; lra|]. split; [exact He | exact Hb].
Qed.

(** X11: a sniping-bot profile is only produced for a wallet with at
    least five buys; its new positions are among those buys, and its bot
    confidence score lies in [0, 100]. *)
Theorem sniping_profile_bounds wallet swaps bot :
  WalletBehavior.sniping_analyze wallet swaps = Some bot ->
  let buys := filter (fun s => String.eqb (WalletBehavior.transaction_type s) "buy") swaps in
  (5 <= List.length buys)%nat
  /\ (WalletBehavior.total_snipes bot <= List.length buys)%nat
  /\ 0 <= WalletBehavior.bot_confidence_score bot <= 100.
Proof.
  intro H. unfold WalletBehavior.sniping_analyze in H. cbv zeta in *.
  destruct (Nat.ltb_spec (List.length (filter (fun s => String.eqb (WalletBehavior.transaction_type s) "buy") swaps)) 5);
    [discriminate|].
  injection H as <-. cbn [WalletBehavior.total_snipes WalletBehavior.bot_confidence_score].
  split; [lia|]. split; [apply filter_length_le | apply bot_confidence_range].
Qed.

(** ** Liquidity-pool detectors *)

(** Open the guards of a detector body in a membership hypothesis. *)
Ltac open_guards H :=
  repeat match type of H with
  | In _ (if ?b then _ else _) =>
      let E := fresh "E" in destruct b eqn:E; [|destruct H]
  | In _ (match ?l with [] => _ | _ :: _ => _ end) =>
      let E := fresh "E" in destruct l eqn:E; [destruct H|]
  end.

Lemma in_flat_map_ex {A B} (f : A -> list B) l y : In y (flat_map f l) -> exists x, In x l /\ In y (f x).
Proof. intro H. apply in_flat_map in H. exact H. Qed.

Lemma rug_score_range (T ratio : Q) :
  10000 < T -> 7#10 < ratio -> 45 < py_min 100 (T / 1000 + ratio * 50) <= 100.
Proof. intros. unfold py_min. const_inv. qcmp_cases; lra. Qed.

Lemma dump_score_range (n : nat) (T : Q) :
  (3 <= n)%nat -> 5000 < T -> 45 < py_min 100 (nat_q n * 15 + T / 500) <= 100.
Proof.
  intros Hn HT. pose proof (nat_q_le 3 n Hn). change (nat_q 3) with 3 in *.
  unfold py_min. const_inv. qcmp_cases; lra.
Qed.

(** X12: the findings of [LiquidityPoolManipulationDetector.analyze] come
    sorted by risk score, highest first; every finding scores in
    (45, 100], and is either a rug pull of one wallet selling more than
    $10000 or a coordinated dump by at least three wallets selling more
    than $5000 in one block. *)
Theorem lp_findings_sorted_and_scored (swaps : list Pool.PoolSwap) :
  Sorted (fun a b => Pool.risk_score b <= Pool.risk_score a) (Pool.lp_analyze swaps)
  /\ Forall (fun m => 45 < Pool.risk_score m <= 100
       /\ ((Pool.manipulation_type m = "Potential Rug Pull"
            /\ List.length (Pool.involved_wallets m) = 1%nat /\ 10000 < Pool.lm_total_value_usd m)
           \/ (Pool.manipulation_type m = "Coordinated Dump"
               /\ (3 <= List.length (Pool.involved_wallets m))%nat /\ 5000 < Pool.lm_total_value_usd m)))
       (Pool.lp_analyze swaps).
Proof.
  split; [apply sort_desc_sorted|].
  apply Forall_forall. intros m Hm. unfold Pool.lp_analyze in Hm.
  apply in_sort_desc, in_app_or in Hm. destruct Hm as [Hm|Hm].
  - apply in_flat_map_ex in Hm. destruct Hm as [[w txs] [_ Hm]].
    unfold Pool.rug_pull_of_wallet in Hm. open_guards Hm.
    destruct Hm as [<-|[]]. cbn.
    apply Qltb_spec in E1. apply Qltb_spec in E2.
    split; [apply rug_score_range; assumption|]. left. split; [reflexivity|]. split; [reflexivity|exact E1].
  - apply in_flat_map_ex in Hm. destruct Hm as [[b bs] [_ Hm]].
    unfold Pool.coordinated_dump_of_block in Hm. open_guards Hm.
    destruct Hm as [<-|[]]. cbn.
    apply andb_true_iff in E1. destruct E1 as [E1 E3].
    apply Nat.leb_le in E1. apply Qltb_spec in E3.
    split; [apply dump_score_range; assumption|]. right. split; [reflexivity|]. split; assumption.
Qed.

Lemma price_step_in p zs a :
  Pool.price_manipulation_step p = Ok zs -> In a zs ->
  Pool.attack_type a = "Price Manipulation" /\ 5 < Pool.price_impact a
  /\ 55 < Pool.attack_confidence a <= 100.
Proof.
  destruct p as [cur nxt]. unfold Pool.price_manipulation_step.
  match goal with |- context[bind (py_div ?x ?y) _] => destruct (py_div x y) as [r|e] end;
    cbn [bind]; [|discriminate].
  destruct (Qltb 5000 (Pool.total_value_usd cur) && Qltb 5 (Qabs r * 100)) eqn:E;
    intro H; injection H as <-; [|intros []].
  intros [<-|[]]. cbn. apply andb_true_iff in E. destruct E as [E1 E2].
  apply Qltb_spec in E1. apply Qltb_spec in E2.
  split; [reflexivity|]. split; [exact E2|].
  unfold py_min. const_inv. qcmp_cases; lra.
Qed.

(** X13: when [ConcentratedLiquidityAttackDetector.analyze] succeeds, its
    attacks come sorted by confidence, highest first; every attack has a
    confidence in (55, 100], and is either a price manipulation with a
    price impact above 5% or a liquidity snipe of at least three buys. *)
Theorem concentrated_attacks_sorted_and_scored (swaps : list Pool.PoolSwap) attacks :
  Pool.concentrated_analyze swaps = Ok attacks ->
  Sorted (fun a b => Pool.attack_confidence b <= Pool.attack_confidence a) attacks
  /\ Forall (fun a => 55 < Pool.attack_confidence a <= 100
       /\ ((Pool.attack_type a = "Price Manipulation" /\ 5 < Pool.price_impact a)
           \/ (Pool.attack_type a = "Liquidity Sniping"
               /\ (3 <= List.length (Pool.transactions_involved a))%nat))) attacks.
Proof.
  intro H. unfold Pool.concentrated_analyze in H.
  destruct (Pool._detect_price_manipulation swaps) as [pm|e] eqn:Epm; cbn [bind] in H; [|discriminate].
  injection H as <-. split; [apply sort_desc_sorted|].
  apply Forall_forall. intros a Ha. apply in_sort_desc, in_app_or in Ha. destruct Ha as [Ha|Ha].
  - destruct (concat_steps_in _ _ _ _ Epm Ha) as [p [zs [_ [Hp Hz]]]].
    destruct (price_step_in p zs a Hp Hz) as [T [I C]].
    split; [exact C|]. left. split; assumption.
  - apply in_flat_map_ex in Ha. destruct Ha as [[w txs] [_ Ha]].
    unfold Pool.sniping_of_wallet in Ha. open_guards Ha.
    destruct Ha as [<-|[]]. cbn. apply Nat.leb_le in E0.
    pose proof (nat_q_le 3 _ E0) as N. change (nat_q 3) with 3 in N.
    cbn [Datatypes.length] in N.
    split; [unfold py_min; qcmp_cases; lra|]. right. split; [reflexivity|exact E0].
Qed.

(** X14: the dominating wallets of [PoolDominationDetector.analyze] come
    sorted by domination percentage, highest first; every reported wallet
    dominates by more than 20%, and its transaction count is at most the
    pool's, which is the number of analysed swaps. *)
Theorem domination_sorted_and_above_threshold (swaps : list Pool.PoolSwap) :
  Sorted (fun a b => Pool.domination_percentage b <= Pool.domination_percentage a)
         (Pool.domination_analyze swaps)
  /\ Forall (fun d => 20 < Pool.domination_percentage d
       /\ Pool.total_transactions d = List.length swaps
       /\ (Pool.wallet_transactions d <= Pool.total_transactions d)%nat)
       (Pool.domination_analyze swaps).
Proof.
  split; [apply sort_desc_sorted|].
  apply Forall_forall. intros d Hd. unfold Pool.domination_analyze in Hd.
  apply in_sort_desc, in_flat_map_ex in Hd. destruct Hd as [[k g] [Hg Hd]].
  apply (in_group_by _ String.eqb_eq) in Hg. destruct Hg as [_ ->].
  unfold Pool.domination_of_wallet in Hd.
  destruct (Pool.dominates _ _ _) eqn:Dom; [|destruct Hd].
  set (tx := Pool.tx_percentage _ _) in *. set (vol := Pool.volume_percentage _ _) in *.
  assert (M : 20 < py_max tx vol).
  { unfold Pool.dominates in Dom. fold tx vol in Dom. apply orb_true_iff in Dom.
    unfold py_max. qcmp_cases; destruct Dom as [D|D]; apply Qltb_spec in D; lra. }
  repeat match type of Hd with
         | In _ (let '(_, _) := if ?b then _ else _ in _) => destruct b
         end;
    destruct Hd as [<-|[]]; cbn; (split; [exact M|]); (split; [reflexivity|]); apply filter_length_le.
Qed.

(** ** Sandwich detection *)

Lemma strongly_sorted_impl {A} (R S : A -> A -> Prop) l :
  (forall a b, R a b -> S a b) -> StronglySorted R l -> StronglySorted S l.
Proof.
  intros HRS H. induction H; constructor; [exact IHStronglySorted|].
  eapply Forall_impl; [|exact H0]. exact (HRS a).
Qed.

(** Concatenating chunks whose elements carry the key of their source,
    over sources sorted by key (descending), keeps the order. *)
Lemma strongly_sorted_flat_map {A B} (kA : A -> Z) (kB : B -> Z) (f : A -> list B) l :
  (forall x y, In x l -> In y (f x) -> kB y = kA x) ->
  StronglySorted (fun a b => (kA b <= kA a)%Z) l ->
  StronglySorted (fun a b => (kB b <= kB a)%Z) (flat_map f l).
Proof.
  intros Hk H. induction H as [|x l Hl IH Hx]; [constructor|]. cbn [flat_map].
  assert (Hk' : forall x' y, In x' l -> In y (f x') -> kB y = kA x')
    by (intros x' y Hx' Hy; apply Hk; [right|]; assumption).
  specialize (IH Hk').
  assert (G : forall m, (forall y, In y m -> kB y = kA x) ->
              StronglySorted (fun a b => (kB b <= kB a)%Z) (m ++ flat_map f l)).
  { induction m as [|y m IHm]; intro Hm; [exact IH|]. cbn [app]. constructor.
    - apply IHm. intros z Hz. apply Hm. right. exact Hz.
    - apply Forall_forall. intros z Hz. rewrite (Hm y (or_introl eq_refl)).
      apply in_app_or in Hz. destruct Hz as [Hz|Hz].
      + rewrite (Hm z (or_intror Hz)). lia.
      + apply in_flat_map in Hz. destruct Hz as [x' [Hx' Hz]]. rewrite (Hk' x' z Hx' Hz).
        rewrite Forall_forall in Hx. exact (Hx x' Hx'). }
  apply G. intros y Hy. apply Hk; [left; reflexivity|exact Hy].
Qed.

(** The findings of one block come from an adjacent buy/sell pair of one
    wallet of the block and a victim transaction of the block. *)
Lemma in_detect_sandwich_in_block txs atk :
  In atk (Sandwich._detect_sandwich_in_block txs) ->
  exists f b v, In f txs /\ In b txs /\ In v txs
    /\ Sandwich.wallet_address b = Sandwich.wallet_address f
    /\ Sandwich.is_buy_sell_pair f b = true
    /\ Sandwich.is_victim (Sandwich.wallet_address f) f b v = true
    /\ atk = sandwich_of f v b.
Proof.
  unfold Sandwich._detect_sandwich_in_block. rewrite in_flat_map.
  intros [[k g] [Hkv Hin]]. apply filter_In in Hkv. destruct Hkv as [Hkv _].
  apply (in_group_by String.eqb String.eqb_eq) in Hkv. destruct Hkv as [_ ->].
  cbn [fst snd] in Hin. rewrite in_flat_map in Hin. destruct Hin as [[f b] [Hfb Hatk]].
  unfold Sandwich.attacks_of_pair in Hatk.
  destruct (Sandwich.is_buy_sell_pair f b) eqn:Hp; [|destruct Hatk].
  apply in_map_iff in Hatk. destruct Hatk as [v [<- Hv]].
  apply filter_In in Hv. destruct Hv as [Hv Hvict].
  destruct (in_adjacent_pairs _ _ _ Hfb) as [Hf Hb].
  apply filter_In in Hf. destruct Hf as [Hf Hk]. apply String.eqb_eq in Hk. subst k.
  apply filter_In in Hb. destruct Hb as [Hb Hk]. apply String.eqb_eq in Hk.
  exists f, b, v. repeat split; assumption.
Qed.

Lemma sort_asc_length {A} (key : A -> Z) l : List.length (sort_asc key l) = List.length l.
Proof.
  unfold sort_asc.
  assert (G : forall acc, List.length (fold_left (fun acc x => insert_asc key x acc) l acc)
                          = (List.length acc + List.length l)%nat).
  { induction l as [|x l IH]; intro acc; cbn [fold_left List.length]; [lia|].
    rewrite IH. assert (I : forall m, List.length (insert_asc key x m) = S (List.length m)).
    { induction m as [|z m IHm]; cbn; [reflexivity|]. destruct (key x <? key z)%Z; cbn; lia. }
    rewrite I. lia. }
  rewrite G. reflexivity.
Qed.

Lemma in_group_by_block swaps k g :
  In (k, g) (Sandwich._group_by_block swaps) ->
  forall x, In x g -> In x swaps /\ Sandwich.block_number x = k.
Proof.
  intros H x Hx. unfold Sandwich._group_by_block in H. apply in_map_iff in H.
  destruct H as [[k' g'] [E Hg]]. cbn [fst snd] in E. injection E as <- <-.
  apply (in_group_by Z.eqb Z.eqb_eq) in Hg. destruct Hg as [_ ->].
  apply in_sort_asc, filter_In in Hx. destruct Hx as [Hx Hk]. apply Z.eqb_eq in Hk. auto.
Qed.

Lemma in_detect_all swaps atk :
  In atk (Sandwich.detect_all swaps) ->
  exists k g, In (k, g) (Sandwich._group_by_block swaps) /\ (3 <= List.length g)%nat
    /\ In atk (Sandwich._detect_sandwich_in_block g).
Proof.
  unfold Sandwich.detect_all. intro H. apply in_flat_map in H. destruct H as [[k g] [Hkg H]].
  apply in_sort_desc in Hkg. cbn [snd] in H.
  destruct (3 <=? List.length g)%nat eqn:E; [|destruct H].
  apply Nat.leb_le in E. exists k, g. auto.
Qed.

(** X15: every sandwich attack reported by the analyzer is made of three
    analysed swaps of one block: a buy of the attacker, a victim swap of
    another wallet on the same pair, and a sell of the attacker on that
    pair, with the victim's transaction index strictly between the two
    others; the block has at least three transactions and the profit is the
    back-run value minus the front-run value. *)
Theorem sandwich_findings_sound (swaps : list Sandwich.SwapTransaction) :
  Forall (fun a =>
    let f := Sandwich.front_run_tx a in
    let v := Sandwich.victim_tx a in
    let b := Sandwich.back_run_tx a in
    In f swaps /\ In v swaps /\ In b swaps
    /\ Sandwich.attacker_address a = Sandwich.wallet_address f
    /\ Sandwich.wallet_address b = Sandwich.wallet_address f
    /\ Sandwich.victim_address a = Sandwich.wallet_address v
    /\ Sandwich.victim_address a <> Sandwich.attacker_address a
    /\ Sandwich.transaction_type f = "buy" /\ Sandwich.transaction_type b = "sell"
    /\ Sandwich.pair_address v = Sandwich.pair_address f
    /\ Sandwich.pair_address b = Sandwich.pair_address f
    /\ (Sandwich.transaction_index f < Sandwich.transaction_index v
        < Sandwich.transaction_index b)%Z
    /\ Sandwich.block_number f = Sandwich.sw_block_number a
    /\ Sandwich.block_number v = Sandwich.sw_block_number a
    /\ Sandwich.block_number b = Sandwich.sw_block_number a
    /\ (3 <= List.length (filter (fun x => Z.eqb (Sandwich.block_number x)
                                             (Sandwich.sw_block_number a)) swaps))%nat
    /\ Sandwich.profit_usd a = Sandwich.total_value_usd b - Sandwich.total_value_usd f)
    (Sandwich.detect_all swaps).
Proof.
  apply Forall_forall. intros atk Hatk.
  destruct (in_detect_all _ _ Hatk) as [k [g [Hkg [Hlen Hin]]]].
  destruct (in_detect_sandwich_in_block _ _ Hin) as [f [b [v [Hf [Hb [Hv [Hw [Hp [Hvict ->]]]]]]]]].
  pose proof (in_group_by_block _ _ _ Hkg) as G.
  destruct (G f Hf) as [Sf Bf]. destruct (G b Hb) as [Sb Bb]. destruct (G v Hv) as [Sv Bv].
  assert (Eg : g = sort_asc Sandwich.transaction_index
                   (filter (fun x => Z.eqb (Sandwich.block_number x) k) swaps)).
  { unfold Sandwich._group_by_block in Hkg. apply in_map_iff in Hkg.
    destruct Hkg as [[k' g'] [E Hg]]. cbn [fst snd] in E. injection E as <- <-.
    apply (in_group_by Z.eqb Z.eqb_eq) in Hg. destruct Hg as [_ ->]. reflexivity. }
  unfold Sandwich.is_buy_sell_pair in Hp. unfold Sandwich.is_victim in Hvict.
  repeat rewrite andb_true_iff in Hp. repeat rewrite andb_true_iff in Hvict.
  destruct Hp as [[P1 P2] P3]. destruct Hvict as [[[V1 V2] V3] V4].
  apply String.eqb_eq in P1, P2, P3, V2. apply negb_true_iff, String.eqb_neq in V1.
  apply Z.ltb_lt in V3, V4.
  cbn. subst k. repeat split; auto; try congruence.
  rewrite Eg, sort_asc_length in Hlen. exact Hlen.
Qed.

(** X16: the analyzer lists the sandwich attacks block by block, from
    the highest block number down (the blocks are visited in descending
    order). *)
Theorem sandwich_findings_by_block_desc (swaps : list Sandwich.SwapTransaction) :
  Sorted (fun a b => (Sandwich.sw_block_number b <= Sandwich.sw_block_number a)%Z)
         (Sandwich.detect_all swaps).
Proof.
  apply StronglySorted_Sorted. unfold Sandwich.detect_all.
  apply (strongly_sorted_flat_map fst).
  - intros [k g] atk Hkg Hatk. apply in_sort_desc in Hkg. cbn [fst snd] in *.
    destruct (3 <=? List.length g)%nat; [|destruct Hatk].
    destruct (in_detect_sandwich_in_block _ _ Hatk) as [f [b [v [Hf [_ [_ [_ [_ [_ ->]]]]]]]]].
    cbn. exact (proj2 (in_group_by_block _ _ _ Hkg f Hf)).
  - apply (strongly_sorted_impl (fun a b => inject_Z (fst b) <= inject_Z (fst a))).
    + intros a b H. rewrite <- Zle_Qle in H. exact H.
    + apply Sorted_StronglySorted; [|apply sort_desc_sorted].
      intros x y z H1 H2. eapply Qle_trans; eassumption.
Qed.

(** ** Reports of the transaction-anomaly detectors *)

Lemma NoDup_snoc {A} (l : list A) x : NoDup l -> ~ In x l -> NoDup (l ++ [x]).
Proof.
  induction l as [|y l IH]; intros H Hx; cbn [app]; [constructor; [intros []|constructor]|].
  inversion H as [|? ? Hy Hl]; subst. constructor.
  - rewrite in_app_iff. intros [Hi|[<-|[]]]; [exact (Hy Hi)|]. apply Hx. left. reflexivity.
  - apply IH; [exact Hl|]. intro Hi. apply Hx. right. exact Hi.
Qed.

Lemma keys_in_order_NoDup {K A} (eqb : K -> K -> bool) (eqb_spec : forall a b, eqb a b = true <-> a = b)
    (key : A -> K) l : NoDup (keys_in_order eqb key l).
Proof.
  unfold keys_in_order.
  assert (G : forall acc, NoDup acc ->
              NoDup (fold_left (fun acc x => if existsb (eqb (key x)) acc then acc
                                             else (acc ++ [key x])%list) l acc)).
  { induction l as [|x l IH]; intros acc Hacc; cbn [fold_left]; [exact Hacc|].
    apply IH. destruct (existsb (eqb (key x)) acc) eqn:E; [exact Hacc|].
    apply NoDup_snoc; [exact Hacc|]. intro Hi.
    assert (existsb (eqb (key x)) acc = true) by (apply existsb_exists; exists (key x);
      split; [exact Hi|apply eqb_spec; reflexivity]). congruence. }
  apply G. constructor.
Qed.

Lemma insert_key_NoDup {K} (ltb : K -> K -> bool) k ks :
  NoDup ks -> ~ In k ks -> NoDup (TxAnomaly.insert_key ltb k ks).
Proof.
  induction ks as [|k' ks IH]; intros H Hk; cbn; [constructor; [intros []|constructor]|].
  destruct (ltb k k'); [constructor; assumption|].
  inversion H as [|? ? Hk' Hl]; subst. constructor.
  - rewrite in_insert_key. intros [<-|Hi]; [apply Hk; left; reflexivity|exact (Hk' Hi)].
  - apply IH; [exact Hl|]. intro Hi. apply Hk. right. exact Hi.
Qed.

Lemma pd_groupby_keys_NoDup {K} (ltb eqb : K -> K -> bool) (eqb_spec : forall a b, eqb a b = true <-> a = b)
    (key : TxAnomaly.Row -> K) rows :
  NoDup (map fst (TxAnomaly.pd_groupby ltb eqb key rows)).
Proof.
  unfold TxAnomaly.pd_groupby. rewrite map_map. cbn [fst]. rewrite map_id.
  assert (G : forall ks acc, NoDup ks -> NoDup acc -> (forall y, In y ks -> ~ In y acc) ->
              NoDup (fold_left (fun acc k => TxAnomaly.insert_key ltb k acc) ks acc)).
  { induction ks as [|k ks IH]; intros acc Hks Hacc Hdis; cbn [fold_left]; [exact Hacc|].
    inversion Hks as [|? ? Hk Hl]; subst. apply IH; [exact Hl| |].
    - apply insert_key_NoDup; [exact Hacc|]. apply Hdis. left. reflexivity.
    - intros y Hy. rewrite in_insert_key. intros [<-|Hi]; [exact (Hk Hy)|].
      exact (Hdis y (or_intror Hy) Hi). }
  apply G; [apply (keys_in_order_NoDup eqb eqb_spec)|constructor|intros y _ []].
Qed.

Lemma NoDup_map_filter {A B} (f : A -> B) (p : A -> bool) l :
  NoDup (map f l) -> NoDup (map f (filter p l)).
Proof.
  induction l as [|x l IH]; intro H; cbn; [constructor|].
  inversion H as [|? ? Hx Hl]; subst. destruct (p x); [|exact (IH Hl)].
  cbn. constructor; [|exact (IH Hl)]. intro Hi. apply Hx.
  apply in_map_iff in Hi. destruct Hi as [y [Hy Hi]]. apply filter_In in Hi.
  apply in_map_iff. exists y. split; [exact Hy|exact (proj1 Hi)].
Qed.

Lemma mapM_keys {K A B} (f : A -> Result B) (l : list (K * A)) ys :
  mapM (fun kv => let* p := f (snd kv) in Ok (fst kv, p)) l = Ok ys -> map fst ys = map fst l.
Proof.
  revert ys. induction l as [|[k g] l IH]; intros ys H; cbn in H.
  - injection H as <-. reflexivity.
  - destruct (f g); cbn [bind] in H; [|discriminate].
    destruct (mapM _ l) as [zs|e] eqn:Ez; cbn [bind] in H; [|discriminate].
    injection H as <-. cbn. f_equal. apply IH. reflexivity.
Qed.

(** X17: the wash-trading detector takes its early return exactly on an
    empty batch; a report it returns counts exactly the wallets it lists,
    lists each wallet once, and its total suspicious volume is at least
    the count times the configured minimum volume (every listed wallet
    traded at least that volume); the only exception it raises is
    ZeroDivisionError. *)
Theorem wash_report_consistent (cfg : TxAnomaly.WashConfig) (transactions : list TxAnomaly.Row) :
  (TxAnomaly.wash_detect cfg transactions = Ok TxAnomaly.WashNoInput <-> transactions = [])
  /\ (forall n ws v mev,
        TxAnomaly.wash_detect cfg transactions = Ok (TxAnomaly.WashReport n ws v mev) ->
        n = List.length ws /\ NoDup (map fst ws) /\ nat_q n * TxAnomaly.min_volume cfg <= v)
  /\ (forall e, TxAnomaly.wash_detect cfg transactions = Raise e -> e = ZeroDivisionError).
Proof.
  split; [|split; [|exact (wash_detect_raise cfg transactions)]].
  - destruct transactions as [|t ts]; [split; reflexivity|].
    split; [|discriminate]. unfold TxAnomaly.wash_detect.
    destruct (mapM _ _); cbn [bind]; discriminate.
  - intros n ws v mev H. pose proof (wash_volume_lower cfg transactions _ H) as Hv.
    cbn [TxAnomaly.wash_detected_count AnomalySystem.wash_total_suspicious_volume] in Hv.
    destruct transactions as [|t ts]; [discriminate|].
    unfold TxAnomaly.wash_detect in H.
    destruct (mapM _ _) as [analysed|e] eqn:Ea; cbn [bind] in H; [|discriminate].
    injection H as <- <- <- _.
    split; [reflexivity|]. split; [|exact Hv].
    apply NoDup_map_filter, NoDup_map_filter.
    rewrite (mapM_keys _ _ _ Ea).
    apply (pd_groupby_keys_NoDup TxAnomaly.str_ltb String.eqb String.eqb_eq).
Qed.

Lemma in_firstn {A} n (l : list A) x : In x (firstn n l) -> In x l.
Proof. intro H. rewrite <- (firstn_skipn n l). apply in_or_app. left. exact H. Qed.

Lemma in_indexed {A} n (l : list A) i x : In (i, x) (TxAnomaly.indexed n l) -> In x l.
Proof.
  revert n. induction l as [|y l IH]; intros n H; [destruct H|].
  destruct H as [H|H]; [injection H as _ <-; left; reflexivity|right; exact (IH _ H)].
Qed.

(** X18: on a non-empty batch, the price-manipulation report's
    [total_events] is the number of manipulation events plus the number of
    coordinated blocks; every event is a transaction of the batch worth
    more than [min_value] whose absolute price change exceeds the
    threshold and whose volume spike exceeds the multiplier; every
    coordinated block has at least five distinct wallets, a total value
    above $10000 and lists at most ten wallets, all of which traded in that
    block. *)
Theorem price_report_consistent (cfg : TxAnomaly.PriceConfig) (transactions : list TxAnomaly.Row) :
  match TxAnomaly.price_detect cfg transactions with
  | TxAnomaly.PriceNoInput => transactions = []
  | TxAnomaly.PriceReport evs co total _ =>
      total = (List.length evs + List.length co)%nat
      /\ Forall (fun e => exists r, In r transactions
            /\ TxAnomaly.me_wallet e = TxAnomaly.walletAddress r
            /\ TxAnomaly.me_block e = TxAnomaly.blockNumber r
            /\ TxAnomaly.me_value_usd e = TxAnomaly.totalValueUsd r
            /\ TxAnomaly.min_value cfg < TxAnomaly.me_value_usd e
            /\ np_gt (np_abs (TxAnomaly.me_price_change e)) (Fin (TxAnomaly.pm_price_threshold cfg)) = true
            /\ np_gt (TxAnomaly.me_volume_spike e) (Fin (TxAnomaly.volume_multiplier cfg)) = true) evs
      /\ Forall (fun c => (5 <= TxAnomaly.num_wallets c)%nat
            /\ 10000 < TxAnomaly.ce_total_value c
            /\ (List.length (TxAnomaly.ce_wallets c) <= 10)%nat
            /\ forall w, In w (TxAnomaly.ce_wallets c) ->
                 exists r, In r transactions /\ TxAnomaly.walletAddress r = w
                           /\ TxAnomaly.blockNumber r = TxAnomaly.ce_block c) co
  end.
Proof.
  destruct transactions as [|t ts]; [reflexivity|].
  unfold TxAnomaly.price_detect. split; [reflexivity|]. split.
  - apply Forall_forall. intros e He. apply in_flat_map_ex in He.
    destruct He as [[i r] [Hir He]]. cbv zeta in He.
    destruct (_ && _ && _) eqn:E; [|destruct He]. destruct He as [<-|[]].
    repeat rewrite andb_true_iff in E. destruct E as [[E1 E2] E3]. apply Qltb_spec in E3.
    exists r. cbn. repeat split; try assumption.
    apply in_indexed in Hir. apply (in_sort_asc TxAnomaly.blockNumber (t :: ts) r). exact Hir.
  - apply Forall_forall. intros c Hc. unfold TxAnomaly._detect_coordinated_trading in Hc.
    apply in_flat_map_ex in Hc. destruct Hc as [[b g] [Hbg Hc]].
    apply (in_pd_groupby _ Z.eqb Z.eqb_eq) in Hbg. destruct Hbg as [_ Hg].
    cbv zeta in Hc. destruct g as [|first rest] eqn:Eg; [destruct Hc|].
    destruct (_ && _) eqn:E; [|destruct Hc]. destruct Hc as [<-|[]].
    apply andb_true_iff in E. destruct E as [E1 E2]. apply Nat.leb_le in E1. apply Qltb_spec in E2.
    cbn [TxAnomaly.num_wallets TxAnomaly.ce_total_value TxAnomaly.ce_wallets TxAnomaly.ce_block].
    split; [exact E1|]. split; [exact E2|]. split; [apply firstn_le_length|].
    intros w Hw. apply in_firstn in Hw. apply in_map_iff in Hw. destruct Hw as [r [Hw Hr]].
    rewrite Hg in Hr. apply filter_In in Hr. destruct Hr as [Hr Hb]. apply Z.eqb_eq in Hb.
    exists r. split; [apply (in_sort_asc TxAnomaly.blockNumber (t :: ts) r); exact Hr|].
    split; assumption.
Qed.

Lemma confidence_range cfg n p d v : 0 <= TxAnomaly._calculate_confidence cfg n p d v <= 1.
Proof.
  rewrite confidence_tiers. split; [|apply py_min_le_r]. apply py_min_ge; [|lra].
  repeat match goal with |- context [tier ?a ?b] =>
    let H := fresh "Ht" in pose proof (tier_range a b) as H; revert H;
    generalize (tier a b); intros ? ? end.
  lra.
Qed.

(** X19: the pump-and-dump detector finds nothing on fewer than 50
    transactions; it raises only KeyError 'subCategory', on a batch of at
    least 50 rows none of which has the key; in a report it returns,
    [num_schemes] counts the detected schemes and the high-confidence
    schemes are the detected ones of confidence above 0.75; every scheme
    starts at a transaction of the batch whose price change exceeds the
    pump threshold, has at least [min_wallets] dumping wallets, a dump
    volume above $50000 and a price drop of at least the dump threshold,
    and its confidence, in [0,1], is [_calculate_confidence] of those
    figures. *)
Theorem pump_report_consistent (cfg : TxAnomaly.PumpConfig) (transactions : list TxAnomaly.Row) :
  ((List.length transactions < 50)%nat ->
     TxAnomaly.pump_detect cfg transactions
     = Ok {| TxAnomaly.detected_schemes := []; TxAnomaly.num_schemes := 0;
             TxAnomaly.high_confidence := [] |})
  /\ (forall e, TxAnomaly.pump_detect cfg transactions = Raise e ->
        e = KeyError "subCategory" /\ (50 <= List.length transactions)%nat
        /\ Forall (fun r => TxAnomaly.subCategory r = None) transactions)
  /\ (forall res, TxAnomaly.pump_detect cfg transactions = Ok res ->
      TxAnomaly.num_schemes res = List.length (TxAnomaly.detected_schemes res)
      /\ (forall s, In s (TxAnomaly.high_confidence res)
            <-> In s (TxAnomaly.detected_schemes res) /\ 3#4 < TxAnomaly.confidence s)
      /\ Forall (fun s =>
            (exists p, In p transactions /\ TxAnomaly.pump_time s = TxAnomaly.blockTimestamp p)
            /\ np_gt (TxAnomaly.pump_price_increase s) (Fin (TxAnomaly.pump_threshold cfg)) = true
            /\ (TxAnomaly.min_wallets cfg <= TxAnomaly.dump_wallets s)%nat
            /\ 50000 < TxAnomaly.dump_volume s
            /\ np_ge (TxAnomaly.dump_price_decrease s) (Fin (TxAnomaly.dump_threshold cfg)) = true
            /\ TxAnomaly.confidence s
               = TxAnomaly._calculate_confidence cfg (TxAnomaly.dump_wallets s)
                   (TxAnomaly.pump_price_increase s) (TxAnomaly.dump_price_decrease s)
                   (TxAnomaly.dump_volume s)
            /\ 0 <= TxAnomaly.confidence s <= 1)
         (TxAnomaly.detected_schemes res)).
Proof.
  split; [|split; [exact (pump_detect_raise cfg transactions)|]].
  - intro H. unfold TxAnomaly.pump_detect. apply Nat.ltb_lt in H. rewrite H. reflexivity.
  - intros res Hres. destruct (pump_detect_shape _ _ _ Hres) as [Hn Hh].
    split; [exact Hn|split].
    + intro s. rewrite Hh, filter_In, Qltb_spec. reflexivity.
    + apply Forall_forall. intros s Hs. unfold TxAnomaly.pump_detect in Hres.
      destruct (List.length transactions <? 50)%nat.
      { injection Hres as <-. destruct Hs. }
      destruct (flat_mapM _ _) as [sch|e] eqn:Ef; cbn [bind] in Hres; [|discriminate].
      injection Hres as <-. cbn [TxAnomaly.detected_schemes] in Hs.
      destruct (flat_mapM_in _ _ _ _ Ef Hs) as [[i r] [zs [Hir [Hz Hs']]]].
      cbv zeta in Hz.
      destruct (np_gt _ _) eqn:Hpump; [|injection Hz as <-; destruct Hs'].
      unfold TxAnomaly.scheme_at in Hz. cbv zeta in Hz.
      destruct (negb _); [discriminate|].
      destruct (_ && _) eqn:E; [|injection Hz as <-; destruct Hs'].
      destruct (rev _) as [|last_row rest]; [injection Hz as <-; destruct Hs'|].
      destruct (np_ge _ _) eqn:Hdrop; [|injection Hz as <-; destruct Hs'].
      injection Hz as <-. destruct Hs' as [<-|[]].
      apply andb_true_iff in E. destruct E as [E1 E2]. apply Nat.leb_le in E1. apply Qltb_spec in E2.
      cbn [TxAnomaly.pump_time TxAnomaly.pump_price_increase TxAnomaly.dump_wallets
           TxAnomaly.dump_volume TxAnomaly.dump_price_decrease TxAnomaly.confidence].
      split; [|split; [exact Hpump|split; [exact E1|split; [exact E2|split; [exact Hdrop|split; [reflexivity|apply confidence_range]]]]]].
      exists r. split; [|reflexivity]. apply in_indexed in Hir.
      apply (in_sort_asc TxAnomaly.blockTimestamp transactions r). exact Hir.
Qed.

(** ** Insider-trading flags *)

(** X20: the red flags of a trade never repeat and are at most four (one
    for the gain, one for the entry, one for the position size, one for a
    quick profit); the suspicion score is worth at least 10 points per flag,
    and it is 0 exactly when the trade has no flag and a price change of at
    most 15%. *)
Theorem insider_flags_and_score (t : WalletBehavior.InsiderTrade) :
  NoDup (WalletBehavior._get_flags t)
  /\ (List.length (WalletBehavior._get_flags t) <= 4)%nat
  /\ nat_q (List.length (WalletBehavior._get_flags t)) * 10
     <= WalletBehavior._calculate_suspicion_score t
  /\ (WalletBehavior._calculate_suspicion_score t == 0
      <-> WalletBehavior._get_flags t = [] /\ WalletBehavior.price_change_percent t <= 15).
Proof.
  unfold WalletBehavior._get_flags, WalletBehavior._calculate_suspicion_score.
  set (pc := WalletBehavior.price_change_percent t).
  set (v := WalletBehavior.total_value_usd (WalletBehavior.entry_transaction t)).
  destruct (String.eqb _ "newPosition"), (WalletBehavior.is_quick _);
  unfold py_min; qcmp_cases; try (exfalso; lra);
  cbn [app List.length]; unfold nat_q; cbn [Z.of_nat Pos.of_succ_nat Pos.succ];
  (split; [repeat constructor; cbn; intuition discriminate|]);
  (split; [lia|]);
  (split; [unfold inject_Z; lra|]);
  (split; [intro H; first [exfalso; lra | split; [reflexivity|lra]]
          |intros [H1 H2]; first [discriminate H1 | apply Qle_antisym; lra | exfalso; lra]]).
Qed.

(** ** Exceptions of the detectors *)

Lemma flat_mapM_raise {A B} (f : A -> Result (list B)) l d e :
  In d l -> f d = Raise e -> exists e', flat_mapM f l = Raise e'.
Proof.
  induction l as [|x l IH]; simpl; [intros []|].
  intros [<-|Hin] Hd.
  - rewrite Hd. simpl. eauto.
  - destruct (f x); simpl; [|eauto].
    destruct (IH Hin Hd) as [e' ->]. simpl. eauto.
Qed.

(** X21: the wash-trading detector raises exactly when some wallet has a
    buy at price 0 and a sell with a price (not NaN) within the time
    window after it: the division [abs(buy - sell) / buy_price] of that
    pair is then evaluated on Python floats. *)
Theorem wash_detect_raises_iff (cfg : TxAnomaly.WashConfig) (transactions : list TxAnomaly.Row) :
  (exists e, TxAnomaly.wash_detect cfg transactions = Raise e)
  <-> exists buy sell,
        In buy transactions /\ In sell transactions
        /\ TxAnomaly.walletAddress sell = TxAnomaly.walletAddress buy
        /\ TxAnomaly.transactionType buy = "buy" /\ TxAnomaly.transactionType sell = "sell"
        /\ (TxAnomaly.blockTimestamp buy <= TxAnomaly.blockTimestamp sell
            <= TxAnomaly.blockTimestamp buy + TxAnomaly.time_window cfg)%Z
        /\ (exists q, TxAnomaly.baseQuotePrice buy = Fin q /\ q == 0)
        /\ notna (TxAnomaly.baseQuotePrice sell) = true.
Proof.
  split.
  - intros [e H]. destruct transactions as [|t ts]; [discriminate|].
    unfold TxAnomaly.wash_detect in H.
    destruct (mapM _ _) as [analysed|e1] eqn:Ea; cbn [bind] in H; [discriminate|].
    apply mapM_raise_in in Ea. destruct Ea as [[k g] [Hg Hf]].
    apply (in_pd_groupby _ String.eqb String.eqb_eq) in Hg. destruct Hg as [_ ->].
    cbn [fst snd] in Hf. unfold TxAnomaly._analyze_wallet_pattern in Hf.
    destruct (TxAnomaly.round_trips_of _ _) as [trips|e2] eqn:Er; cbn [bind] in Hf; [discriminate|].
    unfold TxAnomaly.round_trips_of in Er.
    destruct (mapM _ _) as [per|e3] eqn:Em; cbn [bind] in Er; [discriminate|].
    apply mapM_raise_in in Em. destruct Em as [b [Hb Hfb]].
    destruct (filterM _ _) as [ms|e4] eqn:Ef; cbn [bind] in Hfb; [discriminate|].
    apply filterM_raise_in in Ef. destruct Ef as [sl [Hs Hrt]].
    apply filter_In in Hb. destruct Hb as [Hb Htb]. apply filter_In in Hb. destruct Hb as [Hb Hwb].
    apply filter_In in Hs. destruct Hs as [Hs Hts]. apply filter_In in Hs. destruct Hs as [Hs Hws].
    apply String.eqb_eq in Hwb, Hws, Htb, Hts.
    exists b, sl.
    split; [apply (in_sort_asc TxAnomaly.blockTimestamp (t :: ts)); exact Hb|].
    split; [apply (in_sort_asc TxAnomaly.blockTimestamp (t :: ts)); exact Hs|].
    split; [congruence|]. split; [exact Htb|]. split; [exact Hts|].
    unfold TxAnomaly.is_round_trip in Hrt.
    destruct (_ && _) eqn:Hc; [|discriminate].
    apply andb_true_iff in Hc. destruct Hc as [Hc Hns].
    apply andb_true_iff in Hc. destruct Hc as [Hc Hnb].
    apply andb_true_iff in Hc. destruct Hc as [H1 H2].
    apply Z.leb_le in H1, H2.
    split; [lia|]. split; [|exact Hns].
    unfold TxAnomaly.price_diff, TxAnomaly.py_float_div in Hrt.
    destruct (TxAnomaly.baseQuotePrice b) as [q| | |]; cbn [bind] in Hrt; try discriminate.
    destruct (Qeq_bool q 0) eqn:Hq; cbn [bind] in Hrt; [|discriminate].
    exists q. split; [reflexivity|]. apply Qeq_bool_eq. exact Hq.
  - intros [b [sl [Hb [Hs [Hw [Htb [Hts [[H1 H2] [[q [Hp Hq]] Hns]]]]]]]]].
    destruct transactions as [|t ts]; [destruct Hb|].
    unfold TxAnomaly.wash_detect.
    set (df := TxAnomaly.sort_rows TxAnomaly.blockTimestamp (t :: ts)).
    set (g := filter (fun r => String.eqb (TxAnomaly.walletAddress r) (TxAnomaly.walletAddress b)) df).
    assert (Hbg : In b g).
    { apply filter_In. split; [apply in_sort_asc; exact Hb | apply String.eqb_refl]. }
    assert (Hsg : In sl g).
    { apply filter_In. split; [apply in_sort_asc; exact Hs|]. rewrite Hw. apply String.eqb_refl. }
    assert (Hrt : TxAnomaly.is_round_trip cfg b sl = Raise ZeroDivisionError).
    { unfold TxAnomaly.is_round_trip, TxAnomaly.price_diff, TxAnomaly.py_float_div.
      rewrite Hp, Hns. apply Z.leb_le in H1, H2. rewrite H1, H2.
      apply Qeq_bool_iff in Hq. rewrite Hq. reflexivity. }
    assert (Hr : exists e, TxAnomaly._analyze_wallet_pattern cfg g = Raise e).
    { unfold TxAnomaly._analyze_wallet_pattern, TxAnomaly.round_trips_of.
      destruct (filterM_raise (TxAnomaly.is_round_trip cfg b) (filter (TxAnomaly.is_type "sell") g)
                  sl ZeroDivisionError) as [e1 He1].
      { apply filter_In. split; [exact Hsg | apply String.eqb_eq; exact Hts]. }
      { exact Hrt. }
      destruct (mapM_raise (fun b' => let* ms := filterM (TxAnomaly.is_round_trip cfg b')
                                                    (filter (TxAnomaly.is_type "sell") g) in
                                      Ok (map (fun s => (b', s)) ms))
                  (filter (TxAnomaly.is_type "buy") g) b e1) as [e2 He2].
      { apply filter_In. split; [exact Hbg | apply String.eqb_eq; exact Htb]. }
      { rewrite He1. reflexivity. }
      rewrite He2. cbn [bind]. eauto. }
    destruct Hr as [e Hr].
    destruct (mapM_raise (fun kv => let* p := TxAnomaly._analyze_wallet_pattern cfg (snd kv) in
                                    Ok (fst kv, p))
                (TxAnomaly.pd_groupby TxAnomaly.str_ltb String.eqb TxAnomaly.walletAddress df)
                (TxAnomaly.walletAddress b, g) e) as [e' He'].
    { apply (in_pd_groupby _ String.eqb String.eqb_eq). split; [|reflexivity].
      exists b. split; [apply in_sort_asc; exact Hb | reflexivity]. }
    { cbn [snd]. rewrite Hr. reflexivity. }
    rewrite He'. cbn [bind]. eauto.
Qed.

(** X22: the pump-and-dump detector raises exactly when the batch has at
    least 50 transactions, none of them has a [subCategory] key, and some
    transaction's 1h price change exceeds the pump threshold: the frame
    then has no [subCategory] column when the first pump is examined. *)
Theorem pump_detect_raises_iff (cfg : TxAnomaly.PumpConfig) (transactions : list TxAnomaly.Row) :
  (exists e, TxAnomaly.pump_detect cfg transactions = Raise e)
  <-> (50 <= List.length transactions)%nat
      /\ Forall (fun r => TxAnomaly.subCategory r = None) transactions
      /\ exists i r,
           In (i, r) (TxAnomaly.indexed 0 (TxAnomaly.sort_rows TxAnomaly.blockTimestamp transactions))
           /\ np_gt (TxAnomaly.price_1h_change_of
                       (TxAnomaly.sort_rows TxAnomaly.blockTimestamp transactions) i r)
                    (Fin (TxAnomaly.pump_threshold cfg)) = true.
Proof.
  split.
  - intros [e H]. destruct (pump_detect_raise _ _ _ H) as [_ [Hl Hn]].
    split; [exact Hl|]. split; [exact Hn|].
    unfold TxAnomaly.pump_detect in H. destruct (List.length transactions <? 50)%nat; [discriminate|].
    destruct (flat_mapM _ _) as [sch|e'] eqn:Ef; cbn [bind] in H; [discriminate|].
    apply flat_mapM_raise_in in Ef. destruct Ef as [[i r] [Hir Hr]].
    exists i, r. split; [exact Hir|].
    destruct (np_gt _ _); [reflexivity|discriminate].
  - intros [Hl [Hn [i [r [Hir Hgt]]]]].
    unfold TxAnomaly.pump_detect.
    replace (List.length transactions <? 50)%nat with false by (symmetry; apply Nat.ltb_ge; exact Hl).
    set (df := TxAnomaly.sort_rows TxAnomaly.blockTimestamp transactions) in *.
    assert (Hc : TxAnomaly.has_subCategory df = false).
    { apply not_true_iff_false. unfold TxAnomaly.has_subCategory. rewrite existsb_exists.
      intros [x [Hx Hsx]]. apply in_sort_asc in Hx.
      rewrite Forall_forall in Hn. rewrite (Hn x Hx) in Hsx. discriminate. }
    cbv zeta.
    match goal with
    | |- context [flat_mapM ?f ?l] =>
        destruct (flat_mapM_raise f l (i, r) (KeyError "subCategory")) as [e He]
    end.
    { exact Hir. }
    { cbn beta iota. rewrite Hgt. unfold TxAnomaly.scheme_at. rewrite Hc. reflexivity. }
    rewrite He. cbn [bind]. eauto.
Qed.

(** ** Witnesses of the further properties *)

(** Two modules of scores 25 (a hacker flag) and 33.33 (a proxy), whose
    mean 29.165 is rounded. *)
Definition x3_modules : Risk.modules :=
  [("fraud", Risk.FraudRisk true false false false); ("governance", Risk.GovernanceRisk true false false)].

(** Witness of [overall_score_near_mean] on [x3_modules]: the rounding
    error is positive and within the bound. *)
Lemma overall_score_near_mean_witness :
  x3_modules <> []
  /\ 0 < Qabs (Risk.overall_score x3_modules
               - qsum id (module_scores x3_modules) / nat_q (List.length x3_modules))
  /\ Qabs (Risk.overall_score x3_modules
           - qsum id (module_scores x3_modules) / nat_q (List.length x3_modules)) <= 1#200.
Proof.
  assert (H : x3_modules <> []) by discriminate.
  split; [exact H|]. split; [vm_compute; reflexivity|].
  exact (overall_score_near_mean _ H).
Defined.

(** Detector reports that add up to a critical risk score of 85. *)
Definition x8_event : TxAnomaly.ManipulationEvent :=
  {| TxAnomaly.me_timestamp := 0; TxAnomaly.me_block := 0; TxAnomaly.me_price_change := Fin 0;
     TxAnomaly.me_volume_spike := Fin 0; TxAnomaly.me_wallet := "w"; TxAnomaly.me_pair := "P";
     TxAnomaly.me_value_usd := 0 |}.

Definition x8_block : TxAnomaly.CoordinatedEvent :=
  {| TxAnomaly.ce_block := 0; TxAnomaly.ce_timestamp := 0; TxAnomaly.num_wallets := 5;
     TxAnomaly.ce_total_value := 20000; TxAnomaly.ce_wallets := [] |}.

Definition x8_scheme : TxAnomaly.PumpScheme :=
  {| TxAnomaly.pump_time := 0; TxAnomaly.pump_price_increase := Fin 1;
     TxAnomaly.dump_price_decrease := Fin 1; TxAnomaly.dump_wallets := 20;
     TxAnomaly.dump_volume := 100000; TxAnomaly.confidence := 1 |}.

Definition x8_wash : TxAnomaly.WashResult := TxAnomaly.WashReport 9 [] 100000 0.
Definition x8_price : TxAnomaly.PriceResult :=
  TxAnomaly.PriceReport [x8_event; x8_event; x8_event]
    [x8_block; x8_block; x8_block; x8_block; x8_block] 8 (Fin 0).
Definition x8_pump : TxAnomaly.PumpResult :=
  {| TxAnomaly.detected_schemes := [x8_scheme]; TxAnomaly.num_schemes := 1;
     TxAnomaly.high_confidence := [x8_scheme] |}.

(** Witness of [risk_level_critical_needs_all_detectors]. *)
Lemma risk_level_critical_needs_all_detectors_witness :
  AnomalySystem._get_risk_level x8_wash x8_price x8_pump = "CRITICAL"
  /\ (0 < TxAnomaly.wash_detected_count x8_wash)%nat
  /\ (0 < List.length (AnomalySystem.price_manipulation_events x8_price)
          + List.length (AnomalySystem.price_coordinated_trading x8_price))%nat
  /\ (0 < List.length (TxAnomaly.high_confidence x8_pump) + TxAnomaly.num_schemes x8_pump)%nat.
Proof.
  assert (H : AnomalySystem._get_risk_level x8_wash x8_price x8_pump = "CRITICAL")
    by (vm_compute; reflexivity).
  split; [exact H|]. exact (risk_level_critical_needs_all_detectors _ _ _ H).
Defined.

(** Five $300 buys of one wallet in one block: a same-block wash-trading
    pattern and nothing else. *)
Definition x9_rows : list TxAnomaly.Row :=
  map (fun ts => mk_row "buy" "a" 1 ts 300 (Fin 1)) [0; 1; 2; 3; 4]%Z.

(** Witness of [analyze_token_minimal_iff_nothing_found] on [x9_rows]: one
    suspicious wallet, risk level LOW, so both sides are false. *)
Lemma analyze_token_minimal_iff_nothing_found_witness :
  exists r, AnomalySystem.analyze_token "medium" x9_rows = Ok (Some r)
    /\ AnomalySystem.risk_level r = "LOW"
    /\ TxAnomaly.wash_detected_count (AnomalySystem.wash_trading r) = 1%nat
    /\ (AnomalySystem.risk_level r = "MINIMAL"
        <-> TxAnomaly.wash_detected_count (AnomalySystem.wash_trading r) = 0%nat
            /\ AnomalySystem.price_manipulation_events (AnomalySystem.price_manipulation r) = []
            /\ AnomalySystem.price_coordinated_trading (AnomalySystem.price_manipulation r) = []
            /\ TxAnomaly.num_schemes (AnomalySystem.pump_and_dump r) = 0%nat).
Proof.
  eexists. split; [vm_compute; reflexivity|].
  split; [vm_compute; reflexivity|]. split; [vm_compute; reflexivity|].
  apply (analyze_token_minimal_iff_nothing_found "medium" x9_rows).
  vm_compute. reflexivity.
Defined.

Definition x10_swaps : list WalletBehavior.SwapTransaction :=
  [wb_swap "buy" "newPosition" "T" 100 1; wb_swap "buy" "" "T" 200 2].

(** Witness of [insider_trades_sorted_and_bounded]: a position in T whose
    price doubled, with a parser mapping every timestamp to 0 and the clock
    at 0. *)
Lemma insider_trades_sorted_and_bounded_witness :
  exists ts, WalletBehavior.insider_analyze (fun _ => Ok 0%Z) 0%Z "w" x10_swaps 0 = Ok ts
    /\ Sorted (fun a b => WalletBehavior.suspicion_score b <= WalletBehavior.suspicion_score a) ts
    /\ Forall (fun t => 0 <= WalletBehavior.suspicion_score t <= 80
                        /\ In (WalletBehavior.entry_transaction t) x10_swaps
                        /\ WalletBehavior.transaction_type (WalletBehavior.entry_transaction t) = "buy") ts.
Proof.
  eexists. split; [reflexivity|].
  apply (insider_trades_sorted_and_bounded (fun _ => Ok 0%Z) 0%Z "w" x10_swaps 0). reflexivity.
Defined.

(** Witness of [sniping_profile_bounds] on the five buys of [c9_swaps]. *)
Lemma sniping_profile_bounds_witness :
  exists bot, WalletBehavior.sniping_analyze "w" c9_swaps = Some bot
    /\ (5 <= List.length (filter (fun s => String.eqb (WalletBehavior.transaction_type s) "buy") c9_swaps))%nat
    /\ (WalletBehavior.total_snipes bot
        <= List.length (filter (fun s => String.eqb (WalletBehavior.transaction_type s) "buy") c9_swaps))%nat
    /\ 0 <= WalletBehavior.bot_confidence_score bot <= 100.
Proof.
  eexists. split; [reflexivity|].
  apply (sniping_profile_bounds "w" c9_swaps). reflexivity.
Defined.

Definition x13_swaps : list Pool.PoolSwap := [mk_pool "a" 6000 1; mk_pool "b" 100 2].

(** Witness of [concentrated_attacks_sorted_and_scored]: a $6000 swap
    followed by a price move of 50%. *)
Lemma concentrated_attacks_sorted_and_scored_witness :
  exists attacks, Pool.concentrated_analyze x13_swaps = Ok attacks
    /\ attacks <> []
    /\ Sorted (fun a b => Pool.attack_confidence b <= Pool.attack_confidence a) attacks
    /\ Forall (fun a => 55 < Pool.attack_confidence a <= 100
         /\ ((Pool.attack_type a = "Price Manipulation" /\ 5 < Pool.price_impact a)
             \/ (Pool.attack_type a = "Liquidity Sniping"
                 /\ (3 <= List.length (Pool.transactions_involved a))%nat))) attacks.
Proof.
  eexists. split; [reflexivity|]. split; [discriminate|].
  apply (concentrated_attacks_sorted_and_scored x13_swaps). reflexivity.
Defined.

(** Fifty trades of one pair, one per second: the price doubles at the
    eleventh and falls back at the twelfth, and each of the 39 later
    trades is a $2000 "sellAll" of its own wallet when [tagged]; without
    the tag no record has a [subCategory] key. *)
Definition pump_rows (tagged : bool) : list TxAnomaly.Row :=
  map (fun i =>
         {| TxAnomaly.transactionHash := "0x"; TxAnomaly.transactionType := "sell";
            TxAnomaly.blockNumber := Z.of_nat i; TxAnomaly.blockTimestamp := Z.of_nat i;
            TxAnomaly.walletAddress := String (ascii_of_nat (48 + i)) "";
            TxAnomaly.pairAddress := "p"; TxAnomaly.pairLabel := "P";
            TxAnomaly.subCategory := if tagged && (11 <=? i)%nat then Some (JStr "sellAll") else None;
            TxAnomaly.totalValueUsd := if (11 <=? i)%nat then 2000 else 10;
            TxAnomaly.baseQuotePrice := Fin (if (i =? 10)%nat then 2 else 1) |})
      (seq 0 50).

(** The tagged batch gives one scheme of confidence 0.9; the untagged
    batch makes the detector raise KeyError at the pump. *)
Lemma pump_detect_on_pump_rows :
  (exists res, TxAnomaly.pump_detect TxAnomaly.pump_medium (pump_rows true) = Ok res
               /\ TxAnomaly.num_schemes res = 1%nat
               /\ exists s, TxAnomaly.detected_schemes res = [s] /\ TxAnomaly.confidence s == 9#10)
  /\ TxAnomaly.pump_detect TxAnomaly.pump_medium (pump_rows false) = Raise (KeyError "subCategory").
Proof.
  split; [|vm_compute; reflexivity].
  eexists. split; [vm_compute; reflexivity|]. split; [vm_compute; reflexivity|].
  eexists. split; vm_compute; reflexivity.
Qed.
